(** * FacilityAI backend: the availability query, the booking flow and the
      payment-link stub of [main.py], over a model of the document store.

    The handlers of [main.py] are embedded as programs of a small
    state-and-exception monad over a [World], which holds the document
    store, the clock, the entropy source and a log of the store calls made. *)

From Stdlib Require Import ZArith NArith String Ascii List Bool Lia.
From stdpp Require Import base option list gmap strings.

Local Open Scope string_scope.
Local Open Scope list_scope.
Local Open Scope Z_scope.

(** ** Python runtime values used by the handlers *)

Module Py.

(** *** Characters and decimal numerals *)

Definition is_digit (c : ascii) : bool :=
  let n := nat_of_ascii c in Nat.leb 48 n && Nat.leb n 57.

Definition digit_val (c : ascii) : Z := Z.of_nat (nat_of_ascii c) - 48.

(** The ASCII characters [int] skips around a numeral. *)
Definition is_space (c : ascii) : bool :=
  let n := nat_of_ascii c in
  (Nat.leb 9 n && Nat.leb n 13) || Nat.eqb n 32.

Fixpoint lstrip (s : string) : string :=
  match s with
  | String c s' => if is_space c then lstrip s' else s
  | EmptyString => EmptyString
  end.

Fixpoint rstrip (s : string) : string :=
  match s with
  | String c s' =>
      match rstrip s' with
      | EmptyString => if is_space c then EmptyString else String c EmptyString
      | r => String c r
      end
  | EmptyString => EmptyString
  end.

(** Digits of a decimal literal, single underscores allowed between digits:
    [acc] is the value read so far, [after_digit] tells whether the previous
    character was a digit. *)
Fixpoint int_digits (s : string) (acc : Z) (after_digit : bool) : option Z :=
  match s with
  | EmptyString => if after_digit then Some acc else None
  | String c s' =>
      if is_digit c then int_digits s' (10 * acc + digit_val c) true
      else if (Ascii.eqb c "_" && after_digit)%bool then
        match s' with
        | String d _ => if is_digit d then int_digits s' acc false else None
        | EmptyString => None
        end
      else None
  end.

(** [int(s)] for a string [s]: blanks around an optionally signed decimal
    literal; [None] stands for the [ValueError]. *)
Definition int_of_str (s : string) : option Z :=
  match rstrip (lstrip s) with
  | String "-" r => Z.opp <$> int_digits r 0 false
  | String "+" r => int_digits r 0 false
  | r => int_digits r 0 false
  end.

(** A field of exactly [n] decimal digits, as the ISO parsers read it. *)
Fixpoint fixed_digits (n : nat) (s : string) (acc : Z) : option (Z * string) :=
  match n with
  | O => Some (acc, s)
  | S n' =>
      match s with
      | String c s' =>
          if is_digit c then fixed_digits n' s' (10 * acc + digit_val c) else None
      | EmptyString => None
      end
  end.

(** *** Hexadecimal numerals (the text form of an ObjectId) *)

Definition hex_char (d : N) : ascii :=
  if (d <? 10)%N then ascii_of_N (48 + d) else ascii_of_N (87 + d).

Definition hex_val (c : ascii) : option N :=
  let n := N_of_ascii c in
  if ((48 <=? n) && (n <=? 57))%N then Some (n - 48)%N
  else if ((97 <=? n) && (n <=? 102))%N then Some (n - 87)%N
  else if ((65 <=? n) && (n <=? 70))%N then Some (n - 55)%N
  else None.

(** [k] lowercase hexadecimal digits of [n], most significant first. *)
Fixpoint to_hex (k : nat) (n : N) : string :=
  match k with
  | O => EmptyString
  | S k' => String (hex_char ((n / 16 ^ N.of_nat k') mod 16)%N) (to_hex k' n)
  end.

Fixpoint of_hex (s : string) (acc : N) : option N :=
  match s with
  | EmptyString => Some acc
  | String c s' =>
      match hex_val c with
      | Some d => of_hex s' (16 * acc + d)%N
      | None => None
      end
  end.

(** *** [secrets.token_urlsafe] and the URL-safe base64 alphabet *)

Definition b64_char (i : N) : ascii :=
  if (i <? 26)%N then ascii_of_N (65 + i)
  else if (i <? 52)%N then ascii_of_N (71 + i)
  else if (i <? 62)%N then ascii_of_N (i - 4)
  else if (i =? 62)%N then "-"%char else "_"%char.

(** [base64.urlsafe_b64encode]: three bytes give four characters, a last
    group of one or two bytes is padded with [=]. *)
Fixpoint urlsafe_b64encode (bs : list Byte.byte) : string :=
  match bs with
  | [] => EmptyString
  | [a] =>
      let n := Byte.to_N a in
      String (b64_char (n / 4)) (String (b64_char (n mod 4 * 16)) "==")
  | [a; b] =>
      let n := (Byte.to_N a * 256 + Byte.to_N b)%N in
      String (b64_char (n / 1024))
        (String (b64_char (n / 16 mod 64)) (String (b64_char (n mod 16 * 4)) "="))
  | a :: b :: c :: rest =>
      let n := (Byte.to_N a * 65536 + Byte.to_N b * 256 + Byte.to_N c)%N in
      String (b64_char (n / 262144))
        (String (b64_char (n / 4096 mod 64))
           (String (b64_char (n / 64 mod 64))
              (String (b64_char (n mod 64)) (urlsafe_b64encode rest))))
  end.

(** [s.rstrip(c)] for a single character [c]. *)
Fixpoint rstrip_char (c : ascii) (s : string) : string :=
  match s with
  | String d s' =>
      match rstrip_char c s' with
      | EmptyString => if Ascii.eqb d c then EmptyString else String d EmptyString
      | r => String d r
      end
  | EmptyString => EmptyString
  end.

(** The characters that need no escaping in a URL path segment. *)
Definition url_safe_char (c : ascii) : bool :=
  let n := nat_of_ascii c in
  (Nat.leb 65 n && Nat.leb n 90) || (Nat.leb 97 n && Nat.leb n 122)
  || (Nat.leb 48 n && Nat.leb n 57) || Nat.eqb n 45 || Nat.eqb n 95.

(** *** [datetime] and [timedelta]

    A [datetime] is kept as the number of microseconds its wall-clock
    reading lies after 0001-01-01T00:00:00, with its UTC offset (in
    microseconds) when it is timezone-aware. *)

Record datetime := mk_datetime { wall : Z; utcoffset : option Z }.

#[global] Instance datetime_eq_dec : EqDecision datetime.
Proof. solve_decision. Defined.

Definition US_PER_SECOND : Z := 1000000.
Definition US_PER_DAY : Z := 86400 * US_PER_SECOND.
Definition MINYEAR : Z := 1.
Definition MAXYEAR : Z := 9999.
(** [date.max.toordinal()], the ordinal of 9999-12-31. *)
Definition MAXORDINAL : Z := 3652059.

Definition is_leap (year : Z) : bool :=
  (year mod 4 =? 0) && (negb (year mod 100 =? 0) || (year mod 400 =? 0)).

Definition days_before_year (year : Z) : Z :=
  let y := year - 1 in y * 365 + y / 4 - y / 100 + y / 400.

Definition days_in_month (year month : Z) : Z :=
  if month =? 2 then (if is_leap year then 29 else 28)
  else if (month =? 4) || (month =? 6) || (month =? 9) || (month =? 11) then 30
  else 31.

Definition days_before_month (year month : Z) : Z :=
  nth (Z.to_nat (month - 1))
      [0; 31; 59; 90; 120; 151; 181; 212; 243; 273; 304; 334] 0
  + (if (2 <? month) && is_leap year then 1 else 0).

(** Ordinal of a calendar day, 0001-01-01 being day 1. *)
Definition ymd2ord (year month day : Z) : Z :=
  days_before_year year + days_before_month year month + day.

(** The constructor [datetime(year, month, day, hour, minute, second,
    microsecond, tzinfo)]; [None] stands for its [ValueError]. *)
Definition new_datetime (year month day hour minute second microsecond : Z)
    (tz : option Z) : option datetime :=
  if (MINYEAR <=? year) && (year <=? MAXYEAR)
     && (1 <=? month) && (month <=? 12)
     && (1 <=? day) && (day <=? days_in_month year month)
     && (0 <=? hour) && (hour <=? 23)
     && (0 <=? minute) && (minute <=? 59)
     && (0 <=? second) && (second <=? 59)
     && (0 <=? microsecond) && (microsecond <=? 999999)
  then Some (mk_datetime
               (((ymd2ord year month day - 1) * 86400
                 + hour * 3600 + minute * 60 + second) * US_PER_SECOND
                + microsecond) tz)
  else None.

(** [timedelta(days=d)] in microseconds; [None] is its [OverflowError]. *)
Definition timedelta_days (d : Z) : option Z :=
  if Z.abs d <=? 999999999 then Some (d * US_PER_DAY) else None.

(** [dt + delta]; [None] is the [OverflowError] of a result outside
    0001-01-01 .. 9999-12-31. *)
Definition datetime_add (dt : datetime) (delta : Z) : option datetime :=
  let w := wall dt + delta in
  if (0 <=? w) && (w <? MAXORDINAL * US_PER_DAY)
  then Some (mk_datetime w (utcoffset dt)) else None.

(** The instant a datetime denotes, as microseconds of UTC; a naive
    datetime is read as UTC. *)
Definition utc_instant (dt : datetime) : Z :=
  wall dt - default 0 (utcoffset dt).

(** *** [datetime.fromisoformat]

    The format documented for Python 3.7 to 3.10,
    [YYYY-MM-DD[*HH[:MM[:SS[.fff[fff]]]][+HH:MM[:SS[.ffffff]]]]],
    where [*] is any single character; [None] stands for the
    [ValueError]. A string of this format reads the same in every later
    version; from Python 3.11 on the library reads further ISO 8601
    spellings as well (the basic format [20240110], week dates, a
    trailing [Z]), on which this model gives [None]. What is proved of a
    string that does not parse is therefore proved of
    [check_availability_with], for any reading of the library. *)

Definition expect (c : ascii) (s : string) : option string :=
  match s with
  | String c' s' => if Ascii.eqb c c' then Some s' else None
  | EmptyString => None
  end.

Definition parse_isoformat_date (s : string) : option (Z * Z * Z * string) :=
  '(year, s) ← fixed_digits 4 s 0;
  s ← expect "-" s;
  '(month, s) ← fixed_digits 2 s 0;
  s ← expect "-" s;
  '(day, s) ← fixed_digits 2 s 0;
  Some (year, month, day, s).

(** The fraction [.fff] or [.ffffff] that may close a time. *)
Definition parse_fraction (s : string) : option Z :=
  match s with
  | EmptyString => Some 0
  | String "." f =>
      if Nat.eqb (String.length f) 3 then
        '(us, _) ← fixed_digits 3 f 0; Some (us * 1000)
      else if Nat.eqb (String.length f) 6 then
        '(us, _) ← fixed_digits 6 f 0; Some us
      else None
  | _ => None
  end.

(** [HH[:MM[:SS[.fff[fff]]]]] over the whole of [s]. *)
Definition parse_hh_mm_ss_ff (s : string) : option (Z * Z * Z * Z) :=
  '(hh, s) ← fixed_digits 2 s 0;
  match s with
  | EmptyString => Some (hh, 0, 0, 0)
  | String ":" s =>
      '(mm, s) ← fixed_digits 2 s 0;
      match s with
      | EmptyString => Some (hh, mm, 0, 0)
      | String ":" s =>
          '(ss, s) ← fixed_digits 2 s 0;
          us ← parse_fraction s;
          Some (hh, mm, ss, us)
      | _ => None
      end
  | _ => None
  end.

(** Splits a time at its first sign: the time proper, and the sign with the
    offset text behind it. *)
Fixpoint split_tz (s : string) : string * option (bool * string) :=
  match s with
  | EmptyString => (EmptyString, None)
  | String c s' =>
      if Ascii.eqb c "+" then (EmptyString, Some (false, s'))
      else if Ascii.eqb c "-" then (EmptyString, Some (true, s'))
      else let '(t, z) := split_tz s' in (String c t, z)
  end.

(** The offset [HH:MM], [HH:MM:SS] or [HH:MM:SS.ffffff], in microseconds;
    it has to lie strictly within a day. *)
Definition parse_tz (negative : bool) (s : string) : option Z :=
  let n := String.length s in
  if Nat.eqb n 5 || Nat.eqb n 8 || Nat.eqb n 15 then
    '(hh, mm, ss, us) ← parse_hh_mm_ss_ff s;
    let off := (hh * 3600 + mm * 60 + ss) * US_PER_SECOND + us in
    let off := if negative then - off else off in
    if (- US_PER_DAY <? off) && (off <? US_PER_DAY) then Some off else None
  else None.

Definition parse_isoformat_time (s : string) : option (Z * Z * Z * Z * option Z) :=
  let '(t, z) := split_tz s in
  '(hh, mm, ss, us) ← parse_hh_mm_ss_ff t;
  match z with
  | None => Some (hh, mm, ss, us, None)
  | Some (negative, ztext) =>
      off ← parse_tz negative ztext; Some (hh, mm, ss, us, Some off)
  end.

(** Bytes taken by the separator character, from its first UTF-8 byte. *)
Definition sep_width (c : ascii) : nat :=
  let n := N_of_ascii c in
  if (n <? 128)%N then 1%nat
  else if (N.land n 240 =? 224)%N then 3%nat
  else if (N.land n 240 =? 240)%N then 4%nat
  else 2%nat.

Fixpoint drop_chars (n : nat) (s : string) : string :=
  match n, s with
  | S n', String _ s' => drop_chars n' s'
  | _, _ => s
  end.

Definition fromisoformat (date_string : string) : option datetime :=
  '(year, month, day, rest) ← parse_isoformat_date date_string;
  match rest with
  | EmptyString => new_datetime year month day 0 0 0 0 None
  | String sep _ =>
      '(hh, mm, ss, us, tz) ← parse_isoformat_time (drop_chars (sep_width sep) rest);
      new_datetime year month day hh mm ss us tz
  end.

End Py.

(** ** Documents and the document store *)

(** A field of a document. *)
Inductive Value :=
  | VNull
  | VInt (n : Z)
  | VStr (s : string)
  | VDate (d : Py.datetime).

#[global] Instance Value_eq_dec : EqDecision Value.
Proof. solve_decision. Defined.

(** The identifier of a stored document: an ObjectId (a 96-bit number,
    written as 24 hexadecimal digits) when the store generated it, or a
    string. *)
Inductive Id :=
  | IdOid (o : N)
  | IdStr (s : string).

#[global] Instance Id_eq_dec : EqDecision Id.
Proof. solve_decision. Defined.

(** A document as [get_documents] hands it over: every stored document
    carries an [_id], so the key ["_id"] of the dict is kept apart from the
    other keys. *)
Record Doc := mk_doc { _id : Id; fields : gmap string Value }.

(** [str(d["_id"])]. *)
Definition str_of_id (i : Id) : string :=
  match i with
  | IdOid o => Py.to_hex 24 o
  | IdStr s => s
  end.

(** [bson.ObjectId(s)] for a string [s]: 24 hexadecimal digits; [None] is
    its [InvalidId]. *)
Definition ObjectId (s : string) : option N :=
  if Nat.eqb (String.length s) 24 then Py.of_hex s 0 else None.

(** [int(v)]; [None] is the [TypeError] or [ValueError]. *)
Definition py_int (v : Value) : option Z :=
  match v with
  | VInt n => Some n
  | VStr s => Py.int_of_str s
  | VNull | VDate _ => None
  end.

(** A condition of a query filter: [{"k": v}], or
    [{"k": {"$gte": a, "$lt": b}}] on a date. *)
Inductive Cond :=
  | CEq (v : Value)
  | CRange (gte lt : Py.datetime).

(** The exceptions the handlers meet. *)
Inductive Exception :=
  | HTTPException (status_code : Z) (detail : string)
  | ValueError
  | TypeError
  | OverflowError
  | InvalidId
  | StoreError.

Inductive Outcome (A : Type) :=
  | Return (a : A)
  | Raised (e : Exception).
Arguments Return {A} a.
Arguments Raised {A} e.

(** The calls made on the store, in order. *)
Inductive Event :=
  | Find (collection : string) (filter : gmap string Cond) (limit : Z)
  | InsertOne (collection : string) (document : gmap string Value)
  | UpdateOne (collection : string) (id : Id)
      (inc : list (string * Z)) (set : list (string * Value)).

(** What a handler runs against. [outage k] tells whether the store fails
    the call number [k] made on it. *)
Record World := mk_world {
  collections : gmap string (list Doc);
  next_oid : N;
  clock : Py.datetime;
  urandom : nat -> Byte.byte;
  drawn : nat;
  outage : nat -> bool;
  calls : list Event
}.

Definition M (A : Type) : Type := World -> Outcome A * World.

Definition ret {A} (a : A) : M A := fun w => (Return a, w).

Definition bind {A B} (m : M A) (k : A -> M B) : M B :=
  fun w =>
    match m w with
    | (Return a, w') => k a w'
    | (Raised e, w') => (Raised e, w')
    end.

Definition raise {A} (e : Exception) : M A := fun w => (Raised e, w).

(** [try: body / except Exception: handler]. *)
Definition try_except {A} (body : M A) (handler : Exception -> M A) : M A :=
  fun w =>
    match body w with
    | (Return a, w') => (Return a, w')
    | (Raised e, w') => handler e w'
    end.

(** A library call that raises [e] where its model gives [None]. *)
Definition or_raise {A} (e : Exception) (o : option A) : M A :=
  match o with
  | Some a => ret a
  | None => raise e
  end.

#[global] Instance M_ret : MRet M := @ret.
#[global] Instance M_bind : MBind M := fun A B k m => bind m k.

(** [datetime.utcnow()]. *)
Definition utcnow : M Py.datetime := fun w => (Return (clock w), w).

(** [secrets.token_bytes(n)]: the next [n] bytes of the entropy source. *)
Definition token_bytes (n : nat) : M (list Byte.byte) :=
  fun w =>
    (Return (map (fun i => urandom w (drawn w + i)%nat) (seq 0 n)),
     mk_world (collections w) (next_oid w) (clock w) (urandom w)
              (drawn w + n)%nat (outage w) (calls w)).

(** [secrets.token_urlsafe(n)]. *)
Definition token_urlsafe (n : nat) : M string :=
  tok ← token_bytes n;
  ret (Py.rstrip_char "=" (Py.urlsafe_b64encode tok)).

Module Database.

(** The document-store adapter of [database.py] ([get_documents],
    [create_document] and the handle [db]), which [main.py] imports. A
    collection is the list of its documents in insertion order. *)

Definition docs (collection : string) (w : World) : list Doc :=
  default [] (collections w !! collection).

Definition same_value (a b : Value) : bool :=
  match a, b with
  | VDate x, VDate y => Py.utc_instant x =? Py.utc_instant y
  | _, _ => bool_decide (a = b)
  end.

Definition holds (c : Cond) (field : option Value) : bool :=
  match c, field with
  | CEq VNull, None => true
  | CEq v, Some x => same_value x v
  | CRange a b, Some (VDate x) =>
      (Py.utc_instant a <=? Py.utc_instant x)
      && (Py.utc_instant x <? Py.utc_instant b)
  | _, _ => false
  end.

(** Modelled from the spec: the filters of the store. A document satisfies
    a filter when each of its conditions holds; equality on a date and the
    range [$gte]/[$lt] compare instants. *)
Definition matches (filter : gmap string Cond) (d : Doc) : bool :=
  forallb (fun kc => holds (snd kc) (fields d !! fst kc)) (map_to_list filter).

Definition log_call (ev : Event) (w : World) : World :=
  mk_world (collections w) (next_oid w) (clock w) (urandom w)
           (drawn w) (outage w) (calls w ++ [ev]).

(** Calls are logged, and fail as a whole during an outage. *)
Definition store_call {A} (ev : Event) (run : M A) : M A :=
  fun w =>
    if outage w (length (calls w)) then (Raised StoreError, log_call ev w)
    else run (log_call ev w).

Definition set_docs (collection : string) (ds : list Doc) (w : World) : World :=
  mk_world (<[collection := ds]> (collections w)) (next_oid w) (clock w)
           (urandom w) (drawn w) (outage w) (calls w).

(** Modelled from the spec: [get_documents] of [database.py], which is not
    among the sources. The spec gives it as [query(collection, filter,
    limit) -> records]: at most [limit] documents that satisfy the filter,
    here in the order of the collection. *)
Definition get_documents (collection : string) (filter : gmap string Cond)
    (limit : Z) : M (list Doc) :=
  store_call (Find collection filter limit)
    (fun w => (Return (take (Z.to_nat limit)
                         (List.filter (matches filter) (docs collection w))), w)).

(** Modelled from the spec: [create_document] of [database.py], which is
    not among the sources. The spec gives it as [insert(collection, record)
    -> id]: the record is stored under a store-generated identifier, whose
    text is returned. *)
Definition create_document (collection : string) (data : gmap string Value)
    : M string :=
  store_call (InsertOne collection data)
    (fun w =>
       let i := IdOid (next_oid w) in
       let w' := set_docs collection (docs collection w ++ [mk_doc i data]) w in
       (Return (str_of_id i),
        mk_world (collections w') (next_oid w + 1)%N (clock w') (urandom w')
                 (drawn w') (outage w') (calls w'))).

(** [$inc]: an absent field is created with the amount; a field that is
    not a number makes the update fail. *)
Definition apply_inc (kd : string * Z) (f : option (gmap string Value))
    : option (gmap string Value) :=
  f ← f;
  match f !! kd.1 with
  | None => Some (<[kd.1 := VInt kd.2]> f)
  | Some (VInt n) => Some (<[kd.1 := VInt (n + kd.2)]> f)
  | Some _ => None
  end.

Definition apply_update (inc : list (string * Z)) (set : list (string * Value))
    (f : gmap string Value) : option (gmap string Value) :=
  f ← foldr apply_inc (Some f) inc;
  Some (foldr (fun kv g => <[kv.1 := kv.2]> g) f set).

(** The first document of the list with the identifier is updated. *)
Fixpoint update_first (id : Id) (upd : gmap string Value -> option (gmap string Value))
    (ds : list Doc) : option (list Doc) :=
  match ds with
  | [] => Some []
  | d :: ds' =>
      if decide (_id d = id) then
        f ← upd (fields d); Some (mk_doc (_id d) f :: ds')
      else (cons d) <$> update_first id upd ds'
  end.

(** Modelled from the spec: the handle [db] of [database.py], which is not
    among the sources, used as
    [db[collection].update_one({"_id": id}, {"$inc": inc, "$set": set})].
    The spec gives it as a filtered update by identifier with atomic
    increment and field-set operations. *)
Definition update_one (collection : string) (id : Id)
    (inc : list (string * Z)) (set : list (string * Value)) : M unit :=
  store_call (UpdateOne collection id inc set)
    (fun w =>
       match update_first id (apply_update inc set) (docs collection w) with
       | Some ds => (Return tt, set_docs collection ds w)
       | None => (Raised StoreError, w)
       end).

End Database.

(** ** The handlers of [main.py] *)

Import Database.

(** Truth value of an [Optional[str]]: [None] and the empty string are
    false. *)
Definition truthy (o : option string) : bool :=
  match o with
  | Some s => negb (String.eqb s "")
  | None => false
  end.

(** An [Optional[str]] as a field of a record to store. *)
Definition opt_str (o : option string) : Value :=
  match o with
  | Some s => VStr s
  | None => VNull
  end.

Module AvailabilityQuery.
Record t := mk {
  service_id : option string;
  staff_id : option string;
  date : option string;
  days : Z;
  limit : Z
}.
End AvailabilityQuery.

Definition scheduleslot : string := "scheduleslot".

(** [check_availability], with [datetime.fromisoformat] as the running
    Python reads it: the strings it accepts differ from one version of the
    library to the next. The result is the list under ["slots"]. *)
Definition check_availability_with
    (fromisoformat : string -> option Py.datetime)
    (query : AvailabilityQuery.t) : M (list Doc) :=
  let filter_dict : gmap string Cond := {[ "status" := CEq (VStr "open") ]} in
  let filter_dict :=
    if truthy (AvailabilityQuery.service_id query)
    then <["service_id" := CEq (opt_str (AvailabilityQuery.service_id query))]> filter_dict
    else filter_dict in
  let filter_dict :=
    if truthy (AvailabilityQuery.staff_id query)
    then <["staff_id" := CEq (opt_str (AvailabilityQuery.staff_id query))]> filter_dict
    else filter_dict in
  start_day ←
    (if truthy (AvailabilityQuery.date query) then
       try_except
         (or_raise ValueError
            (fromisoformat (default "" (AvailabilityQuery.date query))))
         (fun _ => raise (HTTPException 400 "Invalid date format, use YYYY-MM-DD"))
     else utcnow);
  delta ← or_raise OverflowError (Py.timedelta_days (AvailabilityQuery.days query));
  end_day ← or_raise OverflowError (Py.datetime_add start_day delta);
  let filter_dict := <["start_time" := CRange start_day end_day]> filter_dict in
  slots ← get_documents scheduleslot filter_dict (AvailabilityQuery.limit query);
  ret (map (fun s => mk_doc (IdStr (str_of_id (_id s))) (fields s)) slots).

(** [check_availability] over the model [Py.fromisoformat] of the
    library. *)
Definition check_availability (query : AvailabilityQuery.t) : M (list Doc) :=
  check_availability_with Py.fromisoformat query.

Module BookingCreate.
Record t := mk {
  customer_id : string;
  service_id : string;
  staff_id : option string;
  start_time : Py.datetime;
  end_time : Py.datetime;
  notes : option string;
  source : option string
}.
End BookingCreate.

Module BookingCreated.
Record t := mk { id : string; status : string }.
End BookingCreated.

(** [int(slot.get("remaining", 1))]. *)
Definition remaining_of (slot : Doc) : option Z :=
  py_int (default (VInt 1) (fields slot !! "remaining")).

(** The record [create_booking_api] inserts. *)
Definition booking_record (payload : BookingCreate.t) (slot : option Doc)
    : gmap string Value :=
  {[ "customer_id" := VStr (BookingCreate.customer_id payload);
     "service_id" := VStr (BookingCreate.service_id payload);
     "staff_id" := opt_str (BookingCreate.staff_id payload);
     "start_time" := VDate (BookingCreate.start_time payload);
     "end_time" := VDate (BookingCreate.end_time payload);
     "status" := VStr "confirmed";
     "quantity" := VInt 1;
     "price_cents" := VInt 0;
     "source" := VStr (if truthy (BookingCreate.source payload)
                       then default "" (BookingCreate.source payload) else "ai");
     "notes" := opt_str (BookingCreate.notes payload);
     "schedule_slot_id" := match slot with
                           | Some s => VStr (str_of_id (_id s))
                           | None => VNull
                           end ]}.

(** The update of the matched slot, the body of the [try]. *)
Definition decrement_slot (slot : Doc) : M unit :=
  oid ← or_raise InvalidId (ObjectId (str_of_id (_id slot)));
  remaining ← or_raise TypeError (remaining_of slot);
  update_one scheduleslot (IdOid oid)
    [("remaining", -1)]
    [("status", VStr (if remaining - 1 <=? 0 then "booked" else "open"))].

Definition create_booking_api (payload : BookingCreate.t) : M BookingCreated.t :=
  slots ← get_documents scheduleslot
             {[ "start_time" := CEq (VDate (BookingCreate.start_time payload));
                "end_time" := CEq (VDate (BookingCreate.end_time payload)) ]} 1;
  slot ←
    match slots with
    | slot :: _ =>
        if bool_decide (fields slot !! "status" ≠ Some (VStr "open"))
        then raise (HTTPException 400 "Slot not available")
        else
          remaining ← or_raise TypeError (remaining_of slot);
          if remaining <=? 0
          then raise (HTTPException 400 "Slot not available")
          else ret (Some slot)
    | [] => ret None
    end;
  booking_id ← create_document "booking" (booking_record payload slot);
  match slot with
  | Some slot => try_except (decrement_slot slot) (fun _ => ret tt)
  | None => ret tt
  end;;
  ret (BookingCreated.mk booking_id "created").

Module PaymentLinkCreate.
Record t := mk {
  customer_id : string;
  amount_cents : Z;
  description : option string
}.
End PaymentLinkCreate.

Module PaymentLinkCreated.
Record t := mk { id : string; token : string; url : string }.
End PaymentLinkCreated.

Definition create_payment_link (payload : PaymentLinkCreate.t)
    : M PaymentLinkCreated.t :=
  token ← token_urlsafe 12;
  let url := "/pay/" +:+ token in
  now ← utcnow;
  delta ← or_raise OverflowError (Py.timedelta_days 7);
  expires_at ← or_raise OverflowError (Py.datetime_add now delta);
  let link : gmap string Value :=
    {[ "customer_id" := VStr (PaymentLinkCreate.customer_id payload);
       "amount_cents" := VInt (PaymentLinkCreate.amount_cents payload);
       "currency" := VStr "AUD";
       "description" := opt_str (PaymentLinkCreate.description payload);
       "status" := VStr "pending";
       "token" := VStr token;
       "url" := VStr url;
       "expires_at" := VDate expires_at ]} in
  link_id ← create_document "paymentlink" link;
  ret (PaymentLinkCreated.mk link_id token url).


(** ** Notions used in the statements *)

(** The filter [check_availability] has built when it queries the store
    for the window from [start_day] to [end_day]. *)
Definition availability_filter (query : AvailabilityQuery.t)
    (start_day end_day : Py.datetime) : gmap string Cond :=
  let filter_dict : gmap string Cond := {[ "status" := CEq (VStr "open") ]} in
  let filter_dict :=
    if truthy (AvailabilityQuery.service_id query)
    then <["service_id" := CEq (opt_str (AvailabilityQuery.service_id query))]> filter_dict
    else filter_dict in
  let filter_dict :=
    if truthy (AvailabilityQuery.staff_id query)
    then <["staff_id" := CEq (opt_str (AvailabilityQuery.staff_id query))]> filter_dict
    else filter_dict in
  <["start_time" := CRange start_day end_day]> filter_dict.

(** The ["_id"] of a returned slot, rendered as a string. *)
Definition normalize (s : Doc) : Doc :=
  mk_doc (IdStr (str_of_id (_id s))) (fields s).

(** Midnight of a calendar day, as a naive datetime. *)
Definition midnight (year month day : Z) : Py.datetime :=
  Py.mk_datetime ((Py.ymd2ord year month day - 1) * Py.US_PER_DAY) None.

(** The time of day [hh:mm:ss.us], in microseconds. *)
Definition time_of_day (hh mm ss us : Z) : Z :=
  (hh * 3600 + mm * 60 + ss) * Py.US_PER_SECOND + us.

(** The filter of the slot lookup of [create_booking_api]. *)
Definition lookup_filter (payload : BookingCreate.t) : gmap string Cond :=
  {[ "start_time" := CEq (VDate (BookingCreate.start_time payload));
     "end_time" := CEq (VDate (BookingCreate.end_time payload)) ]}.

(** The slots the lookup of [create_booking_api] matches, in store order;
    the handler takes the first. *)
Definition matching_slots (payload : BookingCreate.t) (w : World) : list Doc :=
  List.filter (matches (lookup_filter payload)) (docs scheduleslot w).

Definition slot_not_available : Exception :=
  HTTPException 400 "Slot not available".

Definition invalid_date : Exception :=
  HTTPException 400 "Invalid date format, use YYYY-MM-DD".

(** The world of [create_booking_api] once the booking is inserted, before
    the matched slot is updated. *)
Definition booked_world (payload : BookingCreate.t) (slot : option Doc)
    (w : World) : World :=
  snd (create_document "booking" (booking_record payload slot)
         (log_call (Find scheduleslot (lookup_filter payload) 1) w)).

(** What the caller of [create_booking_api] receives for the booking
    inserted in world [w]. *)
Definition acknowledgement (w : World) : BookingCreated.t :=
  BookingCreated.mk (Py.to_hex 24 (next_oid w)) "created".

(** A program that only adds to the log of store calls. *)
Definition appends {A} (m : M A) : Prop :=
  ∀ w, ∃ rest, calls (snd (m w)) = calls w ++ rest.

(** The record [create_payment_link] inserts for a token and an expiry. *)
Definition payment_link_record (payload : PaymentLinkCreate.t)
    (token : string) (expires_at : Py.datetime) : gmap string Value :=
  {[ "customer_id" := VStr (PaymentLinkCreate.customer_id payload);
     "amount_cents" := VInt (PaymentLinkCreate.amount_cents payload);
     "currency" := VStr "AUD";
     "description" := opt_str (PaymentLinkCreate.description payload);
     "status" := VStr "pending";
     "token" := VStr token;
     "url" := VStr ("/pay/" +:+ token);
     "expires_at" := VDate expires_at ]}.

(** The bytes [secrets.token_bytes(n)] draws in world [w]. *)
Definition next_bytes (n : nat) (w : World) : list Byte.byte :=
  map (fun i => urandom w (drawn w + i)%nat) (seq 0 n).

Fixpoint all_chars (p : ascii -> bool) (s : string) : bool :=
  match s with
  | String c s' => p c && all_chars p s'
  | EmptyString => true
  end.

(** The place of a character in the URL-safe base64 alphabet. *)
Definition b64_val (c : ascii) : N :=
  let n := N_of_ascii c in
  if ((65 <=? n) && (n <=? 90))%N then (n - 65)%N
  else if ((97 <=? n) && (n <=? 122))%N then (n - 71)%N
  else if ((48 <=? n) && (n <=? 57))%N then (n + 4)%N
  else if (n =? 45)%N then 62%N else 63%N.

Definition byte_of_N (n : N) : Byte.byte := default Byte.x00 (Byte.of_N n).

(** The bytes an unpadded URL-safe base64 text of whole groups stands
    for: four characters give three bytes. *)
Fixpoint b64_groups_decode (s : string) : list Byte.byte :=
  match s with
  | String c1 (String c2 (String c3 (String c4 rest))) =>
      let n := (b64_val c1 * 262144 + b64_val c2 * 4096
                + b64_val c3 * 64 + b64_val c4)%N in
      byte_of_N (n / 65536) :: byte_of_N (n / 256 mod 256)
        :: byte_of_N (n mod 256) :: b64_groups_decode rest
  | _ => []
  end.

(** ** A sample store *)

Module Sample.

(** An instant of 2024-01-10, [seconds] after midnight. *)
Definition on_2024_01_10 (seconds : Z) : Py.datetime :=
  Py.mk_datetime (738894 * Py.US_PER_DAY + seconds * Py.US_PER_SECOND) None.

Definition t0900 := on_2024_01_10 32400.
Definition t0930 := on_2024_01_10 34200.
Definition t1000 := on_2024_01_10 36000.
Definition t1030 := on_2024_01_10 37800.
Definition t1100 := on_2024_01_10 39600.
Definition t1130 := on_2024_01_10 41400.
Definition t1200 := on_2024_01_10 43200.
Definition t1230 := on_2024_01_10 45000.
Definition t1300 := on_2024_01_10 46800.
Definition t1330 := on_2024_01_10 48600.

(** One place left, for another service than the requests below ask. *)
Definition slot_a : Doc :=
  mk_doc (IdOid 7)
    {[ "service_id" := VStr "massage"; "staff_id" := VStr "kim";
       "start_time" := VDate t0900; "end_time" := VDate t0930;
       "capacity" := VInt 1; "remaining" := VInt 1; "status" := VStr "open" ]}.

(** Three places left. *)
Definition slot_b : Doc :=
  mk_doc (IdOid 8)
    {[ "service_id" := VStr "haircut";
       "start_time" := VDate t1000; "end_time" := VDate t1030;
       "capacity" := VInt 3; "remaining" := VInt 3; "status" := VStr "open" ]}.

(** Fully booked. *)
Definition slot_c : Doc :=
  mk_doc (IdOid 9)
    {[ "service_id" := VStr "haircut";
       "start_time" := VDate t1100; "end_time" := VDate t1130;
       "capacity" := VInt 1; "remaining" := VInt 0; "status" := VStr "booked" ]}.

(** A record without the field [remaining]. *)
Definition slot_d : Doc :=
  mk_doc (IdOid 10)
    {[ "service_id" := VStr "haircut";
       "start_time" := VDate t1200; "end_time" := VDate t1230;
       "status" := VStr "open" ]}.

(** A record whose identifier is not an ObjectId. *)
Definition slot_e : Doc :=
  mk_doc (IdStr "slot-e")
    {[ "service_id" := VStr "haircut";
       "start_time" := VDate t1300; "end_time" := VDate t1330;
       "capacity" := VInt 2; "remaining" := VInt 2; "status" := VStr "open" ]}.

Definition entropy (i : nat) : Byte.byte :=
  nth i [Byte.x3a; Byte.xf1; Byte.x07; Byte.xc4; Byte.x5e; Byte.x99;
         Byte.x00; Byte.xff; Byte.x12; Byte.xab; Byte.x6d; Byte.x80] Byte.x00.

(** The store at 08:00 of that day, every call served. *)
Definition world : World :=
  mk_world {[ scheduleslot := [slot_a; slot_b; slot_c; slot_d; slot_e] ]}
           4096 (on_2024_01_10 28800) entropy 0 (fun _ => false) [].

(** The same store, failing its third call. *)
Definition world_failing_third : World :=
  mk_world (collections world) 4096 (on_2024_01_10 28800) entropy 0
           (fun k => Nat.eqb k 2) [].

Definition booking (start_time end_time : Py.datetime) : BookingCreate.t :=
  BookingCreate.mk "cust-1" "haircut" None start_time end_time None None.

Definition availability (date : option string) : AvailabilityQuery.t :=
  AvailabilityQuery.mk None None date 7 20.

End Sample.

(** ** The record shapes of [schemas.py] *)

Module Schemas.

(** The annotation of a field; [Literal] fields list their strings. *)
Inductive FieldType :=
  | Str
  | OptionalStr
  | Int
  | Datetime
  | OptionalDatetime
  | Literal (allowed : list string).

(** A field of a model class: its name, its annotation, and whether the
    class gives it no default. *)
Record Field := mk_field {
  field_name : string;
  field_type : FieldType;
  required : bool
}.

(** A value of the annotated type, as it is, without coercion. *)
Definition has_type (t : FieldType) (v : Value) : bool :=
  match t, v with
  | Str, VStr _ => true
  | OptionalStr, (VStr _ | VNull) => true
  | Int, VInt _ => true
  | Datetime, VDate _ => true
  | OptionalDatetime, (VDate _ | VNull) => true
  | Literal allowed, VStr s => bool_decide (s ∈ allowed)
  | _, _ => false
  end.

(** A record has the shape of a class when each declared field is of its
    type where present, and has a default where absent; further keys, such
    as ["_id"], are not looked at. *)
Definition has_shape (class : list Field) (record : gmap string Value) : bool :=
  forallb (fun f =>
             match record !! field_name f with
             | Some v => has_type (field_type f) v
             | None => negb (required f)
             end) class.

Definition ScheduleSlot : list Field :=
  [ mk_field "service_id" OptionalStr false;
    mk_field "staff_id" OptionalStr false;
    mk_field "start_time" Datetime true;
    mk_field "end_time" Datetime true;
    mk_field "capacity" Int false;
    mk_field "remaining" Int false;
    mk_field "location" OptionalStr false;
    mk_field "status" (Literal ["open"; "held"; "booked"; "blocked"]) false ].

Definition Booking : list Field :=
  [ mk_field "customer_id" Str true;
    mk_field "service_id" Str true;
    mk_field "staff_id" OptionalStr false;
    mk_field "start_time" Datetime true;
    mk_field "end_time" Datetime true;
    mk_field "status" (Literal ["pending"; "confirmed"; "cancelled"]) false;
    mk_field "quantity" Int false;
    mk_field "price_cents" Int false;
    mk_field "source" (Literal ["phone"; "web"; "ai"; "manual"]) false;
    mk_field "notes" OptionalStr false;
    mk_field "schedule_slot_id" OptionalStr false ].

Definition PaymentLink : list Field :=
  [ mk_field "customer_id" Str true;
    mk_field "amount_cents" Int true;
    mk_field "currency" Str false;
    mk_field "description" OptionalStr false;
    mk_field "status" (Literal ["pending"; "paid"; "expired"]) false;
    mk_field "token" OptionalStr false;
    mk_field "url" OptionalStr false;
    mk_field "expires_at" OptionalDatetime false ].

End Schemas.

(** ** The diagnostic endpoint of [main.py] *)

Module Diagnostics.

(** What [test_database] uses of the handle [db]: its attribute [name],
    when it has one, and [list_collection_names()], which gives the names
    or raises an exception with a message. *)
Record Handle := mk_handle {
  name : option string;
  list_collection_names : string + list string
}.

Record Response := mk_response {
  backend : string;
  database : string;
  database_url : option string;
  database_name : option string;
  connection_status : string;
  collections : list string
}.

(** A text is held as its UTF-8 bytes: a character is a byte that is not
    a continuation byte [10xxxxxx], with the continuation bytes behind
    it. *)
Definition is_continuation (c : ascii) : bool :=
  let n := N_of_ascii c in ((128 <=? n) && (n <? 192))%N.

(** [len(s)], the number of characters. *)
Fixpoint len (s : string) : nat :=
  match s with
  | EmptyString => O
  | String c s' => if is_continuation c then len s' else S (len s')
  end.

(** [s[:n]], the first [n] characters. *)
Fixpoint prefix (n : nat) (s : string) : string :=
  match s with
  | EmptyString => EmptyString
  | String c s' =>
      if is_continuation c then String c (prefix n s')
      else
        match n with
        | O => EmptyString
        | S n' => String c (prefix n' s')
        end
  end.

(** Whether a text starts at a character, not inside one. *)
Definition at_boundary (s : string) : bool :=
  match s with
  | EmptyString => true
  | String c _ => negb (is_continuation c)
  end.

(** [test_database], for the handle [db] ([None] when the store was never
    set up) and the value of the environment variable [DATABASE_URL]. The
    response is built field by field, as the code assigns it. *)
Definition test_database (db : option Handle) (DATABASE_URL : option string)
    : Response :=
  let response :=
    mk_response "✅ Running" "❌ Not Available" None None "Not Connected" [] in
  match db with
  | Some db =>
      let response :=
        mk_response (backend response) "✅ Available" (database_url response)
          (database_name response) (connection_status response)
          (collections response) in
      let response :=
        mk_response (backend response) (database response)
          (Some (if truthy DATABASE_URL then "✅ Set" else "❌ Not Set"))
          (database_name response) (connection_status response)
          (collections response) in
      let response :=
        mk_response (backend response) (database response) (database_url response)
          (Some (match name db with
                 | Some n => n
                 | None => "✅ Connected"
                 end))
          (connection_status response) (collections response) in
      let response :=
        mk_response (backend response) (database response) (database_url response)
          (database_name response) "Connected" (collections response) in
      match list_collection_names db with
      | inr names =>
          let response :=
            mk_response (backend response) (database response)
              (database_url response) (database_name response)
              (connection_status response) (take 10 names) in
          mk_response (backend response) "✅ Connected & Working"
            (database_url response) (database_name response)
            (connection_status response) (collections response)
      | inl e =>
          mk_response (backend response)
            ("⚠️ Connected but Error: " +:+ prefix 80 e)
            (database_url response) (database_name response)
            (connection_status response) (collections response)
      end
  | None =>
      mk_response (backend response) "⚠️ Available but not initialized"
        (database_url response) (database_name response)
        (connection_status response) (collections response)
  end.

End Diagnostics.

(** ** Further notions used in the statements *)

(** An [Optional[str]] with the empty string taken as absent. *)
Definition drop_empty (o : option string) : option string :=
  if truthy o then o else None.

(** [k] booking requests with the same payload, one after the other. *)
Fixpoint book_repeatedly (payload : BookingCreate.t) (k : nat) (w : World)
    : list (Outcome BookingCreated.t) * World :=
  match k with
  | O => ([], w)
  | S k' =>
      let '(o, w') := create_booking_api payload w in
      let '(os, w'') := book_repeatedly payload k' w' in
      (o :: os, w'')
  end.

(** The update of a slot that [create_booking_api] sends for a reading
    [n] of its places. *)
Definition slot_update (n : Z)
    : gmap string Value -> option (gmap string Value) :=
  apply_update [("remaining", -1)]
    [("status", VStr (if n - 1 <=? 0 then "booked" else "open"))].

(** Where the window of an availability query starts: the date parsed,
    or the clock reading when there is no date to parse; [None] when the
    date does not parse. *)
Definition window_start (query : AvailabilityQuery.t) (w : World)
    : option Py.datetime :=
  if truthy (AvailabilityQuery.date query)
  then Py.fromisoformat (default "" (AvailabilityQuery.date query))
  else Some (clock w).

(** The world after [create_payment_link]. *)
Definition linked_world (payload : PaymentLinkCreate.t) (w : World) : World :=
  snd (create_payment_link payload w).

(** ** Further samples *)

Module Scenario.

(** An open slot whose [remaining] is null. *)
Definition slot_null : Doc :=
  mk_doc (IdOid 11)
    {[ "service_id" := VStr "haircut";
       "start_time" := VDate Sample.t1300; "end_time" := VDate Sample.t1330;
       "remaining" := VNull; "status" := VStr "open" ]}.

Definition world_null : World :=
  mk_world {[ scheduleslot := [Sample.slot_a; slot_null] ]}
           4096 (Sample.on_2024_01_10 28800) Sample.entropy 0 (fun _ => false) [].

(** The sample store, failing its second call. *)
Definition world_failing_second : World :=
  mk_world (collections Sample.world) 4096 (Sample.on_2024_01_10 28800)
           Sample.entropy 0 (fun k => Nat.eqb k 1) [].

(** A request that names a source the [Booking] class does not list. *)
Definition booking_by_email : BookingCreate.t :=
  BookingCreate.mk "cust-1" "haircut" None Sample.t0930 Sample.t1000 None
    (Some "email").

Definition payment : PaymentLinkCreate.t :=
  PaymentLinkCreate.mk "cust-1" 4500 (Some "Deposit").

(** A request that names a staff member, carries notes and says where it
    comes from. *)
Definition booking_with_notes : BookingCreate.t :=
  BookingCreate.mk "cust-2" "massage" (Some "staff-7") Sample.t0930 Sample.t1000
    (Some "first visit") (Some "phone").

(** A message of [n] characters of two bytes each. *)
Definition accented (n : nat) : string := String.concat "" (repeat "é" n).

End Scenario.

(** The source [create_booking_api] records for a request:
    [payload.source or "ai"]. *)
Definition recorded_source (payload : BookingCreate.t) : string :=
  if truthy (BookingCreate.source payload)
  then default "" (BookingCreate.source payload) else "ai".

(** The two halves of [create_booking_api]: the lookup with the
    availability check, and the insert with the update of the slot. *)
Definition check_slot (payload : BookingCreate.t) : M (option Doc) :=
  slots ← get_documents scheduleslot
             {[ "start_time" := CEq (VDate (BookingCreate.start_time payload));
                "end_time" := CEq (VDate (BookingCreate.end_time payload)) ]} 1;
  match slots with
  | slot :: _ =>
      if bool_decide (fields slot !! "status" ≠ Some (VStr "open"))
      then raise (HTTPException 400 "Slot not available")
      else
        remaining ← or_raise TypeError (remaining_of slot);
        if remaining <=? 0
        then raise (HTTPException 400 "Slot not available")
        else ret (Some slot)
  | [] => ret None
  end.

Definition book_slot (payload : BookingCreate.t) (slot : option Doc)
    : M BookingCreated.t :=
  booking_id ← create_document "booking" (booking_record payload slot);
  match slot with
  | Some slot => try_except (decrement_slot slot) (fun _ => ret tt)
  | None => ret tt
  end;;
  ret (BookingCreated.mk booking_id "created").

(** Two requests served at the same time, in the order in which their
    store calls can fall: both lookups, then both inserts with their
    updates. *)
Definition interleaved (p1 p2 : BookingCreate.t)
    : M (BookingCreated.t * BookingCreated.t) :=
  s1 ← check_slot p1;
  s2 ← check_slot p2;
  a1 ← book_slot p1 s1;
  a2 ← book_slot p2 s2;
  ret (a1, a2).

(** The decimal digit of [n] at the units. *)
Definition digit (n : Z) : ascii := ascii_of_nat (Z.to_nat (48 + n mod 10)).

Definition two_digits (n : Z) (rest : string) : string :=
  String (digit (n / 10)) (String (digit n) rest).

Definition four_digits (n : Z) (rest : string) : string :=
  String (digit (n / 1000)) (String (digit (n / 100)) (two_digits n rest)).

Definition six_digits (n : Z) (rest : string) : string :=
  String (digit (n / 100000)) (String (digit (n / 10000)) (four_digits n rest)).

(** The seconds a date string gives behind [HH:MM]: none, whole seconds
    [:SS], or seconds with microseconds [:SS.ffffff]. *)
Inductive Seconds :=
  | NoSeconds
  | Whole (ss : Z)
  | Micro (ss us : Z).

(** The UTC offset a date string ends with: none, [+HH:MM] or [-HH:MM]. *)
Inductive Offset :=
  | Naive
  | East (hh mm : Z)
  | West (hh mm : Z).




Definition offset_text (o : Offset) : string :=
  match o with
  | Naive => ""
  | East hh mm => String "+" (two_digits hh (String ":" (two_digits mm "")))
  | West hh mm => String "-" (two_digits hh (String ":" (two_digits mm "")))
  end.

Definition seconds_text (s : Seconds) (rest : string) : string :=
  match s with
  | NoSeconds => rest
  | Whole ss => String ":" (two_digits ss rest)
  | Micro ss us => String ":" (two_digits ss (String "." (six_digits us rest)))
  end.

(** The text [YYYY-MM-DDTHH:MM] of a day and a time, with the seconds and
    the offset behind it when they are given. *)
Definition iso_datetime_text (year month day hh mm : Z) (s : Seconds)
    (o : Offset) : string :=
  four_digits year (String "-" (two_digits month (String "-" (two_digits day
    (String "T" (two_digits hh (String ":" (two_digits mm
       (seconds_text s (offset_text o)))))))))).


(** The update [create_booking_api] sends for a slot it read with [n]
    places, under the identifier [o]. *)
Definition update_call (o : N) (n : Z) : Event :=
  UpdateOne scheduleslot (IdOid o) [("remaining", -1)]
    [("status", VStr (if n - 1 <=? 0 then "booked" else "open"))].
(** ** The library models on examples *)

Example fromisoformat_date :
  Py.fromisoformat "2024-01-10"
  = Some (Py.mk_datetime (738894 * Py.US_PER_DAY) None).
Proof. reflexivity. Qed.

Example fromisoformat_datetime :
  Py.fromisoformat "2024-01-10T09:30"
  = Some (Py.mk_datetime (738894 * Py.US_PER_DAY + 34200 * Py.US_PER_SECOND) None).
Proof. reflexivity. Qed.

Example fromisoformat_aware :
  Py.fromisoformat "2024-01-10 09:30:15.250+10:00"
  = Some (Py.mk_datetime (738894 * Py.US_PER_DAY + 34215250000)
                         (Some (36000 * Py.US_PER_SECOND))).
Proof. reflexivity. Qed.

Example fromisoformat_rejects :
  map Py.fromisoformat
      ["2024-1-10"; "2024-01-10T"; "2024-02-30"; "10/01/2024"; "2024-01-10T25:00"; "tomorrow"]
  = [None; None; None; None; None; None].
Proof. reflexivity. Qed.

Example urlsafe_b64encode_examples :
  map Py.urlsafe_b64encode
      [[]; [Byte.x66]; [Byte.x66; Byte.x6f]; [Byte.x66; Byte.x6f; Byte.x6f];
       [Byte.xfb; Byte.xff; Byte.xbe]]
  = [""; "Zg=="; "Zm8="; "Zm9v"; "-_--"].
Proof. reflexivity. Qed.

Example int_of_str_examples :
  map Py.int_of_str [" 12 "; "-3"; "+1_000"; "0"; "1__0"; "abc"; ""; "3.0"]
  = [Some 12; Some (-3); Some 1000; Some 0; None; None; None; None].
Proof. reflexivity. Qed.

(** ** Running the monad *)

Lemma bind_run {A B} (m : M A) (k : A -> M B) (w : World) :
  (m ≫= k) w =
  match m w with
  | (Return a, w') => k a w'
  | (Raised e, w') => (Raised e, w')
  end.
Proof. reflexivity. Qed.

Lemma bind_return {A B} (m : M A) (k : A -> M B) w a w' :
  m w = (Return a, w') -> (m ≫= k) w = k a w'.
Proof. intros H. rewrite bind_run, H. reflexivity. Qed.

Lemma bind_raised {A B} (m : M A) (k : A -> M B) w e w' :
  m w = (Raised e, w') -> (m ≫= k) w = (Raised e, w').
Proof. intros H. rewrite bind_run, H. reflexivity. Qed.

Lemma truthy_Some (s : string) : s ≠ "" -> truthy (Some s) = true.
Proof.
  intros H. unfold truthy. destruct (String.eqb_spec s ""); [contradiction | reflexivity].
Qed.

Lemma truthy_inv (o : option string) :
  truthy o = true -> ∃ s, o = Some s ∧ s ≠ "".
Proof.
  destruct o as [s|]; simpl; [|discriminate].
  destruct (String.eqb_spec s ""); [discriminate|]. eauto.
Qed.

(** *** The store calls, when the store serves them *)

Section StoreCalls.
Variable w : World.
Hypothesis served : outage w (length (calls w)) = false.

Lemma get_documents_served collection filter limit :
  get_documents collection filter limit w
  = (Return (take (Z.to_nat limit)
               (List.filter (matches filter) (docs collection w))),
     log_call (Find collection filter limit) w).
Proof. unfold get_documents, store_call. rewrite served. reflexivity. Qed.

Lemma create_document_served collection data :
  ∃ w', create_document collection data w
        = (Return (Py.to_hex 24 (next_oid w)), w')
      ∧ collections w'
        = <[collection := docs collection w ++ [mk_doc (IdOid (next_oid w)) data]]>
            (collections w)
      ∧ calls w' = calls w ++ [InsertOne collection data]
      ∧ outage w' = outage w ∧ clock w' = clock w.
Proof.
  unfold create_document, store_call. rewrite served.
  eexists. split; [reflexivity|]. simpl. auto.
Qed.
End StoreCalls.

(** ** The availability query *)

Lemma check_availability_with_bad_date fromisoformat q w d :
  AvailabilityQuery.date q = Some d -> d ≠ "" -> fromisoformat d = None ->
  check_availability_with fromisoformat q w = (Raised invalid_date, w).
Proof.
  intros Hd Hne Hp. unfold check_availability_with. cbv zeta.
  rewrite bind_run, Hd, (truthy_Some d Hne).
  unfold try_except, or_raise.
  change (default "" (Some d)) with d. rewrite Hp. reflexivity.
Qed.

Lemma check_availability_bad_date q w d :
  AvailabilityQuery.date q = Some d -> d ≠ "" -> Py.fromisoformat d = None ->
  check_availability q w = (Raised invalid_date, w).
Proof. apply check_availability_with_bad_date. Qed.

Lemma fromisoformat_empty : Py.fromisoformat "" = None.
Proof. reflexivity. Qed.


(** C6 (as amended): a date string that is not empty and that
    [datetime.fromisoformat] does not parse makes the availability query
    fail with the 400 validation error, and the world is left as it was:
    no call reaches the store. This holds whatever strings the running
    version of the library parses. *)
Theorem check_availability_unparseable_date
    (fromisoformat : string -> option Py.datetime) q w d :
  AvailabilityQuery.date q = Some d -> d ≠ "" -> fromisoformat d = None ->
  fst (check_availability_with fromisoformat q w) = Raised invalid_date
  ∧ snd (check_availability_with fromisoformat q w) = w
  ∧ calls (snd (check_availability_with fromisoformat q w)) = calls w.
Proof.
  intros Hd Hne Hp.
  rewrite (check_availability_with_bad_date fromisoformat q w d Hd Hne Hp). auto.
Qed.

Lemma check_availability_unparseable_date_witness :
  fst (check_availability (Sample.availability (Some "10/01/2024")) Sample.world)
  = Raised invalid_date
  ∧ snd (check_availability (Sample.availability (Some "10/01/2024")) Sample.world)
    = Sample.world
  ∧ calls (snd (check_availability (Sample.availability (Some "10/01/2024")) Sample.world))
    = calls Sample.world.
Proof.
  apply (check_availability_unparseable_date Py.fromisoformat _ _ "10/01/2024");
    [reflexivity | discriminate | reflexivity].
Defined.

(** C6 as stated fails on the empty string: it is present and does not
    parse, yet the handler takes it as no date, answers with the slots of
    the week from the clock reading, and reads the store. *)
Lemma check_availability_empty_date_counterexample :
  AvailabilityQuery.date (Sample.availability (Some "")) = Some ""
  ∧ Py.fromisoformat "" = None
  ∧ fst (check_availability (Sample.availability (Some "")) Sample.world)
    = Return (map (fun s => mk_doc (IdStr (str_of_id (_id s))) (fields s))
                [Sample.slot_a; Sample.slot_b; Sample.slot_d; Sample.slot_e])
  ∧ calls (snd (check_availability (Sample.availability (Some "")) Sample.world))
    = [Find scheduleslot
         {[ "status" := CEq (VStr "open");
            "start_time" := CRange (Sample.on_2024_01_10 28800)
                              (Sample.on_2024_01_10 (28800 + 7 * 86400)) ]} 20].
Proof. vm_compute. auto. Qed.

(** *** The run of the query once the window is known *)

Lemma check_availability_window q w start_day delta end_day :
  (if truthy (AvailabilityQuery.date q)
   then Py.fromisoformat (default "" (AvailabilityQuery.date q))
   else Some (clock w)) = Some start_day ->
  Py.timedelta_days (AvailabilityQuery.days q) = Some delta ->
  Py.datetime_add start_day delta = Some end_day ->
  check_availability q w
  = (slots ← get_documents scheduleslot (availability_filter q start_day end_day)
               (AvailabilityQuery.limit q);
     ret (map normalize slots)) w.
Proof.
  intros Hs Hd He. unfold check_availability, check_availability_with. cbv zeta.
  rewrite bind_run.
  destruct (truthy (AvailabilityQuery.date q)).
  - unfold try_except. rewrite Hs. simpl.
    rewrite bind_run, Hd. simpl. rewrite bind_run, He. reflexivity.
  - injection Hs as <-. unfold utcnow.
  rewrite bind_run, Hd. simpl. rewrite bind_run, He. reflexivity.
Qed.

(** Whatever else happens, a date that parses never ends in a 400. *)
Lemma check_availability_parsed_outcome q w start_day :
  (if truthy (AvailabilityQuery.date q)
   then Py.fromisoformat (default "" (AvailabilityQuery.date q))
   else Some (clock w)) = Some start_day ->
  (∃ slots, fst (check_availability q w) = Return slots)
  ∨ fst (check_availability q w) = Raised OverflowError
  ∨ fst (check_availability q w) = Raised StoreError.
Proof.
  intros Hs.
  destruct (Py.timedelta_days (AvailabilityQuery.days q)) as [delta|] eqn:Hd.
  - destruct (Py.datetime_add start_day delta) as [end_day|] eqn:He.
    + rewrite (check_availability_window q w _ _ _ Hs Hd He).
      rewrite bind_run. unfold get_documents, store_call.
      destruct (outage w (length (calls w))); simpl; eauto.
    + right; left. unfold check_availability, check_availability_with. cbv zeta. rewrite bind_run.
      destruct (truthy (AvailabilityQuery.date q)).
      * unfold try_except. rewrite Hs. simpl.
        rewrite bind_run, Hd. simpl. rewrite bind_run, He. reflexivity.
      * injection Hs as <-. unfold utcnow.
        rewrite bind_run, Hd. simpl. rewrite bind_run, He. reflexivity.
  - right; left. unfold check_availability, check_availability_with. cbv zeta. rewrite bind_run.
    destruct (truthy (AvailabilityQuery.date q)).
    + unfold try_except. rewrite Hs. simpl. rewrite bind_run, Hd. reflexivity.
    + unfold utcnow. rewrite bind_run, Hd. reflexivity.
Qed.

(** *** What [fromisoformat] gives on a bare date and on a date with a time *)

Lemma fixed_digits_length n : ∀ s acc v r,
  Py.fixed_digits n s acc = Some (v, r) ->
  String.length s = (n + String.length r)%nat.
Proof.
  induction n as [|n IH]; intros s acc v r H; simpl in H.
  - injection H as _ ->. reflexivity.
  - destruct s as [|c s]; [discriminate|].
    destruct (Py.is_digit c); [|discriminate].
    apply IH in H. simpl. lia.
Qed.

Lemma expect_length c s r :
  Py.expect c s = Some r -> String.length s = S (String.length r).
Proof.
  destruct s as [|c' s]; simpl; [discriminate|].
  destruct (Ascii.eqb c c'); [|discriminate]. intros [= ->]. reflexivity.
Qed.

Lemma parse_isoformat_date_length s y m d r :
  Py.parse_isoformat_date s = Some (y, m, d, r) ->
  String.length s = (10 + String.length r)%nat.
Proof.
  unfold Py.parse_isoformat_date. intros H.
  destruct (Py.fixed_digits 4 s 0) as [[y' s1]|] eqn:E1; cbn -[Py.fixed_digits Py.expect] in H; [|discriminate].
  destruct (Py.expect "-" s1) as [s2|] eqn:E2; cbn -[Py.fixed_digits Py.expect] in H; [|discriminate].
  destruct (Py.fixed_digits 2 s2 0) as [[m' s3]|] eqn:E3; cbn -[Py.fixed_digits Py.expect] in H; [|discriminate].
  destruct (Py.expect "-" s3) as [s4|] eqn:E4; cbn -[Py.fixed_digits Py.expect] in H; [|discriminate].
  destruct (Py.fixed_digits 2 s4 0) as [[d' s5]|] eqn:E5; cbn -[Py.fixed_digits Py.expect] in H; [|discriminate].
  injection H as _ _ _ <-.
  apply fixed_digits_length in E1, E3, E5. apply expect_length in E2, E4. lia.
Qed.

Lemma new_datetime_wall y m d hh mm ss us tz dt :
  Py.new_datetime y m d hh mm ss us tz = Some dt ->
  Py.wall dt = Py.wall (midnight y m d) + time_of_day hh mm ss us
  ∧ Py.utcoffset dt = tz
  ∧ 0 <= time_of_day hh mm ss us < Py.US_PER_DAY.
Proof.
  unfold Py.new_datetime. intros H.
  match type of H with (if ?c then _ else _) = _ => destruct c eqn:Hc end;
    [|discriminate].
  injection H as <-. simpl.
  repeat (apply andb_prop in Hc as [Hc ?]).
  unfold time_of_day, Py.US_PER_DAY, Py.US_PER_SECOND. repeat split; lia.
Qed.

(** A date string of ten characters that parses is midnight of its day. *)
Lemma fromisoformat_bare_date s dt :
  String.length s = 10%nat -> Py.fromisoformat s = Some dt ->
  ∃ y m d, Py.parse_isoformat_date s = Some (y, m, d, "") ∧ dt = midnight y m d.
Proof.
  intros Hlen H. unfold Py.fromisoformat in H.
  destruct (Py.parse_isoformat_date s) as [[[[y m] d] r]|] eqn:E; simpl in H;
    [|discriminate].
  pose proof (parse_isoformat_date_length _ _ _ _ _ E) as Hl.
  destruct r as [|c r]; [|simpl in Hl; lia].
  exists y, m, d. split; [reflexivity|].
  apply new_datetime_wall in H as (Hw & Ho & _).
  destruct dt as [wl off]. simpl in *. subst. unfold midnight, time_of_day.
  f_equal. lia.
Qed.

(** A date string with a time behind the date parses to that time of the
    day. *)
Lemma fromisoformat_with_time s dt y m d r :
  Py.fromisoformat s = Some dt ->
  Py.parse_isoformat_date s = Some (y, m, d, r) -> r ≠ "" ->
  ∃ sep t hh mm ss us tz,
    r = String sep t
    ∧ Py.parse_isoformat_time (Py.drop_chars (Py.sep_width sep) r)
      = Some (hh, mm, ss, us, tz)
    ∧ Py.wall dt = Py.wall (midnight y m d) + time_of_day hh mm ss us
    ∧ Py.utcoffset dt = tz.
Proof.
  intros H E Hr. unfold Py.fromisoformat in H. rewrite E in H. simpl in H.
  destruct r as [|sep t]; [contradiction|].
  destruct (Py.parse_isoformat_time _) as [[[[[hh mm] ss] us] tz]|] eqn:Et;
    simpl in H; [|discriminate].
  apply new_datetime_wall in H as (Hw & Ho & _).
  exists sep, t, hh, mm, ss, us, tz. auto.
Qed.

(** *** What a matching document looks like *)

Lemma in_take_filter {A} (f : A -> bool) n (l : list A) x :
  In x (take n (List.filter f l)) -> In x l ∧ f x = true.
Proof.
  intros H. apply List.filter_In. apply list_elem_of_In.
  apply (subseteq_take n). apply list_elem_of_In. exact H.
Qed.

Lemma matches_lookup filter d k c :
  matches filter d = true -> filter !! k = Some c ->
  holds c (fields d !! k) = true.
Proof.
  unfold matches. intros H Hk.
  rewrite List.forallb_forall in H.
  apply (H (k, c)). apply list_elem_of_In, elem_of_map_to_list. exact Hk.
Qed.

Lemma matches_intro filter d :
  (∀ k c, filter !! k = Some c -> holds c (fields d !! k) = true) ->
  matches filter d = true.
Proof.
  intros H. unfold matches. apply List.forallb_forall.
  intros [k c] Hin. apply list_elem_of_In, elem_of_map_to_list in Hin.
  apply H. exact Hin.
Qed.

Lemma holds_eq_str s f :
  holds (CEq (VStr s)) f = true -> f = Some (VStr s).
Proof.
  destruct f as [x|]; [|discriminate].
  unfold holds, same_value. destruct x; intros H;
    apply bool_decide_eq_true in H; congruence.
Qed.

Lemma holds_eq_date a f :
  holds (CEq (VDate a)) f = true <->
  ∃ t, f = Some (VDate t) ∧ Py.utc_instant t = Py.utc_instant a.
Proof.
  destruct f as [x|].
  - unfold holds, same_value. destruct x; split;
      try (intros H; apply bool_decide_eq_true in H; discriminate);
      try (intros (t & [=] & _); fail).
    + intros H. apply Z.eqb_eq in H. eauto.
    + intros (t & [= <-] & H). apply Z.eqb_eq. exact H.
  - split; [discriminate | intros (t & [=] & _)].
Qed.

Lemma holds_range a b f :
  holds (CRange a b) f = true ->
  ∃ t, f = Some (VDate t)
       ∧ Py.utc_instant a <= Py.utc_instant t < Py.utc_instant b.
Proof.
  destruct f as [[| | |t]|]; simpl; try discriminate.
  intros H. apply andb_prop in H as [H1 H2].
  exists t. split; [reflexivity|]. lia.
Qed.

Lemma availability_filter_status q a b :
  availability_filter q a b !! "status" = Some (CEq (VStr "open")).
Proof.
  unfold availability_filter.
  destruct (truthy (AvailabilityQuery.service_id q)),
           (truthy (AvailabilityQuery.staff_id q));
    repeat (rewrite lookup_insert_ne by discriminate);
    apply lookup_singleton_eq.
Qed.

Lemma availability_filter_start_time q a b :
  availability_filter q a b !! "start_time" = Some (CRange a b).
Proof. unfold availability_filter. apply lookup_insert_eq. Qed.

Lemma datetime_add_instant a delta b :
  Py.datetime_add a delta = Some b ->
  Py.utc_instant b = Py.utc_instant a + delta.
Proof.
  unfold Py.datetime_add.
  destruct (_ && _); [|discriminate]. intros [= <-].
  unfold Py.utc_instant. simpl. lia.
Qed.

Lemma timedelta_days_value d delta :
  Py.timedelta_days d = Some delta -> delta = d * Py.US_PER_DAY.
Proof.
  unfold Py.timedelta_days. destruct (_ <=? _); [|discriminate]. congruence.
Qed.

(** *** The query, when it returns *)

Lemma check_availability_return q w slots :
  fst (check_availability q w) = Return slots ->
  ∃ start_day end_day,
    (if truthy (AvailabilityQuery.date q)
     then Py.fromisoformat (default "" (AvailabilityQuery.date q))
     else Some (clock w)) = Some start_day
    ∧ Py.utc_instant end_day
      = Py.utc_instant start_day + AvailabilityQuery.days q * Py.US_PER_DAY
    ∧ slots = map normalize
                (take (Z.to_nat (AvailabilityQuery.limit q))
                   (List.filter (matches (availability_filter q start_day end_day))
                      (docs scheduleslot w))).
Proof.
  intros H.
  destruct (if truthy (AvailabilityQuery.date q)
            then Py.fromisoformat (default "" (AvailabilityQuery.date q))
            else Some (clock w)) as [start_day|] eqn:Hs.
  - destruct (check_availability_parsed_outcome q w start_day Hs)
      as [[slots' Hr]|[Hr|Hr]]; [|congruence|congruence].
    destruct (Py.timedelta_days (AvailabilityQuery.days q)) as [delta|] eqn:Hd.
    + destruct (Py.datetime_add start_day delta) as [end_day|] eqn:He.
      * exists start_day, end_day. split; [reflexivity|]. split.
        { rewrite (datetime_add_instant _ _ _ He).
          rewrite (timedelta_days_value _ _ Hd). reflexivity. }
        rewrite (check_availability_window q w _ _ _ Hs Hd He) in H.
        rewrite bind_run in H. unfold get_documents, store_call in H.
        destruct (outage w (length (calls w))); [discriminate|].
        injection H as <-. reflexivity.
      * exfalso. revert H. unfold check_availability, check_availability_with. cbv zeta.
        rewrite bind_run.
        destruct (truthy (AvailabilityQuery.date q)).
        -- unfold try_except. rewrite Hs. simpl.
           rewrite bind_run, Hd. simpl. rewrite bind_run, He. discriminate.
        -- injection Hs as <-. unfold utcnow.
           rewrite bind_run, Hd. simpl. rewrite bind_run, He. discriminate.
    + exfalso. revert H. unfold check_availability, check_availability_with. cbv zeta.
      rewrite bind_run.
      destruct (truthy (AvailabilityQuery.date q)).
      * unfold try_except. rewrite Hs. simpl. rewrite bind_run, Hd. discriminate.
      * unfold utcnow. rewrite bind_run, Hd. discriminate.
  - destruct (truthy (AvailabilityQuery.date q)) eqn:Ht; [|discriminate].
    apply truthy_inv in Ht as (d & Hd & Hne). rewrite Hd in Hs. simpl in Hs.
    rewrite (check_availability_bad_date q w d Hd Hne Hs) in H. discriminate.
Qed.

(** The query does return when the window is representable and the store
    serves the call. *)
Lemma check_availability_served q w start_day delta end_day :
  (if truthy (AvailabilityQuery.date q)
   then Py.fromisoformat (default "" (AvailabilityQuery.date q))
   else Some (clock w)) = Some start_day ->
  Py.timedelta_days (AvailabilityQuery.days q) = Some delta ->
  Py.datetime_add start_day delta = Some end_day ->
  outage w (length (calls w)) = false ->
  fst (check_availability q w)
  = Return (map normalize
              (take (Z.to_nat (AvailabilityQuery.limit q))
                 (List.filter (matches (availability_filter q start_day end_day))
                    (docs scheduleslot w)))).
Proof.
  intros Hs Hd He Hserved.
  rewrite (check_availability_window q w _ _ _ Hs Hd He).
  rewrite bind_run, (get_documents_served w Hserved). reflexivity.
Qed.

(** C3: every slot an availability query returns is open and starts
    within [days] days from the window start. The window starts at the
    clock reading when no date is given (or an empty one), and else at the
    datetime the date parses to, which for a calendar date (ten
    characters, [YYYY-MM-DD]) is midnight of that date. *)
Theorem check_availability_slots_open_in_window q w slots :
  fst (check_availability q w) = Return slots ->
  ∃ window_start,
    match AvailabilityQuery.date q with
    | Some d =>
        if String.eqb d "" then window_start = clock w
        else
          Py.fromisoformat d = Some window_start
          ∧ (String.length d = 10%nat ->
             ∃ year month day,
               Py.parse_isoformat_date d = Some (year, month, day, "")
               ∧ window_start = midnight year month day)
    | None => window_start = clock w
    end
    ∧ Forall (fun s =>
                fields s !! "status" = Some (VStr "open")
                ∧ ∃ t, fields s !! "start_time" = Some (VDate t)
                       ∧ Py.utc_instant window_start <= Py.utc_instant t
                         < Py.utc_instant window_start
                           + AvailabilityQuery.days q * Py.US_PER_DAY)
             slots.
Proof.
  intros Hret.
  destruct (check_availability_return q w slots Hret)
    as (start_day & end_day & Hs & Hend & ->).
  exists start_day. split.
  - destruct (AvailabilityQuery.date q) as [d|] eqn:Hd.
    + unfold truthy in Hs. destruct (String.eqb d ""); simpl in Hs.
      * congruence.
      * split; [exact Hs|]. intros Hlen.
        apply fromisoformat_bare_date; assumption.
    + simpl in Hs. congruence.
  - apply List.Forall_forall. intros s Hin.
    apply List.in_map_iff in Hin as (s0 & <- & Hin).
    apply in_take_filter in Hin as [_ Hm]. simpl. split.
    + apply holds_eq_str.
      apply (matches_lookup _ _ _ _ Hm (availability_filter_status q _ _)).
    + pose proof (matches_lookup _ _ _ _ Hm
                    (availability_filter_start_time q start_day end_day)) as Hr.
      apply holds_range in Hr as (t & Ht & Hlo & Hhi).
      exists t. split; [exact Ht|]. lia.
Qed.

Lemma check_availability_slots_open_in_window_witness :
  fst (check_availability (Sample.availability (Some "2024-01-10")) Sample.world)
  = Return (map normalize [Sample.slot_a; Sample.slot_b; Sample.slot_d; Sample.slot_e])
  ∧ ∃ window_start,
      (Py.fromisoformat "2024-01-10" = Some window_start
       ∧ (String.length "2024-01-10" = 10%nat ->
          ∃ year month day,
            Py.parse_isoformat_date "2024-01-10" = Some (year, month, day, "")
            ∧ window_start = midnight year month day))
      ∧ Forall (fun s =>
                  fields s !! "status" = Some (VStr "open")
                  ∧ ∃ t, fields s !! "start_time" = Some (VDate t)
                         ∧ Py.utc_instant window_start <= Py.utc_instant t
                           < Py.utc_instant window_start + 7 * Py.US_PER_DAY)
               (map normalize [Sample.slot_a; Sample.slot_b; Sample.slot_d; Sample.slot_e]).
Proof.
  split; [vm_compute; reflexivity|].
  apply (check_availability_slots_open_in_window
           (Sample.availability (Some "2024-01-10")) Sample.world).
  vm_compute. reflexivity.
Defined.

(** *** The text of a day and a time, read back *)

Example iso_datetime_text_example :
  iso_datetime_text 2024 1 10 9 30 NoSeconds Naive = "2024-01-10T09:30"
  ∧ iso_datetime_text 2024 1 10 9 30 (Micro 5 250000) (West 5 30)
    = "2024-01-10T09:30:05.250000-05:30"
  ∧ iso_datetime_text 2016 12 31 23 59 (Whole 60) Naive = "2016-12-31T23:59:60".
Proof. repeat split; reflexivity. Qed.



























(** ** The booking flow *)

Section Booking.
Variable payload : BookingCreate.t.
Variable w : World.

Local Abbreviation w1 := (log_call (Find scheduleslot (lookup_filter payload) 1) w).

Hypothesis lookup_served : outage w (length (calls w)) = false.

Lemma lookup_run :
  get_documents scheduleslot (lookup_filter payload) 1 w
  = (Return (take 1 (matching_slots payload w)), w1).
Proof. apply get_documents_served. exact lookup_served. Qed.

(** The availability check on a matched slot. *)
Lemma rejected_slot slot more :
  matching_slots payload w = slot :: more ->
  fields slot !! "status" ≠ Some (VStr "open")
  ∨ (∃ n, remaining_of slot = Some n ∧ n <= 0) ->
  create_booking_api payload w = (Raised slot_not_available, w1).
Proof.
  intros Hm Hbad. unfold create_booking_api.
  rewrite bind_run. fold (lookup_filter payload). rewrite lookup_run, Hm.
  change (take 1 (slot :: more)) with [slot].
  rewrite bind_run.
  destruct (bool_decide (fields slot !! "status" ≠ Some (VStr "open"))) eqn:Hst.
  - reflexivity.
  - apply bool_decide_eq_false in Hst.
    destruct Hbad as [Hbad|(n & Hn & Hle)]; [contradiction|].
    rewrite bind_run, Hn. simpl.
    destruct (Z.leb_spec n 0); [reflexivity | lia].
Qed.

Lemma accepted_slot slot more n :
  matching_slots payload w = slot :: more ->
  fields slot !! "status" = Some (VStr "open") ->
  remaining_of slot = Some n -> 0 < n ->
  create_booking_api payload w
  = (booking_id ← create_document "booking" (booking_record payload (Some slot));
     try_except (decrement_slot slot) (fun _ => ret tt);;
     ret (BookingCreated.mk booking_id "created")) w1.
Proof.
  intros Hm Hst Hn Hpos. unfold create_booking_api.
  rewrite bind_run. fold (lookup_filter payload). rewrite lookup_run, Hm.
  change (take 1 (slot :: more)) with [slot].
  rewrite bind_run.
  rewrite bool_decide_eq_false_2 by (intros Hne; apply Hne; exact Hst).
  rewrite bind_run, Hn. simpl.
  destruct (Z.leb_spec n 0); [lia | reflexivity].
Qed.

Lemma no_slot :
  matching_slots payload w = [] ->
  create_booking_api payload w
  = (booking_id ← create_document "booking" (booking_record payload None);
     ret (BookingCreated.mk booking_id "created")) w1.
Proof.
  intros Hm. unfold create_booking_api.
  rewrite bind_run. fold (lookup_filter payload). rewrite lookup_run, Hm.
  reflexivity.
Qed.
End Booking.

Section Inserted.
Variable payload : BookingCreate.t.
Variable slot : option Doc.
Variable w : World.
Hypothesis insert_served : outage w (S (length (calls w))) = false.

Lemma insert_run :
  create_document "booking" (booking_record payload slot)
    (log_call (Find scheduleslot (lookup_filter payload) 1) w)
  = (Return (Py.to_hex 24 (next_oid w)), booked_world payload slot w).
Proof.
  unfold booked_world, create_document, store_call. simpl outage. simpl calls.
  rewrite length_app. simpl length. rewrite Nat.add_1_r, insert_served.
  reflexivity.
Qed.

Lemma booked_world_booking :
  docs "booking" (booked_world payload slot w)
  = docs "booking" w
    ++ [mk_doc (IdOid (next_oid w)) (booking_record payload slot)].
Proof.
  unfold booked_world, create_document, store_call. simpl outage. simpl calls.
  rewrite length_app. simpl length. rewrite Nat.add_1_r, insert_served.
  unfold docs. simpl. rewrite lookup_insert_eq. reflexivity.
Qed.

Lemma booked_world_scheduleslot :
  docs scheduleslot (booked_world payload slot w) = docs scheduleslot w.
Proof.
  unfold booked_world, create_document, store_call. simpl outage. simpl calls.
  rewrite length_app. simpl length. rewrite Nat.add_1_r, insert_served.
  unfold docs. simpl. rewrite lookup_insert_ne by discriminate. reflexivity.
Qed.

Lemma booked_world_calls :
  calls (booked_world payload slot w)
  = calls w ++ [Find scheduleslot (lookup_filter payload) 1;
                InsertOne "booking" (booking_record payload slot)].
Proof.
  unfold booked_world, create_document, store_call. simpl outage. simpl calls.
  rewrite length_app. simpl length. rewrite Nat.add_1_r, insert_served.
  simpl. rewrite <- app_assoc. reflexivity.
Qed.

Lemma booked_world_outage :
  outage (booked_world payload slot w) = outage w.
Proof.
  unfold booked_world, create_document, store_call. simpl outage. simpl calls.
  rewrite length_app. simpl length. rewrite Nat.add_1_r, insert_served.
  reflexivity.
Qed.
End Inserted.

(** *** The record inserted *)

Lemma booking_record_fields payload slot :
  let r := booking_record payload slot in
  r !! "customer_id" = Some (VStr (BookingCreate.customer_id payload))
  ∧ r !! "service_id" = Some (VStr (BookingCreate.service_id payload))
  ∧ r !! "staff_id" = Some (opt_str (BookingCreate.staff_id payload))
  ∧ r !! "start_time" = Some (VDate (BookingCreate.start_time payload))
  ∧ r !! "end_time" = Some (VDate (BookingCreate.end_time payload))
  ∧ r !! "notes" = Some (opt_str (BookingCreate.notes payload))
  ∧ r !! "status" = Some (VStr "confirmed")
  ∧ r !! "quantity" = Some (VInt 1)
  ∧ r !! "price_cents" = Some (VInt 0).
Proof.
  unfold booking_record. cbv zeta.
  repeat split;
    repeat (rewrite lookup_insert_ne by discriminate);
    first [apply lookup_insert_eq | apply lookup_singleton_eq].
Qed.

Lemma booking_record_source payload slot :
  booking_record payload slot !! "source"
  = Some (VStr (match BookingCreate.source payload with
                | Some s => if String.eqb s "" then "ai" else s
                | None => "ai"
                end)).
Proof.
  unfold booking_record.
  repeat (rewrite lookup_insert_ne by discriminate).
  rewrite lookup_insert_eq.
  destruct (BookingCreate.source payload) as [s|]; simpl; [|reflexivity].
  destruct (String.eqb s ""); reflexivity.
Qed.

Lemma booking_record_optional_fields payload slot :
  booking_record payload slot !! "staff_id"
  = Some (match BookingCreate.staff_id payload with
          | Some s => VStr s
          | None => VNull
          end)
  ∧ booking_record payload slot !! "notes"
    = Some (match BookingCreate.notes payload with
            | Some s => VStr s
            | None => VNull
            end).
Proof.
  unfold booking_record. split;
    repeat (rewrite lookup_insert_ne by discriminate);
    rewrite lookup_insert_eq; reflexivity.
Qed.

Lemma booking_record_slot_id payload slot :
  booking_record payload slot !! "schedule_slot_id"
  = Some (match slot with
          | Some s => VStr (str_of_id (_id s))
          | None => VNull
          end).
Proof.
  unfold booking_record.
  repeat (rewrite lookup_insert_ne by discriminate).
  apply lookup_singleton_eq.
Qed.

(** C2: when the slot the lookup matches is not open, or has no place
    left, the request fails with the 400 "Slot not available"; the store
    has only been read: no booking is inserted and no collection changes. *)
Theorem create_booking_slot_not_available payload w slot more :
  outage w (length (calls w)) = false ->
  matching_slots payload w = slot :: more ->
  fields slot !! "status" ≠ Some (VStr "open")
  ∨ (∃ n, remaining_of slot = Some n ∧ n <= 0) ->
  fst (create_booking_api payload w) = Raised (HTTPException 400 "Slot not available")
  ∧ collections (snd (create_booking_api payload w)) = collections w
  ∧ docs "booking" (snd (create_booking_api payload w)) = docs "booking" w
  ∧ next_oid (snd (create_booking_api payload w)) = next_oid w
  ∧ calls (snd (create_booking_api payload w))
    = calls w ++ [Find scheduleslot (lookup_filter payload) 1].
Proof.
  intros Hserved Hm Hbad.
  rewrite (rejected_slot payload w Hserved slot more Hm Hbad).
  repeat split.
Qed.

Lemma create_booking_slot_not_available_witness :
  matching_slots (Sample.booking Sample.t1100 Sample.t1130) Sample.world
  = [Sample.slot_c]
  ∧ fst (create_booking_api (Sample.booking Sample.t1100 Sample.t1130) Sample.world)
    = Raised (HTTPException 400 "Slot not available")
  ∧ collections (snd (create_booking_api (Sample.booking Sample.t1100 Sample.t1130)
                        Sample.world))
    = collections Sample.world.
Proof.
  split; [vm_compute; reflexivity|].
  destruct (create_booking_slot_not_available
              (Sample.booking Sample.t1100 Sample.t1130) Sample.world
              Sample.slot_c [] eq_refl) as (H1 & H2 & _).
  - vm_compute. reflexivity.
  - right. exists 0. split; [vm_compute; reflexivity | lia].
  - split; assumption.
Defined.

(** C5: when the lookup matches no slot, the booking is inserted and
    acknowledged all the same, with a null [schedule_slot_id], status
    [confirmed], price 0, the fields of the request copied (the staff
    member and the notes as given, null when the request has none), and
    the source [ai] unless the request names one. *)
Theorem create_booking_without_slot payload w :
  outage w (length (calls w)) = false ->
  outage w (S (length (calls w))) = false ->
  matching_slots payload w = [] ->
  let r := booking_record payload None in
  fst (create_booking_api payload w)
  = Return (BookingCreated.mk (Py.to_hex 24 (next_oid w)) "created")
  ∧ docs "booking" (snd (create_booking_api payload w))
    = docs "booking" w ++ [mk_doc (IdOid (next_oid w)) r]
  ∧ docs scheduleslot (snd (create_booking_api payload w)) = docs scheduleslot w
  ∧ r !! "schedule_slot_id" = Some VNull
  ∧ r !! "status" = Some (VStr "confirmed")
  ∧ r !! "price_cents" = Some (VInt 0)
  ∧ r !! "customer_id" = Some (VStr (BookingCreate.customer_id payload))
  ∧ r !! "service_id" = Some (VStr (BookingCreate.service_id payload))
  ∧ r !! "staff_id"
    = Some (match BookingCreate.staff_id payload with
            | Some s => VStr s
            | None => VNull
            end)
  ∧ r !! "start_time" = Some (VDate (BookingCreate.start_time payload))
  ∧ r !! "end_time" = Some (VDate (BookingCreate.end_time payload))
  ∧ r !! "notes"
    = Some (match BookingCreate.notes payload with
            | Some s => VStr s
            | None => VNull
            end)
  ∧ r !! "source"
    = Some (VStr (match BookingCreate.source payload with
                  | Some s => if String.eqb s "" then "ai" else s
                  | None => "ai"
                  end)).
Proof.
  intros Hlookup Hinsert Hm r.
  rewrite (no_slot payload w Hlookup Hm).
  rewrite bind_run, (insert_run payload None w Hinsert). simpl fst. simpl snd.
  destruct (booking_record_fields payload None)
    as (Hc & Hs & _ & Hb & He & _ & Hstat & _ & Hp).
  destruct (booking_record_optional_fields payload None) as (Hst & Hn).
  split; [reflexivity|].
  split; [apply booked_world_booking; exact Hinsert|].
  split; [apply booked_world_scheduleslot; exact Hinsert|].
  split; [apply (booking_record_slot_id payload None)|].
  repeat (split; [assumption|]).
  apply booking_record_source.
Qed.

Lemma create_booking_without_slot_witness :
  matching_slots Scenario.booking_with_notes Sample.world = []
  ∧ fst (create_booking_api Scenario.booking_with_notes Sample.world)
    = Return (BookingCreated.mk "000000000000000000001000" "created")
  ∧ docs "booking" (snd (create_booking_api Scenario.booking_with_notes Sample.world))
    = [mk_doc (IdOid 4096)
         {[ "customer_id" := VStr "cust-2";
            "service_id" := VStr "massage";
            "staff_id" := VStr "staff-7";
            "start_time" := VDate Sample.t0930;
            "end_time" := VDate Sample.t1000;
            "status" := VStr "confirmed";
            "quantity" := VInt 1;
            "price_cents" := VInt 0;
            "source" := VStr "phone";
            "notes" := VStr "first visit";
            "schedule_slot_id" := VNull ]}]
  ∧ booking_record Scenario.booking_with_notes None !! "staff_id"
    = Some (VStr "staff-7")
  ∧ booking_record Scenario.booking_with_notes None !! "notes"
    = Some (VStr "first visit")
  ∧ booking_record Scenario.booking_with_notes None !! "source"
    = Some (VStr "phone")
  ∧ booking_record (Sample.booking Sample.t0930 Sample.t1000) None !! "staff_id"
    = Some VNull
  ∧ booking_record (Sample.booking Sample.t0930 Sample.t1000) None !! "source"
    = Some (VStr "ai").
Proof.
  split; [vm_compute; reflexivity|].
  destruct (create_booking_without_slot Scenario.booking_with_notes Sample.world
              eq_refl eq_refl)
    as (H1 & H2 & _ & _ & _ & _ & _ & _ & H9 & _ & _ & H12 & H13).
  - vm_compute. reflexivity.
  - destruct (create_booking_without_slot
                (Sample.booking Sample.t0930 Sample.t1000) Sample.world
                eq_refl eq_refl)
      as (_ & _ & _ & _ & _ & _ & _ & _ & G9 & _ & _ & _ & G13).
    + vm_compute. reflexivity.
    + split; [exact H1|]. split; [rewrite H2; vm_compute; reflexivity|].
      split; [exact H9|]. split; [exact H12|]. split; [exact H13|].
      split; [exact G9 | exact G13].
Defined.

(** *** ObjectIds and their text *)

Lemma hex_val_char d : (d < 16)%N -> Py.hex_val (Py.hex_char d) = Some d.
Proof.
  intros H. destruct d as [|p]; [reflexivity|].
  repeat (destruct p as [p|p|]; try reflexivity; try (exfalso; lia)).
Qed.

Lemma to_hex_length k n : String.length (Py.to_hex k n) = k.
Proof. induction k as [|k IH]; simpl; [reflexivity | rewrite IH; reflexivity]. Qed.

Lemma of_hex_to_hex k : ∀ n acc,
  Py.of_hex (Py.to_hex k n) acc
  = Some (acc * 16 ^ N.of_nat k + n mod 16 ^ N.of_nat k)%N.
Proof.
  induction k as [|k IH]; intros n acc.
  - simpl. rewrite N.mod_1_r. f_equal. lia.
  - cbn [Py.to_hex Py.of_hex].
    rewrite hex_val_char by (apply N.mod_lt; discriminate).
    rewrite IH. f_equal.
    rewrite Nat2N.inj_succ, N.pow_succ_r'.
    rewrite (N.mul_comm 16 (16 ^ N.of_nat k)).
    rewrite (N.Div0.mod_mul_r n (16 ^ N.of_nat k) 16). lia.
Qed.

(** The text of a store-generated identifier reads back as that
    identifier. *)
Lemma ObjectId_str o : (o < 2 ^ 96)%N -> ObjectId (str_of_id (IdOid o)) = Some o.
Proof.
  intros H. unfold ObjectId, str_of_id.
  rewrite to_hex_length. simpl Nat.eqb. cbv iota.
  rewrite of_hex_to_hex.
  change (16 ^ N.of_nat 24)%N with (2 ^ 96)%N.
  rewrite N.mod_small by exact H. reflexivity.
Qed.

(** *** The update of one document *)

Lemma update_first_unique id upd before d after f :
  _id d = id -> id ∉ map _id before -> upd (fields d) = Some f ->
  update_first id upd (before ++ d :: after)
  = Some (before ++ mk_doc id f :: after).
Proof.
  intros Hid Hfresh Hupd. induction before as [|b before IH]; simpl.
  - rewrite decide_True by exact Hid. rewrite Hupd. simpl. rewrite Hid. reflexivity.
  - rewrite decide_False.
    + rewrite IH; [reflexivity|].
      intros Hin. apply Hfresh. simpl. apply list_elem_of_further. exact Hin.
    + intros Hb. apply Hfresh. simpl. rewrite Hb. apply list_elem_of_here.
Qed.

Lemma update_first_failure id upd before d after :
  _id d = id -> id ∉ map _id before -> upd (fields d) = None ->
  update_first id upd (before ++ d :: after) = None.
Proof.
  intros Hid Hfresh Hupd. induction before as [|b before IH]; simpl.
  - rewrite decide_True by exact Hid. rewrite Hupd. reflexivity.
  - rewrite decide_False.
    + rewrite IH; [reflexivity|].
      intros Hin. apply Hfresh. simpl. apply list_elem_of_further. exact Hin.
    + intros Hb. apply Hfresh. simpl. rewrite Hb. apply list_elem_of_here.
Qed.

(** With identifiers unique in a collection, a document of it splits the
    collection into the documents before it, none with its identifier, and
    those after it. *)
Lemma unique_id_split (ds : list Doc) d :
  NoDup (map _id ds) -> In d ds ->
  ∃ before after, ds = before ++ d :: after ∧ _id d ∉ map _id before.
Proof.
  intros Hnd Hin. apply List.in_split in Hin as (before & after & ->).
  exists before, after. split; [reflexivity|].
  rewrite map_app in Hnd. simpl in Hnd.
  apply NoDup_app in Hnd as (_ & Hdisj & _).
  intros Hin. apply (Hdisj _ Hin). apply list_elem_of_here.
Qed.

Lemma matching_slots_head payload w slot more :
  matching_slots payload w = slot :: more ->
  In slot (docs scheduleslot w) ∧ matches (lookup_filter payload) slot = true.
Proof.
  intros H. apply List.filter_In. fold (matching_slots payload w).
  rewrite H. left. reflexivity.
Qed.

(** *** The best-effort update of the matched slot *)

Lemma try_except_swallow (body : M unit) w :
  try_except body (fun _ => ret tt) w = (Return tt, snd (body w)).
Proof.
  unfold try_except. destruct (body w) as [[[]|e] w']; reflexivity.
Qed.

(** The update leaves the bookings alone, whatever its fate. *)
Lemma decrement_slot_booking slot w :
  docs "booking" (snd (decrement_slot slot w)) = docs "booking" w.
Proof.
  unfold decrement_slot. rewrite bind_run.
  destruct (ObjectId (str_of_id (_id slot))) as [o|]; [|reflexivity].
  simpl. rewrite bind_run.
  destruct (remaining_of slot) as [n|]; [|reflexivity].
  simpl. unfold update_one, store_call.
  destruct (outage w (length (calls w))); [reflexivity|].
  destruct (update_first _ _ _); [|reflexivity].
  unfold docs. simpl. rewrite lookup_insert_ne by discriminate. reflexivity.
Qed.

(** An update that fails has changed no collection. *)
Lemma decrement_slot_raised slot w e :
  fst (decrement_slot slot w) = Raised e ->
  collections (snd (decrement_slot slot w)) = collections w.
Proof.
  unfold decrement_slot. rewrite bind_run.
  destruct (ObjectId (str_of_id (_id slot))) as [o|]; [|reflexivity].
  simpl. rewrite bind_run.
  destruct (remaining_of slot) as [n|]; [|reflexivity].
  simpl. unfold update_one, store_call.
  destruct (outage w (length (calls w))); [reflexivity|].
  destruct (update_first _ _ _); [discriminate | reflexivity].
Qed.

(** The update that goes through, on a slot with a store-generated
    identifier that no document before it in the collection shares. *)
Lemma decrement_slot_applied slot w o n before after f :
  outage w (length (calls w)) = false ->
  _id slot = IdOid o -> (o < 2 ^ 96)%N ->
  remaining_of slot = Some n ->
  docs scheduleslot w = before ++ slot :: after ->
  IdOid o ∉ map _id before ->
  apply_update [("remaining", -1)]
    [("status", VStr (if n - 1 <=? 0 then "booked" else "open"))] (fields slot)
  = Some f ->
  fst (decrement_slot slot w) = Return tt
  ∧ docs scheduleslot (snd (decrement_slot slot w))
    = before ++ mk_doc (IdOid o) f :: after
  ∧ calls (snd (decrement_slot slot w))
    = calls w ++ [UpdateOne scheduleslot (IdOid o) [("remaining", -1)]
                    [("status", VStr (if n - 1 <=? 0 then "booked" else "open"))]].
Proof.
  intros Hserved Hid Ho Hn Hdocs Hfresh Hupd.
  unfold decrement_slot. rewrite bind_run, Hid, (ObjectId_str o Ho).
  simpl. rewrite bind_run, Hn. simpl.
  unfold update_one, store_call. rewrite Hserved.
  change (docs scheduleslot (log_call ?ev w)) with (docs scheduleslot w).
  rewrite Hdocs.
  rewrite (update_first_unique (IdOid o) _ before slot after f Hid Hfresh Hupd).
  split; [reflexivity|]. split; [|reflexivity].
  unfold docs. simpl. rewrite lookup_insert_eq. reflexivity.
Qed.

Section Matched.
Variable payload : BookingCreate.t.
Variable w : World.
Variables (slot : Doc) (more : list Doc) (n : Z).
Hypothesis lookup_served : outage w (length (calls w)) = false.
Hypothesis insert_served : outage w (S (length (calls w))) = false.
Hypothesis matched : matching_slots payload w = slot :: more.
Hypothesis open : fields slot !! "status" = Some (VStr "open").
Hypothesis places : remaining_of slot = Some n.
Hypothesis some_left : 0 < n.

(** The booking is acknowledged, and the world is the one the update
    attempt leaves behind. *)
Lemma matched_run :
  create_booking_api payload w
  = (Return (acknowledgement w),
     snd (decrement_slot slot (booked_world payload (Some slot) w))).
Proof.
  rewrite (accepted_slot payload w lookup_served slot more n matched open
             places some_left).
  rewrite bind_run, (insert_run payload (Some slot) w insert_served).
  rewrite bind_run, try_except_swallow. reflexivity.
Qed.

Lemma matched_booking :
  docs "booking" (snd (create_booking_api payload w))
  = docs "booking" w
    ++ [mk_doc (IdOid (next_oid w)) (booking_record payload (Some slot))].
Proof.
  rewrite matched_run. simpl snd. rewrite decrement_slot_booking.
  apply booked_world_booking. exact insert_served.
Qed.
End Matched.

Lemma remaining_of_int slot n :
  fields slot !! "remaining" = Some (VInt n) -> remaining_of slot = Some n.
Proof. unfold remaining_of. intros ->. reflexivity. Qed.

Lemma remaining_of_absent slot :
  fields slot !! "remaining" = None -> remaining_of slot = Some 1.
Proof. unfold remaining_of. intros ->. reflexivity. Qed.

(** C1: with the store serving the three calls and identifiers unique in
    the collection, a booking whose lookup matches an open slot with
    [remaining = n > 0] is acknowledged, and leaves that slot with
    [remaining = n - 1] and the status [booked] when [n - 1 <= 0], [open]
    otherwise; the other slots are as they were. *)
Theorem create_booking_decrements_slot payload w slot more o n :
  outage w (length (calls w)) = false ->
  outage w (S (length (calls w))) = false ->
  outage w (S (S (length (calls w)))) = false ->
  NoDup (map _id (docs scheduleslot w)) ->
  matching_slots payload w = slot :: more ->
  _id slot = IdOid o -> (o < 2 ^ 96)%N ->
  fields slot !! "status" = Some (VStr "open") ->
  fields slot !! "remaining" = Some (VInt n) -> 0 < n ->
  fst (create_booking_api payload w)
  = Return (BookingCreated.mk (Py.to_hex 24 (next_oid w)) "created")
  ∧ ∃ before after,
      docs scheduleslot w = before ++ slot :: after
      ∧ docs scheduleslot (snd (create_booking_api payload w))
        = before
          ++ mk_doc (_id slot)
               (<["status" := VStr (if n - 1 <=? 0 then "booked" else "open")]>
                  (<["remaining" := VInt (n - 1)]> (fields slot)))
          :: after.
Proof.
  intros H0 H1 H2 Hnd Hm Hid Ho Hopen Hrem Hpos.
  pose proof (remaining_of_int slot n Hrem) as Hn.
  rewrite (matched_run payload w slot more n H0 H1 Hm Hopen Hn Hpos).
  split; [reflexivity|]. simpl snd.
  destruct (matching_slots_head payload w slot more Hm) as [Hin _].
  destruct (unique_id_split _ slot Hnd Hin) as (before & after & Hdocs & Hfresh).
  exists before, after. split; [exact Hdocs|].
  rewrite Hid in Hfresh |- *.
  eapply (decrement_slot_applied slot _ o n before after).
  - rewrite booked_world_outage, booked_world_calls by exact H1.
    rewrite length_app. simpl length. rewrite Nat.add_comm. exact H2.
  - exact Hid.
  - exact Ho.
  - exact Hn.
  - rewrite booked_world_scheduleslot by exact H1. exact Hdocs.
  - exact Hfresh.
  - unfold apply_update. simpl foldr. unfold apply_inc. simpl.
    rewrite Hrem. reflexivity.
Qed.

Lemma create_booking_decrements_slot_witness :
  matching_slots (Sample.booking Sample.t1000 Sample.t1030) Sample.world
  = [Sample.slot_b]
  ∧ fst (create_booking_api (Sample.booking Sample.t1000 Sample.t1030) Sample.world)
    = Return (BookingCreated.mk "000000000000000000001000" "created")
  ∧ ∃ before after,
      docs scheduleslot Sample.world = before ++ Sample.slot_b :: after
      ∧ docs scheduleslot
          (snd (create_booking_api (Sample.booking Sample.t1000 Sample.t1030)
                  Sample.world))
        = before
          ++ mk_doc (IdOid 8)
               (<["status" := VStr "open"]>
                  (<["remaining" := VInt 2]> (fields Sample.slot_b)))
          :: after.
Proof.
  split; [vm_compute; reflexivity|].
  apply (create_booking_decrements_slot
           (Sample.booking Sample.t1000 Sample.t1030) Sample.world
           Sample.slot_b [] 8 3); try reflexivity.
  refine (bool_decide_unpack _ _). vm_compute. exact I.
Defined.

(** The last place of a slot: the status becomes [booked]. *)
Example create_booking_takes_last_place :
  docs scheduleslot
    (snd (create_booking_api (Sample.booking Sample.t0900 Sample.t0930) Sample.world))
  = [mk_doc (IdOid 7)
       (<["status" := VStr "booked"]>
          (<["remaining" := VInt 0]> (fields Sample.slot_a)));
     Sample.slot_b; Sample.slot_c; Sample.slot_d; Sample.slot_e].
Proof. vm_compute. reflexivity. Qed.

(** C9: a matched slot whose record has no field [remaining] counts as
    having one place left. If it is open the booking is accepted; the
    update then sent sets its status to [booked], and once applied leaves
    the slot booked. *)
Theorem create_booking_slot_without_remaining payload w slot more :
  outage w (length (calls w)) = false ->
  outage w (S (length (calls w))) = false ->
  matching_slots payload w = slot :: more ->
  fields slot !! "status" = Some (VStr "open") ->
  fields slot !! "remaining" = None ->
  remaining_of slot = Some 1
  ∧ fst (create_booking_api payload w)
    = Return (BookingCreated.mk (Py.to_hex 24 (next_oid w)) "created")
  ∧ docs "booking" (snd (create_booking_api payload w))
    = docs "booking" w
      ++ [mk_doc (IdOid (next_oid w)) (booking_record payload (Some slot))]
  ∧ (∀ o, _id slot = IdOid o -> (o < 2 ^ 96)%N ->
       outage w (S (S (length (calls w)))) = false ->
       NoDup (map _id (docs scheduleslot w)) ->
       calls (snd (create_booking_api payload w))
       = calls w
         ++ [Find scheduleslot (lookup_filter payload) 1;
             InsertOne "booking" (booking_record payload (Some slot));
             UpdateOne scheduleslot (IdOid o) [("remaining", -1)]
               [("status", VStr "booked")]]
       ∧ ∃ before after,
           docs scheduleslot w = before ++ slot :: after
           ∧ docs scheduleslot (snd (create_booking_api payload w))
             = before
               ++ mk_doc (IdOid o)
                    (<["status" := VStr "booked"]>
                       (<["remaining" := VInt (-1)]> (fields slot)))
               :: after).
Proof.
  intros H0 H1 Hm Hopen Hrem.
  pose proof (remaining_of_absent slot Hrem) as Hn.
  assert (0 < 1) as Hpos by lia.
  split; [exact Hn|]. split; [|split].
  - rewrite (matched_run payload w slot more 1 H0 H1 Hm Hopen Hn Hpos).
    reflexivity.
  - apply (matched_booking payload w slot more 1 H0 H1 Hm Hopen Hn Hpos).
  - intros o Hid Ho H2 Hnd.
    rewrite (matched_run payload w slot more 1 H0 H1 Hm Hopen Hn Hpos).
    simpl snd.
    destruct (matching_slots_head payload w slot more Hm) as [Hin _].
    destruct (unique_id_split _ slot Hnd Hin) as (before & after & Hdocs & Hfresh).
    rewrite Hid in Hfresh.
    destruct (decrement_slot_applied slot (booked_world payload (Some slot) w)
                o 1 before after
                (<["status" := VStr "booked"]>
                   (<["remaining" := VInt (-1)]> (fields slot))))
      as (_ & Hd & Hc).
    + rewrite booked_world_outage, booked_world_calls by exact H1.
      rewrite length_app. simpl length. rewrite Nat.add_comm. exact H2.
    + exact Hid.
    + exact Ho.
    + exact Hn.
    + rewrite booked_world_scheduleslot by exact H1. exact Hdocs.
    + exact Hfresh.
    + unfold apply_update. simpl foldr. unfold apply_inc. simpl.
      rewrite Hrem. reflexivity.
    + split.
      * rewrite Hc, booked_world_calls by exact H1.
        rewrite <- app_assoc. reflexivity.
      * exists before, after. split; [exact Hdocs | exact Hd].
Qed.

Lemma create_booking_slot_without_remaining_witness :
  matching_slots (Sample.booking Sample.t1200 Sample.t1230) Sample.world
  = [Sample.slot_d]
  ∧ fields Sample.slot_d !! "remaining" = None
  ∧ fst (create_booking_api (Sample.booking Sample.t1200 Sample.t1230) Sample.world)
    = Return (BookingCreated.mk "000000000000000000001000" "created")
  ∧ ∃ before after,
      docs scheduleslot Sample.world = before ++ Sample.slot_d :: after
      ∧ docs scheduleslot
          (snd (create_booking_api (Sample.booking Sample.t1200 Sample.t1230)
                  Sample.world))
        = before
          ++ mk_doc (IdOid 10)
               (<["status" := VStr "booked"]>
                  (<["remaining" := VInt (-1)]> (fields Sample.slot_d)))
          :: after.
Proof.
  split; [vm_compute; reflexivity|]. split; [vm_compute; reflexivity|].
  destruct (create_booking_slot_without_remaining
              (Sample.booking Sample.t1200 Sample.t1230) Sample.world
              Sample.slot_d [] eq_refl eq_refl)
    as (_ & Hack & _ & Hupd).
  - vm_compute. reflexivity.
  - vm_compute. reflexivity.
  - vm_compute. reflexivity.
  - split; [exact Hack|].
    destruct (Hupd 10%N eq_refl eq_refl eq_refl) as (_ & Hslots).
    + refine (bool_decide_unpack _ _). vm_compute. exact I.
    + exact Hslots.
Defined.

(** C4: once the lookup has matched a slot that passes the availability
    check and the booking is inserted, the caller receives the
    identifier of the booking with status [created] and the booking stays
    in the store whatever becomes of the update of the slot; an update
    that raises leaves the slots as they were and its exception goes no
    further. *)
Theorem create_booking_swallows_update_failure payload w slot more n :
  outage w (length (calls w)) = false ->
  outage w (S (length (calls w))) = false ->
  matching_slots payload w = slot :: more ->
  fields slot !! "status" = Some (VStr "open") ->
  remaining_of slot = Some n -> 0 < n ->
  fst (create_booking_api payload w)
  = Return (BookingCreated.mk (Py.to_hex 24 (next_oid w)) "created")
  ∧ docs "booking" (snd (create_booking_api payload w))
    = docs "booking" w
      ++ [mk_doc (IdOid (next_oid w)) (booking_record payload (Some slot))]
  ∧ (∀ e,
       fst (decrement_slot slot (booked_world payload (Some slot) w)) = Raised e ->
       snd (create_booking_api payload w)
       = snd (decrement_slot slot (booked_world payload (Some slot) w))
       ∧ docs scheduleslot (snd (create_booking_api payload w))
         = docs scheduleslot w).
Proof.
  intros H0 H1 Hm Hopen Hn Hpos.
  split; [|split].
  - rewrite (matched_run payload w slot more n H0 H1 Hm Hopen Hn Hpos).
    reflexivity.
  - apply (matched_booking payload w slot more n H0 H1 Hm Hopen Hn Hpos).
  - intros e He.
    rewrite (matched_run payload w slot more n H0 H1 Hm Hopen Hn Hpos).
    simpl snd. split; [reflexivity|].
    unfold docs at 1. rewrite (decrement_slot_raised _ _ e He).
    apply booked_world_scheduleslot. exact H1.
Qed.

Lemma create_booking_swallows_update_failure_witness :
  matching_slots (Sample.booking Sample.t1000 Sample.t1030) Sample.world_failing_third
  = [Sample.slot_b]
  ∧ fst (decrement_slot Sample.slot_b
           (booked_world (Sample.booking Sample.t1000 Sample.t1030)
              (Some Sample.slot_b) Sample.world_failing_third))
    = Raised StoreError
  ∧ fst (create_booking_api (Sample.booking Sample.t1000 Sample.t1030)
           Sample.world_failing_third)
    = Return (BookingCreated.mk "000000000000000000001000" "created")
  ∧ docs "booking"
      (snd (create_booking_api (Sample.booking Sample.t1000 Sample.t1030)
              Sample.world_failing_third))
    = [mk_doc (IdOid 4096)
         (booking_record (Sample.booking Sample.t1000 Sample.t1030)
            (Some Sample.slot_b))]
  ∧ docs scheduleslot
      (snd (create_booking_api (Sample.booking Sample.t1000 Sample.t1030)
              Sample.world_failing_third))
    = docs scheduleslot Sample.world_failing_third.
Proof.
  split; [vm_compute; reflexivity|]. split; [vm_compute; reflexivity|].
  destruct (create_booking_swallows_update_failure
              (Sample.booking Sample.t1000 Sample.t1030) Sample.world_failing_third
              Sample.slot_b [] 3 eq_refl eq_refl)
    as (Hack & Hbooking & Hswallow).
  - vm_compute. reflexivity.
  - vm_compute. reflexivity.
  - vm_compute. reflexivity.
  - lia.
  - split; [exact Hack|]. split; [exact Hbooking|].
    apply (Hswallow StoreError). vm_compute. reflexivity.
Defined.

(** The same for a slot whose identifier is not an ObjectId: the update is
    not even sent. *)
Example create_booking_swallows_invalid_id :
  fst (decrement_slot Sample.slot_e
         (booked_world (Sample.booking Sample.t1300 Sample.t1330)
            (Some Sample.slot_e) Sample.world))
  = Raised InvalidId
  ∧ fst (create_booking_api (Sample.booking Sample.t1300 Sample.t1330) Sample.world)
    = Return (BookingCreated.mk "000000000000000000001000" "created")
  ∧ docs scheduleslot
      (snd (create_booking_api (Sample.booking Sample.t1300 Sample.t1330) Sample.world))
    = docs scheduleslot Sample.world.
Proof. vm_compute. auto. Qed.

(** ** The log of store calls only grows *)

Lemma appends_ret {A} (a : A) : appends (ret a).
Proof. intros w. exists []. simpl. rewrite app_nil_r. reflexivity. Qed.

Lemma appends_mret {A} (a : A) : appends (mret a).
Proof. apply appends_ret. Qed.

Lemma appends_raise {A} e : appends (@raise A e).
Proof. intros w. exists []. simpl. rewrite app_nil_r. reflexivity. Qed.

Lemma appends_or_raise {A} e (o : option A) : appends (or_raise e o).
Proof. destruct o; [apply appends_ret | apply appends_raise]. Qed.

Lemma appends_bind {A B} (m : M A) (k : A -> M B) :
  appends m -> (∀ a, appends (k a)) -> appends (m ≫= k).
Proof.
  intros Hm Hk w. rewrite bind_run.
  destruct (Hm w) as [r1 H1]. destruct (m w) as [[a|e] w']; simpl in H1.
  - destruct (Hk a w') as [r2 H2]. exists (r1 ++ r2).
    rewrite H2, H1, app_assoc. reflexivity.
  - exists r1. exact H1.
Qed.

Lemma appends_try_except {A} (body : M A) handler :
  appends body -> (∀ e, appends (handler e)) -> appends (try_except body handler).
Proof.
  intros Hm Hk w. unfold try_except.
  destruct (Hm w) as [r1 H1]. destruct (body w) as [[a|e] w']; simpl in H1.
  - exists r1. exact H1.
  - destruct (Hk e w') as [r2 H2]. exists (r1 ++ r2).
    rewrite H2, H1, app_assoc. reflexivity.
Qed.

Lemma appends_store_call {A} ev (run : M A) :
  appends run -> appends (store_call ev run).
Proof.
  intros Hrun w. unfold store_call.
  destruct (outage w (length (calls w))).
  - exists [ev]. reflexivity.
  - destruct (Hrun (log_call ev w)) as [r H]. exists (ev :: r).
    rewrite H. simpl. rewrite <- app_assoc. reflexivity.
Qed.

Lemma appends_get_documents collection filter limit :
  appends (get_documents collection filter limit).
Proof.
  apply appends_store_call. intros w. exists []. simpl.
  rewrite app_nil_r. reflexivity.
Qed.

Lemma appends_create_document collection data :
  appends (create_document collection data).
Proof.
  apply appends_store_call. intros w. exists []. simpl.
  rewrite app_nil_r. reflexivity.
Qed.

Lemma appends_update_one collection id inc set :
  appends (update_one collection id inc set).
Proof.
  apply appends_store_call. intros w. exists [].
  destruct (update_first _ _ _); simpl; rewrite app_nil_r; reflexivity.
Qed.

Create HintDb appends.
#[local] Hint Resolve appends_ret appends_mret appends_raise appends_or_raise
  appends_get_documents appends_create_document appends_update_one : appends.

Ltac appends_step :=
  first
    [ apply appends_bind; [|intros ?]
    | apply appends_try_except; [|intros ?]
    | solve [auto with appends]
    | match goal with
      | |- appends (match ?x with _ => _ end) => destruct x
      end ].

Lemma appends_decrement_slot slot : appends (decrement_slot slot).
Proof. unfold decrement_slot. repeat appends_step. Qed.

(** What [create_booking_api] does once the lookup has answered. *)
Lemma create_booking_api_first_call payload w :
  ∃ rest,
    calls (snd (create_booking_api payload w))
    = calls w ++ Find scheduleslot (lookup_filter payload) 1 :: rest.
Proof.
  unfold create_booking_api. rewrite bind_run.
  fold (lookup_filter payload).
  unfold get_documents at 1, store_call at 1.
  destruct (outage w (length (calls w))).
  - exists []. reflexivity.
  - match goal with
    | |- ∃ rest, calls (snd (?k ?a ?w1)) = _ =>
        assert (appends (k a)) as Hk
    end.
    { cbv beta. pose proof appends_decrement_slot. repeat appends_step. }
    destruct (Hk (log_call (Find scheduleslot (lookup_filter payload) 1) w))
      as [rest Hrest].
    exists rest. cbv beta in Hrest |- *. rewrite Hrest. simpl.
    rewrite <- app_assoc. reflexivity.
Qed.

(** *** The lookup filter *)

Lemma lookup_filter_lookup payload k c :
  lookup_filter payload !! k = Some c ->
  (k = "start_time" ∧ c = CEq (VDate (BookingCreate.start_time payload)))
  ∨ (k = "end_time" ∧ c = CEq (VDate (BookingCreate.end_time payload))).
Proof.
  unfold lookup_filter. intros H.
  apply lookup_insert_Some in H as [[<- <-]|[_ H]]; [left; auto|].
  apply lookup_singleton_Some in H as [<- <-]. right; auto.
Qed.

Lemma lookup_filter_matches payload d :
  matches (lookup_filter payload) d = true <->
  ∃ s e,
    fields d !! "start_time" = Some (VDate s)
    ∧ Py.utc_instant s = Py.utc_instant (BookingCreate.start_time payload)
    ∧ fields d !! "end_time" = Some (VDate e)
    ∧ Py.utc_instant e = Py.utc_instant (BookingCreate.end_time payload).
Proof.
  split.
  - intros Hm.
    assert (lookup_filter payload !! "start_time"
            = Some (CEq (VDate (BookingCreate.start_time payload)))) as Hs
      by apply lookup_insert_eq.
    assert (lookup_filter payload !! "end_time"
            = Some (CEq (VDate (BookingCreate.end_time payload)))) as He.
    { unfold lookup_filter. rewrite lookup_insert_ne by discriminate.
      apply lookup_singleton_eq. }
    apply (matches_lookup _ _ _ _ Hm) in Hs, He.
    apply holds_eq_date in Hs as (s & Hs & Hsi).
    apply holds_eq_date in He as (e & He & Hei).
    exists s, e. auto.
  - intros (s & e & Hs & Hsi & He & Hei). apply matches_intro.
    intros k c Hk.
    apply lookup_filter_lookup in Hk as [[-> ->]|[-> ->]];
      apply holds_eq_date; eauto.
Qed.

(** C7: the first call [create_booking_api] makes on the store is the
    lookup of at most one slot under a filter of exactly two conditions,
    equality of [start_time] and of [end_time] with the times of the
    request; nothing in it looks at [service_id] or [staff_id], so the
    slot matched, and referenced by the booking, is the first one at these
    times whatever service or staff it is for. *)
Theorem create_booking_lookup_by_time_only payload w :
  (∃ rest,
     calls (snd (create_booking_api payload w))
     = calls w ++ Find scheduleslot (lookup_filter payload) 1 :: rest)
  ∧ lookup_filter payload
    = {[ "start_time" := CEq (VDate (BookingCreate.start_time payload));
         "end_time" := CEq (VDate (BookingCreate.end_time payload)) ]}
  ∧ dom (lookup_filter payload) = ({[ "start_time"; "end_time" ]} : gset string)
  ∧ lookup_filter payload !! "service_id" = None
  ∧ lookup_filter payload !! "staff_id" = None
  ∧ (∀ slots,
       fst (get_documents scheduleslot (lookup_filter payload) 1 w) = Return slots ->
       (length slots <= 1)%nat
       ∧ ∀ d, In d slots -> matches (lookup_filter payload) d = true)
  ∧ (∀ d,
       matches (lookup_filter payload) d = true <->
       ∃ s e,
         fields d !! "start_time" = Some (VDate s)
         ∧ Py.utc_instant s = Py.utc_instant (BookingCreate.start_time payload)
         ∧ fields d !! "end_time" = Some (VDate e)
         ∧ Py.utc_instant e = Py.utc_instant (BookingCreate.end_time payload))
  ∧ (∀ slot more n,
       outage w (length (calls w)) = false ->
       outage w (S (length (calls w))) = false ->
       matching_slots payload w = slot :: more ->
       fields slot !! "status" = Some (VStr "open") ->
       remaining_of slot = Some n -> 0 < n ->
       docs "booking" (snd (create_booking_api payload w))
       = docs "booking" w
         ++ [mk_doc (IdOid (next_oid w)) (booking_record payload (Some slot))]
       ∧ booking_record payload (Some slot) !! "schedule_slot_id"
         = Some (VStr (str_of_id (_id slot)))
       ∧ booking_record payload (Some slot) !! "service_id"
         = Some (VStr (BookingCreate.service_id payload))).
Proof.
  split; [apply create_booking_api_first_call|].
  split; [reflexivity|].
  split.
  { unfold lookup_filter. rewrite dom_insert_L, dom_singleton_L. reflexivity. }
  split; [reflexivity|]. split; [reflexivity|].
  split.
  { intros slots. unfold get_documents, store_call.
    destruct (outage w (length (calls w))); [discriminate|].
    intros [= <-]. split.
    - rewrite length_take. lia.
    - intros d Hd. apply in_take_filter in Hd as [_ Hd]. exact Hd. }
  split; [apply lookup_filter_matches|].
  intros slot more n H0 H1 Hm Hopen Hn Hpos.
  split; [apply (matched_booking payload w slot more n H0 H1 Hm Hopen Hn Hpos)|].
  split; [apply (booking_record_slot_id payload (Some slot))|].
  apply (booking_record_fields payload (Some slot)).
Qed.

(** A request for a haircut at 09:00 is matched with the slot held at that
    time for a massage. *)
Lemma create_booking_lookup_by_time_only_witness :
  fields Sample.slot_a !! "service_id" = Some (VStr "massage")
  ∧ BookingCreate.service_id (Sample.booking Sample.t0900 Sample.t0930) = "haircut"
  ∧ matching_slots (Sample.booking Sample.t0900 Sample.t0930) Sample.world
    = [Sample.slot_a]
  ∧ docs "booking"
      (snd (create_booking_api (Sample.booking Sample.t0900 Sample.t0930) Sample.world))
    = [mk_doc (IdOid 4096)
         (booking_record (Sample.booking Sample.t0900 Sample.t0930)
            (Some Sample.slot_a))]
  ∧ booking_record (Sample.booking Sample.t0900 Sample.t0930) (Some Sample.slot_a)
      !! "schedule_slot_id"
    = Some (VStr "000000000000000000000007").
Proof.
  split; [vm_compute; reflexivity|]. split; [reflexivity|].
  split; [vm_compute; reflexivity|].
  destruct (create_booking_lookup_by_time_only
              (Sample.booking Sample.t0900 Sample.t0930) Sample.world)
    as (_ & _ & _ & _ & _ & _ & _ & Hmatched).
  destruct (Hmatched Sample.slot_a [] 1 eq_refl eq_refl) as (Hb & Hid & _).
  - vm_compute. reflexivity.
  - vm_compute. reflexivity.
  - vm_compute. reflexivity.
  - lia.
  - split; [exact Hb | exact Hid].
Defined.

(** ** The payment-link stub *)

(** *** The token *)

Lemma b64_char_val i : (i < 64)%N -> b64_val (Py.b64_char i) = i.
Proof.
  intros H. destruct i as [|p]; [reflexivity|].
  repeat (destruct p as [p|p|]; try reflexivity; try (exfalso; lia)).
Qed.

Lemma b64_char_url_safe i : (i < 64)%N -> Py.url_safe_char (Py.b64_char i) = true.
Proof.
  intros H. destruct i as [|p]; [reflexivity|].
  repeat (destruct p as [p|p|]; try reflexivity; try (exfalso; lia)).
Qed.

Lemma byte_of_to_N b : byte_of_N (Byte.to_N b) = b.
Proof. unfold byte_of_N. rewrite Byte.of_to_N. reflexivity. Qed.

Lemma byte_to_N_lt b : (Byte.to_N b < 256)%N.
Proof. pose proof (Byte.to_N_bounded b). lia. Qed.

Section Group.
Variables a b c : Byte.byte.
Local Abbreviation n := (Byte.to_N a * 65536 + Byte.to_N b * 256 + Byte.to_N c)%N.

Lemma group_sextets :
  (n / 262144 < 64 ∧ n / 4096 mod 64 < 64
   ∧ n / 64 mod 64 < 64 ∧ n mod 64 < 64)%N.
Proof.
  pose proof (byte_to_N_lt a). pose proof (byte_to_N_lt b).
  pose proof (byte_to_N_lt c).
  repeat split; try (apply N.mod_lt; discriminate).
  apply N.Div0.div_lt_upper_bound. lia.
Qed.

Lemma group_value :
  (n / 262144 * 262144 + n / 4096 mod 64 * 4096
   + n / 64 mod 64 * 64 + n mod 64 = n)%N.
Proof.
  zify. Z.to_euclidean_division_equations. lia.
Qed.

Lemma group_bytes :
  (n / 65536 = Byte.to_N a ∧ n / 256 mod 256 = Byte.to_N b
   ∧ n mod 256 = Byte.to_N c)%N.
Proof.
  pose proof (byte_to_N_lt a). pose proof (byte_to_N_lt b).
  pose proof (byte_to_N_lt c).
  zify. Z.to_euclidean_division_equations. lia.
Qed.
End Group.

Lemma b64_decode_group a b c rest :
  b64_groups_decode (Py.urlsafe_b64encode (a :: b :: c :: rest))
  = a :: b :: c :: b64_groups_decode (Py.urlsafe_b64encode rest).
Proof.
  cbn [Py.urlsafe_b64encode b64_groups_decode].
  destruct (group_sextets a b c) as (H1 & H2 & H3 & H4).
  rewrite !b64_char_val by assumption.
  rewrite group_value.
  destruct (group_bytes a b c) as (-> & -> & ->).
  rewrite !byte_of_to_N. reflexivity.
Qed.

(** Whole groups of three bytes are read back from their encoding. *)
Lemma b64_decode_encode k : ∀ bs,
  length bs = (3 * k)%nat ->
  b64_groups_decode (Py.urlsafe_b64encode bs) = bs.
Proof.
  induction k as [|k IH]; intros bs Hlen.
  - destruct bs; [reflexivity | discriminate].
  - destruct bs as [|a [|b [|c rest]]]; simpl in Hlen; try lia.
    rewrite b64_decode_group, IH by lia. reflexivity.
Qed.

Lemma b64_encode_url_safe k : ∀ bs,
  length bs = (3 * k)%nat ->
  all_chars Py.url_safe_char (Py.urlsafe_b64encode bs) = true
  ∧ String.length (Py.urlsafe_b64encode bs) = (4 * k)%nat.
Proof.
  induction k as [|k IH]; intros bs Hlen.
  - destruct bs; [split; reflexivity | discriminate].
  - destruct bs as [|a [|b [|c rest]]]; simpl in Hlen; try lia.
    destruct (IH rest) as [Hs Hl]; [lia|].
    cbn [Py.urlsafe_b64encode all_chars String.length].
    destruct (group_sextets a b c) as (H1 & H2 & H3 & H4).
    rewrite !b64_char_url_safe by assumption.
    rewrite Hs, Hl. split; [reflexivity | lia].
Qed.

Lemma rstrip_char_url_safe s :
  all_chars Py.url_safe_char s = true -> Py.rstrip_char "=" s = s.
Proof.
  induction s as [|c s IH]; simpl; [reflexivity|].
  intros H. apply andb_prop in H as [Hc Hs]. rewrite (IH Hs).
  destruct s as [|d s]; [|reflexivity].
  destruct (Ascii.eqb_spec c "="); [subst c; discriminate | reflexivity].
Qed.

Lemma next_bytes_length n w : length (next_bytes n w) = n.
Proof. unfold next_bytes. rewrite length_map, length_seq. reflexivity. Qed.

(** [token_urlsafe(12)] is the encoding of the twelve bytes drawn: sixteen
    URL-safe characters, from which the bytes can be read back. *)
Lemma token_urlsafe_12 w :
  let token := Py.urlsafe_b64encode (next_bytes 12 w) in
  fst (token_urlsafe 12 w) = Return token
  ∧ collections (snd (token_urlsafe 12 w)) = collections w
  ∧ next_oid (snd (token_urlsafe 12 w)) = next_oid w
  ∧ clock (snd (token_urlsafe 12 w)) = clock w
  ∧ outage (snd (token_urlsafe 12 w)) = outage w
  ∧ calls (snd (token_urlsafe 12 w)) = calls w
  ∧ String.length token = 16%nat
  ∧ all_chars Py.url_safe_char token = true
  ∧ b64_groups_decode token = next_bytes 12 w.
Proof.
  intros token.
  destruct (b64_encode_url_safe 4 (next_bytes 12 w) (next_bytes_length 12 w))
    as [Hsafe Hlen].
  split.
  - unfold token_urlsafe. rewrite bind_run. unfold token_bytes.
    fold (next_bytes 12 w). unfold ret. cbn [fst].
    rewrite (rstrip_char_url_safe _ Hsafe). reflexivity.
  - repeat split; try reflexivity; try assumption.
    apply (b64_decode_encode 4). apply next_bytes_length.
Qed.

(** *** The record *)

Lemma payment_link_record_fields payload token expires_at :
  let link := payment_link_record payload token expires_at in
  link !! "status" = Some (VStr "pending")
  ∧ link !! "currency" = Some (VStr "AUD")
  ∧ link !! "token" = Some (VStr token)
  ∧ link !! "url" = Some (VStr ("/pay/" +:+ token))
  ∧ link !! "expires_at" = Some (VDate expires_at)
  ∧ link !! "customer_id" = Some (VStr (PaymentLinkCreate.customer_id payload))
  ∧ link !! "amount_cents" = Some (VInt (PaymentLinkCreate.amount_cents payload))
  ∧ link !! "description" = Some (opt_str (PaymentLinkCreate.description payload)).
Proof.
  unfold payment_link_record. cbv zeta.
  repeat split;
    repeat (rewrite lookup_insert_ne by discriminate);
    first [apply lookup_insert_eq | apply lookup_singleton_eq].
Qed.

Lemma expiry_in_range now :
  0 <= Py.wall now < (Py.MAXORDINAL - 7) * Py.US_PER_DAY ->
  Py.datetime_add now (7 * Py.US_PER_DAY)
  = Some (Py.mk_datetime (Py.wall now + 7 * Py.US_PER_DAY) (Py.utcoffset now)).
Proof.
  intros H. unfold Py.datetime_add. cbv zeta.
  replace ((0 <=? Py.wall now + 7 * Py.US_PER_DAY)
           && (Py.wall now + 7 * Py.US_PER_DAY <? Py.MAXORDINAL * Py.US_PER_DAY))
    with true; [reflexivity|].
  symmetry. apply andb_true_intro.
  unfold Py.MAXORDINAL, Py.US_PER_DAY, Py.US_PER_SECOND in *.
  split; [apply Z.leb_le | apply Z.ltb_lt]; lia.
Qed.

(** C8: with the store serving the insert and the clock seven days short
    of the last representable day, the payment link persisted has status
    [pending], currency [AUD], a token of sixteen URL-safe characters that
    encodes the twelve random bytes drawn, the URL [/pay/] followed by the
    token, and an expiry exactly seven days after the clock reading; the
    response carries the identifier of the record, the token and the
    URL. *)
Theorem create_payment_link_record payload w :
  outage w (length (calls w)) = false ->
  0 <= Py.wall (clock w) < (Py.MAXORDINAL - 7) * Py.US_PER_DAY ->
  let token := Py.urlsafe_b64encode (next_bytes 12 w) in
  let expires_at :=
    Py.mk_datetime (Py.wall (clock w) + 7 * Py.US_PER_DAY)
                   (Py.utcoffset (clock w)) in
  let link := payment_link_record payload token expires_at in
  fst (create_payment_link payload w)
  = Return (PaymentLinkCreated.mk (Py.to_hex 24 (next_oid w)) token
              ("/pay/" +:+ token))
  ∧ docs "paymentlink" (snd (create_payment_link payload w))
    = docs "paymentlink" w ++ [mk_doc (IdOid (next_oid w)) link]
  ∧ link !! "status" = Some (VStr "pending")
  ∧ link !! "currency" = Some (VStr "AUD")
  ∧ link !! "token" = Some (VStr token)
  ∧ link !! "url" = Some (VStr ("/pay/" +:+ token))
  ∧ link !! "expires_at" = Some (VDate expires_at)
  ∧ link !! "customer_id" = Some (VStr (PaymentLinkCreate.customer_id payload))
  ∧ link !! "amount_cents" = Some (VInt (PaymentLinkCreate.amount_cents payload))
  ∧ link !! "description" = Some (opt_str (PaymentLinkCreate.description payload))
  ∧ Py.utc_instant expires_at = Py.utc_instant (clock w) + 7 * 86400 * 1000000
  ∧ length (next_bytes 12 w) = 12%nat
  ∧ String.length token = 16%nat
  ∧ all_chars Py.url_safe_char token = true
  ∧ b64_groups_decode token = next_bytes 12 w.
Proof.
  intros Hserved Hclock token expires_at link.
  destruct (token_urlsafe_12 w)
    as (Htok & Hcoll & Hoid & Hclk & Hout & Hcalls & Hlen & Hsafe & Hdec).
  fold token in Htok, Hlen, Hsafe, Hdec.
  assert (create_payment_link payload w
          = (link_id ← create_document "paymentlink" link;
             ret (PaymentLinkCreated.mk link_id token ("/pay/" +:+ token)))
              (snd (token_urlsafe 12 w))) as Hrun.
  { unfold create_payment_link. rewrite bind_run.
    destruct (token_urlsafe 12 w) as [o w'] eqn:Hw'. simpl in Htok, Hclk |- *.
    subst o. rewrite bind_run. unfold utcnow. rewrite bind_run.
    change (Py.timedelta_days 7) with (Some (7 * Py.US_PER_DAY)).
    cbn [or_raise ret]. rewrite bind_run, Hclk, (expiry_in_range _ Hclock).
    reflexivity. }
  assert (outage (snd (token_urlsafe 12 w))
            (length (calls (snd (token_urlsafe 12 w)))) = false) as Hserved'
    by (rewrite Hout, Hcalls; exact Hserved).
  destruct (create_document_served _ Hserved' "paymentlink" link)
    as (w'' & Hcreate & Hcolls & _).
  rewrite Hrun, bind_run, Hcreate, Hoid. cbn [fst snd ret].
  split; [reflexivity|].
  split.
  { unfold docs in Hcolls |- *. rewrite Hcoll, Hoid in Hcolls.
    rewrite Hcolls, lookup_insert_eq. reflexivity. }
  destruct (payment_link_record_fields payload token expires_at)
    as (H1 & H2 & H3 & H4 & H5 & H6 & H7 & H8).
  repeat (split; [assumption|]).
  split.
  { unfold Py.utc_instant, expires_at, Py.US_PER_DAY, Py.US_PER_SECOND. simpl. lia. }
  split; [apply next_bytes_length|].
  repeat (split; [assumption|]). assumption.
Qed.

Lemma create_payment_link_record_witness :
  fst (create_payment_link (PaymentLinkCreate.mk "cust-1" 4500 (Some "Deposit"))
         Sample.world)
  = Return (PaymentLinkCreated.mk "000000000000000000001000" "OvEHxF6ZAP8Sq22A"
              "/pay/OvEHxF6ZAP8Sq22A")
  ∧ docs "paymentlink"
      (snd (create_payment_link (PaymentLinkCreate.mk "cust-1" 4500 (Some "Deposit"))
              Sample.world))
    = [mk_doc (IdOid 4096)
         (payment_link_record (PaymentLinkCreate.mk "cust-1" 4500 (Some "Deposit"))
            "OvEHxF6ZAP8Sq22A" (Sample.on_2024_01_10 (28800 + 7 * 86400)))].
Proof.
  destruct (create_payment_link_record
              (PaymentLinkCreate.mk "cust-1" 4500 (Some "Deposit")) Sample.world
              eq_refl) as (Hret & Hdocs & _).
  - vm_compute. split; [discriminate | reflexivity].
  - split; [exact Hret | exact Hdocs].
Defined.

(** ** More on the availability query *)

Lemma window_start_None q w :
  window_start q w = None ->
  ∃ d, AvailabilityQuery.date q = Some d ∧ d ≠ "" ∧ Py.fromisoformat d = None.
Proof.
  unfold window_start. intros H.
  destruct (truthy (AvailabilityQuery.date q)) eqn:Ht; [|discriminate].
  apply truthy_inv in Ht as (d & Hd & Hne). rewrite Hd in H. eauto.
Qed.

Lemma check_availability_unrepresentable q w start_day :
  window_start q w = Some start_day ->
  Py.timedelta_days (AvailabilityQuery.days q) = None
  ∨ (∃ delta, Py.timedelta_days (AvailabilityQuery.days q) = Some delta
              ∧ Py.datetime_add start_day delta = None) ->
  check_availability q w = (Raised OverflowError, w).
Proof.
  unfold window_start. intros Hs Hover.
  unfold check_availability, check_availability_with. cbv zeta. rewrite bind_run.
  assert (∀ k : Py.datetime -> M (list Doc),
            (∀ a w', a = start_day -> w' = w -> k a w' = (Raised OverflowError, w)) ->
            match (if truthy (AvailabilityQuery.date q)
                   then try_except
                          (or_raise ValueError
                             (Py.fromisoformat (default "" (AvailabilityQuery.date q))))
                          (fun _ => raise (HTTPException 400
                                             "Invalid date format, use YYYY-MM-DD"))
                   else utcnow) w with
            | (Return a, w') => k a w'
            | (Raised e, w') => (Raised e, w')
            end = (Raised OverflowError, w)) as Hstart.
  { intros k Hk. destruct (truthy (AvailabilityQuery.date q)).
    - unfold try_except. rewrite Hs. simpl. apply Hk; reflexivity.
    - injection Hs as <-. unfold utcnow. apply Hk; reflexivity. }
  apply Hstart. intros a w' -> ->. rewrite bind_run.
  destruct Hover as [Hd|(delta & Hd & He)]; rewrite Hd; simpl; [reflexivity|].
  rewrite bind_run, He. reflexivity.
Qed.

(** The worlds the query can end in: the one it started in, or that one
    with the single read logged. *)
Lemma check_availability_world q w :
  snd (check_availability q w) = w
  ∨ ∃ start_day end_day,
      snd (check_availability q w)
      = log_call (Find scheduleslot (availability_filter q start_day end_day)
                    (AvailabilityQuery.limit q)) w.
Proof.
  destruct (window_start q w) as [start_day|] eqn:Hs.
  - destruct (Py.timedelta_days (AvailabilityQuery.days q)) as [delta|] eqn:Hd.
    + destruct (Py.datetime_add start_day delta) as [end_day|] eqn:He.
      * right. exists start_day, end_day.
        rewrite (check_availability_window q w _ _ _ Hs Hd He).
        rewrite bind_run. unfold get_documents, store_call.
        destruct (outage w (length (calls w))); reflexivity.
      * left. rewrite (check_availability_unrepresentable q w start_day Hs);
          [reflexivity|]. right. eauto.
    + left. rewrite (check_availability_unrepresentable q w start_day Hs);
        [reflexivity|]. left. exact Hd.
  - left. apply window_start_None in Hs as (d & Hd & Hne & Hp).
    rewrite (check_availability_bad_date q w d Hd Hne Hp). reflexivity.
Qed.

(** X1: the availability query is read-only: whatever it answers, the
    collections, the identifier counter, the clock and the entropy source
    are as before, and the store has been called at most once, with a
    [Find] on the slots limited as the query asks. *)
Theorem check_availability_read_only q w :
  collections (snd (check_availability q w)) = collections w
  ∧ next_oid (snd (check_availability q w)) = next_oid w
  ∧ clock (snd (check_availability q w)) = clock w
  ∧ drawn (snd (check_availability q w)) = drawn w
  ∧ (calls (snd (check_availability q w)) = calls w
     ∨ ∃ filter,
         calls (snd (check_availability q w))
         = calls w ++ [Find scheduleslot filter (AvailabilityQuery.limit q)]
         ∧ filter !! "status" = Some (CEq (VStr "open"))).
Proof.
  destruct (check_availability_world q w) as [->|(s & e & ->)].
  - repeat split. left. reflexivity.
  - repeat split. right. eexists. split; [reflexivity|].
    apply availability_filter_status.
Qed.

Lemma check_availability_read_only_witness :
  collections (snd (check_availability (Sample.availability (Some "2024-01-10"))
                      Sample.world))
  = collections Sample.world
  ∧ calls (snd (check_availability (Sample.availability (Some "2024-01-10"))
                  Sample.world))
    = [Find scheduleslot
         (availability_filter (Sample.availability (Some "2024-01-10"))
            (Sample.on_2024_01_10 0) (Sample.on_2024_01_10 (7 * 86400))) 20].
Proof.
  destruct (check_availability_read_only
              (Sample.availability (Some "2024-01-10")) Sample.world)
    as (Hc & _).
  split; [exact Hc|]. vm_compute. reflexivity.
Defined.

(** X2: a window that cannot be represented, because [days] is beyond
    what [timedelta] takes or the end of the window falls outside the
    years 1 to 9999, ends the query with an [OverflowError], which is not
    the 400 of a bad date, and before any call on the store. *)
Theorem check_availability_window_overflow q w start_day :
  window_start q w = Some start_day ->
  999999999 < Z.abs (AvailabilityQuery.days q)
  ∨ Py.wall start_day + AvailabilityQuery.days q * Py.US_PER_DAY < 0
  ∨ Py.MAXORDINAL * Py.US_PER_DAY
    <= Py.wall start_day + AvailabilityQuery.days q * Py.US_PER_DAY ->
  check_availability q w = (Raised OverflowError, w).
Proof.
  intros Hs Hover. apply (check_availability_unrepresentable q w start_day Hs).
  unfold Py.timedelta_days.
  destruct (Z.leb_spec (Z.abs (AvailabilityQuery.days q)) 999999999) as [Hle|Hgt];
    [|left; reflexivity].
  right. eexists. split; [reflexivity|].
  unfold Py.datetime_add. cbv zeta.
  destruct Hover as [H|[H|H]]; [lia| |].
  - destruct (Z.leb_spec 0 (Py.wall start_day
                            + AvailabilityQuery.days q * Py.US_PER_DAY));
      [lia | reflexivity].
  - destruct (Z.ltb_spec (Py.wall start_day
                          + AvailabilityQuery.days q * Py.US_PER_DAY)
                         (Py.MAXORDINAL * Py.US_PER_DAY)); [lia|].
    rewrite andb_false_r. reflexivity.
Qed.

Lemma check_availability_window_overflow_witness :
  check_availability (AvailabilityQuery.mk None None (Some "9999-12-30") 7 20)
    Sample.world
  = (Raised OverflowError, Sample.world).
Proof.
  apply (check_availability_window_overflow _ _
           (Py.mk_datetime (3652057 * Py.US_PER_DAY) None)).
  - reflexivity.
  - right; right. vm_compute. discriminate.
Defined.

(** X3: a window of no days, or of a negative number of days, holds no
    slot: the query returns the empty list. *)
Theorem check_availability_empty_window q w slots :
  AvailabilityQuery.days q <= 0 ->
  fst (check_availability q w) = Return slots ->
  slots = [].
Proof.
  intros Hdays Hret.
  destruct (check_availability_return q w slots Hret)
    as (start_day & end_day & _ & Hend & ->).
  destruct (take _ _) as [|d l] eqn:Hl; [reflexivity|]. exfalso.
  assert (In d (d :: l)) as Hin by (left; reflexivity).
  rewrite <- Hl in Hin. apply in_take_filter in Hin as [_ Hm].
  pose proof (matches_lookup _ _ _ _ Hm
                (availability_filter_start_time q start_day end_day)) as Hr.
  apply holds_range in Hr as (t & _ & Hlo & Hhi).
  unfold Py.US_PER_DAY, Py.US_PER_SECOND in Hend. nia.
Qed.

Lemma check_availability_empty_window_witness :
  fst (check_availability (AvailabilityQuery.mk None None (Some "2024-01-10") 0 20)
         Sample.world)
  = Return []
  ∧ fst (check_availability (AvailabilityQuery.mk None None (Some "2024-01-10") 1 20)
           Sample.world)
    ≠ Return [].
Proof.
  split; [|vm_compute; discriminate].
  pose proof (check_availability_empty_window
                (AvailabilityQuery.mk None None (Some "2024-01-10") 0 20)
                Sample.world) as H.
  destruct (fst (check_availability
                   (AvailabilityQuery.mk None None (Some "2024-01-10") 0 20)
                   Sample.world)) as [slots|e] eqn:Hr.
  - rewrite (H slots); [reflexivity | simpl; lia | reflexivity].
  - vm_compute in Hr. discriminate.
Defined.

Lemma availability_filter_service_id q a b s :
  AvailabilityQuery.service_id q = Some s -> s ≠ "" ->
  availability_filter q a b !! "service_id" = Some (CEq (VStr s)).
Proof.
  intros Hq Hne. unfold availability_filter.
  rewrite Hq, (truthy_Some s Hne). simpl opt_str.
  destruct (truthy (AvailabilityQuery.staff_id q));
    repeat (rewrite lookup_insert_ne by discriminate);
    apply lookup_insert_eq.
Qed.

Lemma availability_filter_staff_id q a b s :
  AvailabilityQuery.staff_id q = Some s -> s ≠ "" ->
  availability_filter q a b !! "staff_id" = Some (CEq (VStr s)).
Proof.
  intros Hq Hne. unfold availability_filter.
  rewrite Hq, (truthy_Some s Hne). simpl opt_str.
  rewrite lookup_insert_ne by discriminate. apply lookup_insert_eq.
Qed.

(** X4: a service or a staff member named in the query is honoured: every
    slot returned carries that very [service_id], that very [staff_id]. *)
Theorem check_availability_filters q w slots :
  fst (check_availability q w) = Return slots ->
  (∀ s, AvailabilityQuery.service_id q = Some s -> s ≠ "" ->
        Forall (fun d => fields d !! "service_id" = Some (VStr s)) slots)
  ∧ (∀ s, AvailabilityQuery.staff_id q = Some s -> s ≠ "" ->
          Forall (fun d => fields d !! "staff_id" = Some (VStr s)) slots).
Proof.
  intros Hret.
  destruct (check_availability_return q w slots Hret)
    as (start_day & end_day & _ & _ & ->).
  split; intros s Hq Hne; apply List.Forall_forall; intros d Hin;
    apply List.in_map_iff in Hin as (d0 & <- & Hin);
    apply in_take_filter in Hin as [_ Hm]; simpl; apply holds_eq_str.
  - apply (matches_lookup _ _ _ _ Hm
             (availability_filter_service_id q _ _ s Hq Hne)).
  - apply (matches_lookup _ _ _ _ Hm
             (availability_filter_staff_id q _ _ s Hq Hne)).
Qed.

Lemma check_availability_filters_witness :
  fst (check_availability
         (AvailabilityQuery.mk (Some "haircut") None (Some "2024-01-10") 7 20)
         Sample.world)
  = Return (map normalize [Sample.slot_b; Sample.slot_d; Sample.slot_e])
  ∧ Forall (fun d => fields d !! "service_id" = Some (VStr "haircut"))
      (map normalize [Sample.slot_b; Sample.slot_d; Sample.slot_e]).
Proof.
  split; [vm_compute; reflexivity|].
  destruct (check_availability_filters
              (AvailabilityQuery.mk (Some "haircut") None (Some "2024-01-10") 7 20)
              Sample.world
              (map normalize [Sample.slot_b; Sample.slot_d; Sample.slot_e]))
    as [Hservice _]; [vm_compute; reflexivity|].
  apply (Hservice "haircut"); [reflexivity | discriminate].
Defined.

(** X5: an empty string for the service, the staff member or the date
    counts as none given: the query runs as it does with these fields
    left out. *)
Theorem check_availability_empty_strings q w :
  check_availability
    (AvailabilityQuery.mk (drop_empty (AvailabilityQuery.service_id q))
       (drop_empty (AvailabilityQuery.staff_id q))
       (drop_empty (AvailabilityQuery.date q))
       (AvailabilityQuery.days q) (AvailabilityQuery.limit q)) w
  = check_availability q w.
Proof.
  destruct q as [service staff date days limit].
  destruct service as [[|c1 s1]|], staff as [[|c2 s2]|], date as [[|c3 s3]|];
    reflexivity.
Qed.

Lemma filter_sublist {A} (f : A -> bool) (l : list A) :
  List.filter f l `sublist_of` l.
Proof.
  induction l as [|x l IH]; simpl; [constructor|].
  destruct (f x); [apply sublist_skip | apply sublist_cons]; exact IH.
Qed.

(** X6: what the query returns are documents of the slot collection, in
    the order of the collection and no more of them than [limit], each
    with its fields as stored and its identifier rendered as a string;
    for a store-generated identifier that string reads back as the
    identifier. *)
Theorem check_availability_result_shape q w slots :
  fst (check_availability q w) = Return slots ->
  (length slots <= Z.to_nat (AvailabilityQuery.limit q))%nat
  ∧ ∃ stored,
      stored `sublist_of` docs scheduleslot w
      ∧ Forall2 (fun s d =>
                   fields s = fields d
                   ∧ _id s = IdStr (str_of_id (_id d))
                   ∧ ∀ o, _id d = IdOid o -> (o < 2 ^ 96)%N ->
                          ObjectId (str_of_id (_id s)) = Some o)
          slots stored.
Proof.
  intros Hret.
  destruct (check_availability_return q w slots Hret)
    as (start_day & end_day & _ & _ & ->).
  split.
  - rewrite length_map, length_take. lia.
  - eexists. split.
    + etransitivity; [apply sublist_take | apply filter_sublist].
    + apply Forall2_fmap_l, Forall_Forall2_diag, List.Forall_forall.
      intros d _. simpl. repeat split.
      intros o Hid Ho. rewrite Hid. apply ObjectId_str. exact Ho.
Qed.

Lemma check_availability_result_shape_witness :
  fst (check_availability (AvailabilityQuery.mk None None (Some "2024-01-10") 7 2)
         Sample.world)
  = Return (map normalize [Sample.slot_a; Sample.slot_b])
  ∧ (length (map normalize [Sample.slot_a; Sample.slot_b]) <= 2)%nat
  ∧ map _id (map normalize [Sample.slot_a; Sample.slot_b])
    = [IdStr "000000000000000000000007"; IdStr "000000000000000000000008"]
  ∧ ObjectId "000000000000000000000007" = Some 7%N.
Proof.
  split; [vm_compute; reflexivity|].
  destruct (check_availability_result_shape
              (AvailabilityQuery.mk None None (Some "2024-01-10") 7 2) Sample.world
              (map normalize [Sample.slot_a; Sample.slot_b]))
    as [Hlen _]; [vm_compute; reflexivity|].
  split; [exact Hlen|]. split; reflexivity.
Defined.

(** ** More on the booking flow *)

(** *** What the update of a slot leaves alone *)

Lemma decrement_slot_frame slot w :
  next_oid (snd (decrement_slot slot w)) = next_oid w
  ∧ outage (snd (decrement_slot slot w)) = outage w
  ∧ clock (snd (decrement_slot slot w)) = clock w
  ∧ ∀ c, c ≠ scheduleslot ->
         collections (snd (decrement_slot slot w)) !! c = collections w !! c.
Proof.
  unfold decrement_slot. rewrite bind_run.
  destruct (ObjectId (str_of_id (_id slot))) as [o|]; [|repeat split].
  simpl. rewrite bind_run.
  destruct (remaining_of slot) as [n|]; [|repeat split].
  simpl. unfold update_one, store_call.
  destruct (outage w (length (calls w))); [repeat split|].
  destruct (update_first _ _ _); [|repeat split].
  repeat split. intros c Hc. simpl. apply lookup_insert_ne. congruence.
Qed.

(** The slots after the update attempt: as before, or with the first
    document under the identifier updated. *)
Lemma decrement_slot_slots slot w :
  docs scheduleslot (snd (decrement_slot slot w)) = docs scheduleslot w
  ∨ ∃ o n,
      ObjectId (str_of_id (_id slot)) = Some o
      ∧ remaining_of slot = Some n
      ∧ update_first (IdOid o) (slot_update n) (docs scheduleslot w)
        = Some (docs scheduleslot (snd (decrement_slot slot w))).
Proof.
  unfold decrement_slot. rewrite bind_run.
  destruct (ObjectId (str_of_id (_id slot))) as [o|]; [|left; reflexivity].
  simpl. rewrite bind_run.
  destruct (remaining_of slot) as [n|]; [|left; reflexivity].
  simpl. unfold update_one, store_call.
  destruct (outage w (length (calls w))); [left; reflexivity|].
  change (docs scheduleslot (log_call ?ev w)) with (docs scheduleslot w).
  destruct (update_first _ _ _) as [ds|] eqn:Hu; [|left; reflexivity].
  right. exists o, n. split; [reflexivity|]. split; [reflexivity|].
  unfold slot_update. rewrite Hu.
  f_equal. unfold docs, set_docs. cbn [snd collections].
  rewrite lookup_insert_eq. reflexivity.
Qed.

(** *** The paths of [create_booking_api] *)

Lemma lookup_outage payload w :
  outage w (length (calls w)) = true ->
  create_booking_api payload w
  = (Raised StoreError, log_call (Find scheduleslot (lookup_filter payload) 1) w).
Proof.
  intros H. unfold create_booking_api. rewrite bind_run.
  unfold get_documents, store_call. rewrite H. reflexivity.
Qed.

Lemma unreadable_slot payload w slot more :
  outage w (length (calls w)) = false ->
  matching_slots payload w = slot :: more ->
  fields slot !! "status" = Some (VStr "open") ->
  remaining_of slot = None ->
  create_booking_api payload w
  = (Raised TypeError, log_call (Find scheduleslot (lookup_filter payload) 1) w).
Proof.
  intros Hserved Hm Hst Hn. unfold create_booking_api.
  rewrite bind_run. fold (lookup_filter payload).
  rewrite (lookup_run payload w Hserved), Hm.
  change (take 1 (slot :: more)) with [slot].
  rewrite bind_run.
  rewrite bool_decide_eq_false_2 by (intros Hne; apply Hne; exact Hst).
  rewrite bind_run, Hn. reflexivity.
Qed.

Lemma insert_outage payload slot w :
  outage w (S (length (calls w))) = true ->
  create_document "booking" (booking_record payload slot)
    (log_call (Find scheduleslot (lookup_filter payload) 1) w)
  = (Raised StoreError,
     log_call (InsertOne "booking" (booking_record payload slot))
       (log_call (Find scheduleslot (lookup_filter payload) 1) w)).
Proof.
  intros H. unfold create_document, store_call. simpl outage. simpl calls.
  rewrite length_app. simpl length. rewrite Nat.add_1_r, H. reflexivity.
Qed.

Lemma booked_world_next_oid payload slot w :
  outage w (S (length (calls w))) = false ->
  next_oid (booked_world payload slot w) = (next_oid w + 1)%N.
Proof.
  intros H. unfold booked_world, create_document, store_call.
  simpl outage. simpl calls.
  rewrite length_app. simpl length. rewrite Nat.add_1_r, H. reflexivity.
Qed.

(** The request once the lookup has settled on a slot, or on none, to
    book against. *)
Lemma booking_step payload w (slot : option Doc) :
  (booking_id ← create_document "booking" (booking_record payload slot);
   match slot with
   | Some slot => try_except (decrement_slot slot) (fun _ => ret tt)
   | None => ret tt
   end;;
   ret (BookingCreated.mk booking_id "created"))
    (log_call (Find scheduleslot (lookup_filter payload) 1) w)
  = if outage w (S (length (calls w)))
    then (Raised StoreError,
          log_call (InsertOne "booking" (booking_record payload slot))
            (log_call (Find scheduleslot (lookup_filter payload) 1) w))
    else (Return (acknowledgement w),
          match slot with
          | Some s => snd (decrement_slot s (booked_world payload slot w))
          | None => booked_world payload slot w
          end).
Proof.
  destruct (outage w (S (length (calls w)))) eqn:Hins.
  - rewrite bind_run, (insert_outage payload slot w Hins). reflexivity.
  - rewrite bind_run, (insert_run payload slot w Hins).
    destruct slot as [s|].
    + rewrite bind_run, try_except_swallow. reflexivity.
    + reflexivity.
Qed.

(** X7: a booking request that ends in an error, whatever the error, has
    written nothing: the collections and the identifier counter are as
    before. One that is answered has inserted exactly one booking, under
    the identifier the answer carries, which refers to the first slot at
    the times of the request when there is one. *)
Theorem create_booking_all_or_nothing payload w :
  match fst (create_booking_api payload w) with
  | Raised _ =>
      collections (snd (create_booking_api payload w)) = collections w
      ∧ next_oid (snd (create_booking_api payload w)) = next_oid w
  | Return ack =>
      ack = BookingCreated.mk (Py.to_hex 24 (next_oid w)) "created"
      ∧ docs "booking" (snd (create_booking_api payload w))
        = docs "booking" w
          ++ [mk_doc (IdOid (next_oid w))
                (booking_record payload (head (matching_slots payload w)))]
      ∧ next_oid (snd (create_booking_api payload w)) = (next_oid w + 1)%N
  end.
Proof.
  destruct (outage w (length (calls w))) eqn:H0.
  { rewrite (lookup_outage payload w H0). split; reflexivity. }
  destruct (matching_slots payload w) as [|slot more] eqn:Hm.
  - rewrite (no_slot payload w H0 Hm), bind_run.
    destruct (outage w (S (length (calls w)))) eqn:H1.
    + rewrite (insert_outage payload None w H1). split; reflexivity.
    + rewrite (insert_run payload None w H1). simpl. split; [reflexivity|]. split.
      * apply booked_world_booking. exact H1.
      * apply booked_world_next_oid. exact H1.
  - destruct (decide (fields slot !! "status" = Some (VStr "open"))) as [Hopen|Hnot].
    + destruct (remaining_of slot) as [n|] eqn:Hn.
      * destruct (Z_le_gt_dec n 0) as [Hle|Hgt].
        -- rewrite (rejected_slot payload w H0 slot more Hm); [split; reflexivity|].
           right. eauto.
        -- rewrite (accepted_slot payload w H0 slot more n Hm Hopen Hn);
             [|lia].
           pose proof (booking_step payload w (Some slot)) as Hstep.
           cbv beta iota in Hstep. rewrite Hstep.
           destruct (outage w (S (length (calls w)))) eqn:H1.
           ++ split; reflexivity.
           ++ simpl. split; [reflexivity|]. split.
              ** rewrite decrement_slot_booking.
                 apply booked_world_booking. exact H1.
              ** destruct (decrement_slot_frame slot
                             (booked_world payload (Some slot) w)) as [-> _].
                 apply booked_world_next_oid. exact H1.
      * rewrite (unreadable_slot payload w slot more H0 Hm Hopen Hn).
        split; reflexivity.
    + rewrite (rejected_slot payload w H0 slot more Hm); [split; reflexivity|].
      left. exact Hnot.
Qed.

(** X8: a matched open slot whose [remaining] is present but null, or a
    date, is not read as one place left the way an absent field is: the
    request ends in a [TypeError], no 400, with nothing written. *)
Theorem create_booking_null_remaining payload w slot more :
  outage w (length (calls w)) = false ->
  matching_slots payload w = slot :: more ->
  fields slot !! "status" = Some (VStr "open") ->
  fields slot !! "remaining" = Some VNull
  ∨ (∃ d, fields slot !! "remaining" = Some (VDate d)) ->
  fst (create_booking_api payload w) = Raised TypeError
  ∧ collections (snd (create_booking_api payload w)) = collections w
  ∧ calls (snd (create_booking_api payload w))
    = calls w ++ [Find scheduleslot (lookup_filter payload) 1].
Proof.
  intros Hserved Hm Hopen Hrem.
  rewrite (unreadable_slot payload w slot more Hserved Hm Hopen).
  - repeat split.
  - unfold remaining_of. destruct Hrem as [->|[d ->]]; reflexivity.
Qed.

Lemma create_booking_null_remaining_witness :
  matching_slots (Sample.booking Sample.t1300 Sample.t1330) Scenario.world_null
  = [Scenario.slot_null]
  ∧ fields Scenario.slot_null !! "remaining" = Some VNull
  ∧ fst (create_booking_api (Sample.booking Sample.t1300 Sample.t1330)
           Scenario.world_null)
    = Raised TypeError
  ∧ collections (snd (create_booking_api (Sample.booking Sample.t1300 Sample.t1330)
                        Scenario.world_null))
    = collections Scenario.world_null.
Proof.
  split; [vm_compute; reflexivity|]. split; [vm_compute; reflexivity|].
  destruct (create_booking_null_remaining
              (Sample.booking Sample.t1300 Sample.t1330) Scenario.world_null
              Scenario.slot_null [] eq_refl) as (H1 & H2 & _).
  - vm_compute. reflexivity.
  - vm_compute. reflexivity.
  - left. vm_compute. reflexivity.
  - split; assumption.
Defined.

(** *** One booking after the other *)

Lemma matches_same_times payload d d' :
  fields d' !! "start_time" = fields d !! "start_time" ->
  fields d' !! "end_time" = fields d !! "end_time" ->
  matches (lookup_filter payload) d = true ->
  matches (lookup_filter payload) d' = true.
Proof.
  intros Hs He Hm. apply lookup_filter_matches in Hm as (s & e & H1 & H2 & H3 & H4).
  apply lookup_filter_matches. exists s, e. rewrite Hs, He. auto.
Qed.

(** The first match stays the first match when it is replaced by a
    document with the same times. *)
Lemma matching_after_update payload before slot slot' after more :
  _id slot ∉ map _id before ->
  List.filter (matches (lookup_filter payload)) (before ++ slot :: after)
  = slot :: more ->
  fields slot' !! "start_time" = fields slot !! "start_time" ->
  fields slot' !! "end_time" = fields slot !! "end_time" ->
  List.filter (matches (lookup_filter payload)) (before ++ slot' :: after)
  = slot' :: more.
Proof.
  intros Hfresh Hm Hs He.
  rewrite List.filter_app in Hm |- *.
  destruct (List.filter (matches (lookup_filter payload)) before) as [|x xs] eqn:Hb.
  - simpl in Hm |- *.
    destruct (matches (lookup_filter payload) slot) eqn:Hslot.
    + injection Hm as <-.
      rewrite (matches_same_times payload slot slot' Hs He Hslot). reflexivity.
    + exfalso.
      assert (In slot (List.filter (matches (lookup_filter payload)) after)) as Hin
        by (rewrite Hm; left; reflexivity).
      apply List.filter_In in Hin as [_ Hin]. congruence.
  - exfalso. simpl in Hm. injection Hm as -> _.
    assert (In slot (List.filter (matches (lookup_filter payload)) before)) as Hin
      by (rewrite Hb; left; reflexivity).
    apply List.filter_In in Hin as [Hin _].
    apply Hfresh. apply list_elem_of_In, List.in_map. exact Hin.
Qed.

(** One booking against an open slot with places left, the store serving
    every call. *)
Lemma booking_takes_place payload w slot more o n :
  (∀ k, outage w k = false) ->
  NoDup (map _id (docs scheduleslot w)) ->
  matching_slots payload w = slot :: more ->
  _id slot = IdOid o -> (o < 2 ^ 96)%N ->
  fields slot !! "status" = Some (VStr "open") ->
  fields slot !! "remaining" = Some (VInt n) -> 0 < n ->
  let w' := snd (create_booking_api payload w) in
  let slot' :=
    mk_doc (IdOid o)
      (<["status" := VStr (if n - 1 <=? 0 then "booked" else "open")]>
         (<["remaining" := VInt (n - 1)]> (fields slot))) in
  fst (create_booking_api payload w) = Return (acknowledgement w)
  ∧ (∀ k, outage w' k = false)
  ∧ NoDup (map _id (docs scheduleslot w'))
  ∧ matching_slots payload w' = slot' :: more
  ∧ length (docs "booking" w') = S (length (docs "booking" w)).
Proof.
  intros Hout Hnd Hm Hid Ho Hopen Hrem Hpos w' slot'.
  pose proof (remaining_of_int slot n Hrem) as Hn.
  pose proof (matched_run payload w slot more n (Hout _) (Hout _) Hm Hopen Hn Hpos)
    as Hrun.
  destruct (matching_slots_head payload w slot more Hm) as [Hin _].
  destruct (unique_id_split _ slot Hnd Hin) as (before & after & Hdocs & Hfresh).
  destruct (decrement_slot_applied slot (booked_world payload (Some slot) w)
              o n before after (fields slot'))
    as (_ & Hslots & _).
  { rewrite booked_world_outage by apply Hout. apply Hout. }
  { exact Hid. }
  { exact Ho. }
  { exact Hn. }
  { rewrite booked_world_scheduleslot by apply Hout. exact Hdocs. }
  { rewrite <- Hid. exact Hfresh. }
  { unfold apply_update. simpl foldr. unfold apply_inc. simpl.
    rewrite Hrem. reflexivity. }
  assert (w' = snd (decrement_slot slot (booked_world payload (Some slot) w)))
    as Hw' by (unfold w'; rewrite Hrun; reflexivity).
  split; [rewrite Hrun; reflexivity|].
  split.
  { intros k. rewrite Hw'.
    destruct (decrement_slot_frame slot (booked_world payload (Some slot) w))
      as (_ & -> & _).
    rewrite booked_world_outage by apply Hout. apply Hout. }
  split.
  { rewrite Hw', Hslots. rewrite Hdocs in Hnd.
    rewrite map_app in Hnd |- *. simpl in Hnd |- *. rewrite <- Hid. exact Hnd. }
  split.
  { unfold matching_slots. rewrite Hw', Hslots.
    apply (matching_after_update payload before slot _ after more Hfresh).
    - rewrite <- Hdocs. exact Hm.
    - simpl. rewrite !lookup_insert_ne by discriminate. reflexivity.
    - simpl. rewrite !lookup_insert_ne by discriminate. reflexivity. }
  rewrite Hw', decrement_slot_booking.
  rewrite booked_world_booking by apply Hout.
  rewrite length_app. simpl. lia.
Qed.

Lemma book_repeatedly_S payload k w :
  book_repeatedly payload (S k) w
  = (fst (create_booking_api payload w)
       :: fst (book_repeatedly payload k (snd (create_booking_api payload w))),
     snd (book_repeatedly payload k (snd (create_booking_api payload w)))).
Proof.
  simpl. destruct (create_booking_api payload w) as [o w1]. simpl.
  destruct (book_repeatedly payload k w1) as [os w2]. reflexivity.
Qed.

Lemma sold_out payload m : ∀ w slot more o,
  (∀ k, outage w k = false) ->
  NoDup (map _id (docs scheduleslot w)) ->
  matching_slots payload w = slot :: more ->
  _id slot = IdOid o -> (o < 2 ^ 96)%N ->
  fields slot !! "status" = Some (VStr "open") ->
  fields slot !! "remaining" = Some (VInt (Z.of_nat (S m))) ->
  Forall (fun a => ∃ ack, a = Return ack) (fst (book_repeatedly payload (S m) w))
  ∧ length (docs "booking" (snd (book_repeatedly payload (S m) w)))
    = (length (docs "booking" w) + S m)%nat
  ∧ (∀ k, outage (snd (book_repeatedly payload (S m) w)) k = false)
  ∧ ∃ slot',
      matching_slots payload (snd (book_repeatedly payload (S m) w)) = slot' :: more
      ∧ _id slot' = IdOid o
      ∧ fields slot' !! "remaining" = Some (VInt 0)
      ∧ fields slot' !! "status" = Some (VStr "booked").
Proof.
  induction m as [|m IH]; intros w slot more o Hout Hnd Hm Hid Ho Hopen Hrem.
  - destruct (booking_takes_place payload w slot more o 1 Hout Hnd Hm Hid Ho Hopen Hrem)
      as (Hack & Hout' & _ & Hm' & Hlen); [lia|].
    rewrite book_repeatedly_S. simpl.
    split; [constructor; [eauto | constructor]|].
    split; [rewrite Hlen; lia|]. split; [exact Hout'|].
    eexists. split; [exact Hm'|]. simpl. split; [reflexivity|]. split.
    + rewrite lookup_insert_ne by discriminate. apply lookup_insert_eq.
    + apply lookup_insert_eq.
  - destruct (booking_takes_place payload w slot more o (Z.of_nat (S (S m)))
                Hout Hnd Hm Hid Ho Hopen Hrem)
      as (Hack & Hout' & Hnd' & Hm' & Hlen); [lia|].
    replace (Z.of_nat (S (S m)) - 1) with (Z.of_nat (S m)) in Hm' by lia.
    destruct (Z.leb_spec (Z.of_nat (S m)) 0) as [Hle|_]; [lia|].
    destruct (IH _ _ more o Hout' Hnd' Hm' eq_refl Ho) as (Hall & Hl & Hout'' & Hslot).
    { apply lookup_insert_eq. }
    { simpl. rewrite lookup_insert_ne by discriminate. apply lookup_insert_eq. }
    rewrite (book_repeatedly_S payload (S m) w).
    cbn [fst snd].
    split; [constructor; [eauto | exact Hall]|].
    split; [rewrite Hl, Hlen; lia|]. split; [exact Hout''|]. exact Hslot.
Qed.

(** X9: requests made one after the other cannot oversell a slot. From an
    open slot with [n] places, the store serving every call and
    identifiers unique, [n] requests for its times are all answered and
    insert [n] bookings; they leave the slot with no place and booked, and
    the next request is refused with the 400, inserting nothing. *)
Theorem sequential_bookings_fill_the_slot payload n w slot more o :
  (∀ k, outage w k = false) ->
  NoDup (map _id (docs scheduleslot w)) ->
  matching_slots payload w = slot :: more ->
  _id slot = IdOid o -> (o < 2 ^ 96)%N ->
  fields slot !! "status" = Some (VStr "open") ->
  fields slot !! "remaining" = Some (VInt (Z.of_nat n)) -> (0 < n)%nat ->
  Forall (fun a => ∃ ack, a = Return ack) (fst (book_repeatedly payload n w))
  ∧ length (docs "booking" (snd (book_repeatedly payload n w)))
    = (length (docs "booking" w) + n)%nat
  ∧ (∃ slot',
       matching_slots payload (snd (book_repeatedly payload n w)) = slot' :: more
       ∧ _id slot' = IdOid o
       ∧ fields slot' !! "remaining" = Some (VInt 0)
       ∧ fields slot' !! "status" = Some (VStr "booked"))
  ∧ fst (create_booking_api payload (snd (book_repeatedly payload n w)))
    = Raised (HTTPException 400 "Slot not available")
  ∧ docs "booking"
      (snd (create_booking_api payload (snd (book_repeatedly payload n w))))
    = docs "booking" (snd (book_repeatedly payload n w)).
Proof.
  intros Hout Hnd Hm Hid Ho Hopen Hrem Hpos.
  destruct n as [|m]; [lia|].
  destruct (sold_out payload m w slot more o Hout Hnd Hm Hid Ho Hopen Hrem)
    as (Hall & Hlen & Hout' & slot' & Hm' & Hid' & Hrem' & Hst').
  split; [exact Hall|]. split; [exact Hlen|].
  split; [exists slot'; auto|].
  rewrite (rejected_slot payload _ (Hout' _) slot' more Hm').
  - split; reflexivity.
  - left. rewrite Hst'. discriminate.
Qed.

Lemma sequential_bookings_fill_the_slot_witness :
  map (fun a => match a with Return _ => true | Raised _ => false end)
    (fst (book_repeatedly (Sample.booking Sample.t1000 Sample.t1030) 3 Sample.world))
  = [true; true; true]
  ∧ length (docs "booking"
              (snd (book_repeatedly (Sample.booking Sample.t1000 Sample.t1030) 3
                      Sample.world)))
    = 3%nat
  ∧ fst (create_booking_api (Sample.booking Sample.t1000 Sample.t1030)
           (snd (book_repeatedly (Sample.booking Sample.t1000 Sample.t1030) 3
                   Sample.world)))
    = Raised (HTTPException 400 "Slot not available").
Proof.
  split; [vm_compute; reflexivity|].
  destruct (sequential_bookings_fill_the_slot
              (Sample.booking Sample.t1000 Sample.t1030) 3 Sample.world
              Sample.slot_b [] 8) as (_ & Hlen & _ & H400 & _).
  - intros k. reflexivity.
  - refine (bool_decide_unpack _ _). vm_compute. exact I.
  - vm_compute. reflexivity.
  - reflexivity.
  - reflexivity.
  - vm_compute. reflexivity.
  - vm_compute. reflexivity.
  - lia.
  - split; [exact Hlen | exact H400].
Defined.

(** *** Every path of a booking request *)

Lemma create_booking_api_paths payload w :
  (∃ e w', create_booking_api payload w = (Raised e, w')
           ∧ collections w' = collections w)
  ∨ (outage w (S (length (calls w))) = false
     ∧ create_booking_api payload w
       = (Return (acknowledgement w),
          match head (matching_slots payload w) with
          | Some s => snd (decrement_slot s (booked_world payload (Some s) w))
          | None => booked_world payload None w
          end)).
Proof.
  destruct (outage w (length (calls w))) eqn:H0.
  { left. rewrite (lookup_outage payload w H0). eauto. }
  destruct (matching_slots payload w) as [|slot more] eqn:Hm.
  - rewrite (no_slot payload w H0 Hm), bind_run.
    destruct (outage w (S (length (calls w)))) eqn:H1.
    + left. rewrite (insert_outage payload None w H1). eauto.
    + right. rewrite (insert_run payload None w H1). auto.
  - destruct (decide (fields slot !! "status" = Some (VStr "open"))) as [Hopen|Hnot].
    + destruct (remaining_of slot) as [n|] eqn:Hn.
      * destruct (Z_le_gt_dec n 0) as [Hle|Hgt].
        -- left. rewrite (rejected_slot payload w H0 slot more Hm); eauto.
        -- rewrite (accepted_slot payload w H0 slot more n Hm Hopen Hn);
             [|lia].
           pose proof (booking_step payload w (Some slot)) as Hstep.
           cbv beta iota in Hstep. rewrite Hstep.
           destruct (outage w (S (length (calls w)))) eqn:H1.
           ++ left. eauto.
           ++ right. auto.
      * left. rewrite (unreadable_slot payload w slot more H0 Hm Hopen Hn). eauto.
    + left. rewrite (rejected_slot payload w H0 slot more Hm); eauto.
Qed.

(** The slots after a booking request: as before, or with one document
    updated as [create_booking_api] updates a slot. *)
Lemma create_booking_api_slots payload w :
  docs scheduleslot (snd (create_booking_api payload w)) = docs scheduleslot w
  ∨ ∃ o n,
      update_first (IdOid o) (slot_update n) (docs scheduleslot w)
      = Some (docs scheduleslot (snd (create_booking_api payload w))).
Proof.
  destruct (create_booking_api_paths payload w)
    as [(e & w' & -> & Hc)|(H1 & ->)].
  - left. unfold docs. simpl. rewrite Hc. reflexivity.
  - simpl. destruct (head (matching_slots payload w)) as [s|].
    + destruct (decrement_slot_slots s (booked_world payload (Some s) w))
        as [->|(o & n & _ & _ & Hu)].
      * left. apply booked_world_scheduleslot. exact H1.
      * right. exists o, n. rewrite <- Hu.
        rewrite booked_world_scheduleslot by exact H1. reflexivity.
    + left. apply booked_world_scheduleslot. exact H1.
Qed.

Lemma update_first_Forall (P : gmap string Value -> Prop) id upd : ∀ ds ds',
  (∀ f f', P f -> upd f = Some f' -> P f') ->
  Forall (fun d => P (fields d)) ds ->
  update_first id upd ds = Some ds' ->
  Forall (fun d => P (fields d)) ds'.
Proof.
  induction ds as [|d ds IH]; intros ds' Hupd Hall H; simpl in H.
  - injection H as <-. constructor.
  - apply Forall_cons in Hall as [Hd Hall].
    destruct (decide (_id d = id)).
    + destruct (upd (fields d)) as [f|] eqn:Hf; simpl in H; [|discriminate].
      injection H as <-. constructor; [|exact Hall].
      simpl. apply (Hupd _ _ Hd Hf).
    + destruct (update_first id upd ds) as [ds0|] eqn:Hr; simpl in H; [|discriminate].
      injection H as <-. constructor; [exact Hd|]. apply IH; auto.
Qed.

Lemma update_first_ids id upd : ∀ ds ds',
  update_first id upd ds = Some ds' -> map _id ds' = map _id ds.
Proof.
  induction ds as [|d ds IH]; intros ds' H; simpl in H.
  - injection H as <-. reflexivity.
  - destruct (decide (_id d = id)).
    + destruct (upd (fields d)) as [f|]; simpl in H; [|discriminate].
      injection H as <-. reflexivity.
    + destruct (update_first id upd ds) as [ds0|] eqn:Hr; simpl in H; [|discriminate].
      injection H as <-. simpl. rewrite (IH ds0 eq_refl). reflexivity.
Qed.

Lemma slot_update_fields n f f' :
  slot_update n f = Some f' ->
  ∃ m, f' = <["status" := VStr (if n - 1 <=? 0 then "booked" else "open")]>
              (<["remaining" := VInt m]> f).
Proof.
  unfold slot_update, apply_update. simpl foldr. unfold apply_inc. simpl.
  destruct (f !! "remaining") as [[| m | |]|]; simpl; try discriminate;
    intros [= <-]; eauto.
Qed.

Lemma slot_update_shape n f f' :
  Schemas.has_shape Schemas.ScheduleSlot f = true ->
  slot_update n f = Some f' ->
  Schemas.has_shape Schemas.ScheduleSlot f' = true.
Proof.
  intros Hf Hu. apply slot_update_fields in Hu as [m ->].
  unfold Schemas.has_shape in *. rewrite List.forallb_forall in *.
  intros fld Hin. specialize (Hf fld Hin).
  simpl in Hin.
  destruct Hin as [<-|[<-|[<-|[<-|[<-|[<-|[<-|[<-|[]]]]]]]]];
    cbn [Schemas.field_name Schemas.field_type Schemas.required] in *;
    try (rewrite !lookup_insert_ne by discriminate; exact Hf).
  - rewrite lookup_insert_ne by discriminate. rewrite lookup_insert_eq. reflexivity.
  - rewrite lookup_insert_eq. destruct (n - 1 <=? 0); reflexivity.
Qed.

(** X10: a booking request keeps the slots within the [ScheduleSlot]
    class: if every slot of the store has the shape the class declares,
    so has every slot after the request, whatever its outcome; the
    identifiers of the slots, and their order, stay as they were. *)
Theorem create_booking_keeps_slot_shape payload w :
  Forall (fun d => Schemas.has_shape Schemas.ScheduleSlot (fields d) = true)
    (docs scheduleslot w) ->
  Forall (fun d => Schemas.has_shape Schemas.ScheduleSlot (fields d) = true)
    (docs scheduleslot (snd (create_booking_api payload w)))
  ∧ map _id (docs scheduleslot (snd (create_booking_api payload w)))
    = map _id (docs scheduleslot w).
Proof.
  intros Hall.
  destruct (create_booking_api_slots payload w) as [->|(o & n & Hu)].
  - split; [exact Hall | reflexivity].
  - split.
    + apply (update_first_Forall
               (fun f => Schemas.has_shape Schemas.ScheduleSlot f = true)
               _ _ _ _ (slot_update_shape n) Hall Hu).
    + apply (update_first_ids _ _ _ _ Hu).
Qed.

Lemma create_booking_keeps_slot_shape_witness :
  Forall (fun d => Schemas.has_shape Schemas.ScheduleSlot (fields d) = true)
    (docs scheduleslot Sample.world)
  ∧ Forall (fun d => Schemas.has_shape Schemas.ScheduleSlot (fields d) = true)
      (docs scheduleslot
         (snd (create_booking_api (Sample.booking Sample.t1200 Sample.t1230)
                 Sample.world))).
Proof.
  assert (Forall (fun d => Schemas.has_shape Schemas.ScheduleSlot (fields d) = true)
            (docs scheduleslot Sample.world)) as H.
  { repeat constructor. }
  split; [exact H|].
  apply (create_booking_keeps_slot_shape
           (Sample.booking Sample.t1200 Sample.t1230) Sample.world H).
Defined.

(** *** The records written, against the classes of [schemas.py] *)

Lemma booking_record_recorded_source payload slot :
  booking_record payload slot !! "source" = Some (VStr (recorded_source payload)).
Proof.
  unfold booking_record, recorded_source.
  repeat (rewrite lookup_insert_ne by discriminate).
  apply lookup_insert_eq.
Qed.

Lemma booking_record_shape payload slot :
  Schemas.has_shape Schemas.Booking (booking_record payload slot)
  = bool_decide (recorded_source payload ∈ ["phone"; "web"; "ai"; "manual"]).
Proof.
  unfold Schemas.has_shape, Schemas.Booking.
  cbn [forallb Schemas.field_name Schemas.field_type Schemas.required].
  destruct (booking_record_fields payload slot)
    as (-> & -> & -> & -> & -> & -> & -> & -> & ->).
  rewrite booking_record_recorded_source, booking_record_slot_id.
  cbn [Schemas.has_type].
  destruct (BookingCreate.staff_id payload), (BookingCreate.notes payload), slot;
    cbn [opt_str Schemas.has_type andb];
    rewrite ?andb_true_r; try reflexivity; apply bool_decide_ext; set_solver.
Qed.

(** X11: the booking a request inserts has the shape of the [Booking]
    class exactly when the source it records, the one of the request or
    ["ai"] in its place, is one of [phone], [web], [ai] and [manual]: any
    other source is stored as given. *)
Theorem create_booking_record_shape payload w ack :
  fst (create_booking_api payload w) = Return ack ->
  ∃ record,
    docs "booking" (snd (create_booking_api payload w))
    = docs "booking" w ++ [mk_doc (IdOid (next_oid w)) record]
    ∧ record !! "source" = Some (VStr (recorded_source payload))
    ∧ (Schemas.has_shape Schemas.Booking record = true
       <-> recorded_source payload ∈ ["phone"; "web"; "ai"; "manual"]).
Proof.
  intros Hret.
  exists (booking_record payload (head (matching_slots payload w))).
  split; [|split].
  - destruct (create_booking_api_paths payload w)
      as [(e & w' & Hrun & _)|(H1 & Hrun)]; rewrite Hrun in Hret |- *;
      [discriminate|].
    simpl. destruct (head (matching_slots payload w)) as [s|].
    + rewrite decrement_slot_booking. apply booked_world_booking. exact H1.
    + apply booked_world_booking. exact H1.
  - apply booking_record_recorded_source.
  - rewrite booking_record_shape. apply bool_decide_eq_true.
Qed.

Lemma create_booking_record_shape_witness :
  fst (create_booking_api Scenario.booking_by_email Sample.world)
  = Return (BookingCreated.mk "000000000000000000001000" "created")
  ∧ ∃ record,
      docs "booking" (snd (create_booking_api Scenario.booking_by_email Sample.world))
      = [mk_doc (IdOid 4096) record]
      ∧ record !! "source" = Some (VStr "email")
      ∧ Schemas.has_shape Schemas.Booking record = false.
Proof.
  split; [vm_compute; reflexivity|].
  destruct (create_booking_record_shape Scenario.booking_by_email Sample.world
              (BookingCreated.mk "000000000000000000001000" "created"))
    as (record & Hdocs & Hsrc & Hshape); [vm_compute; reflexivity|].
  exists record. split; [exact Hdocs|]. split; [exact Hsrc|].
  destruct (Schemas.has_shape Schemas.Booking record); [|reflexivity].
  exfalso. destruct Hshape as [Hshape _].
  specialize (Hshape eq_refl). apply list_elem_of_In in Hshape.
  vm_compute in Hshape. intuition discriminate.
Defined.

(** ** More on the payment-link stub *)

Lemma create_document_run w collection data :
  outage w (length (calls w)) = false ->
  create_document collection data w
  = (Return (Py.to_hex 24 (next_oid w)),
     mk_world (<[collection := docs collection w
                               ++ [mk_doc (IdOid (next_oid w)) data]]> (collections w))
              (next_oid w + 1)%N (clock w) (urandom w) (drawn w) (outage w)
              (calls w ++ [InsertOne collection data])).
Proof.
  intros H. unfold create_document, store_call. rewrite H. reflexivity.
Qed.

Lemma create_document_outage w collection data :
  outage w (length (calls w)) = true ->
  create_document collection data w
  = (Raised StoreError, log_call (InsertOne collection data) w).
Proof.
  intros H. unfold create_document, store_call. rewrite H. reflexivity.
Qed.

(** The world once the token is drawn. *)
Lemma token_urlsafe_world n w :
  snd (token_urlsafe n w)
  = mk_world (collections w) (next_oid w) (clock w) (urandom w)
             (drawn w + n)%nat (outage w) (calls w).
Proof. reflexivity. Qed.

Lemma create_payment_link_paths payload w :
  create_payment_link payload w
  = match Py.datetime_add (clock w) (7 * Py.US_PER_DAY) with
    | Some expires_at =>
        (link_id ← create_document "paymentlink"
                     (payment_link_record payload
                        (Py.urlsafe_b64encode (next_bytes 12 w)) expires_at);
         ret (PaymentLinkCreated.mk link_id
                (Py.urlsafe_b64encode (next_bytes 12 w))
                ("/pay/" +:+ Py.urlsafe_b64encode (next_bytes 12 w))))
          (snd (token_urlsafe 12 w))
    | None => (Raised OverflowError, snd (token_urlsafe 12 w))
    end.
Proof.
  destruct (token_urlsafe_12 w) as (Htok & _ & _ & Hclk & _).
  unfold create_payment_link. rewrite bind_run.
  destruct (token_urlsafe 12 w) as [o w'] eqn:Hw'. simpl in Htok, Hclk |- *.
  subst o. rewrite bind_run. unfold utcnow. rewrite bind_run.
  change (Py.timedelta_days 7) with (Some (7 * Py.US_PER_DAY)).
  cbn [or_raise ret]. rewrite bind_run, Hclk.
  destruct (Py.datetime_add (clock w) (7 * Py.US_PER_DAY)); reflexivity.
Qed.

Lemma payment_link_record_shape payload token expires_at :
  Schemas.has_shape Schemas.PaymentLink (payment_link_record payload token expires_at)
  = true.
Proof.
  unfold Schemas.has_shape, Schemas.PaymentLink.
  cbn [forallb Schemas.field_name Schemas.field_type Schemas.required].
  destruct (payment_link_record_fields payload token expires_at)
    as (-> & -> & -> & -> & -> & -> & -> & ->).
  destruct (PaymentLinkCreate.description payload); reflexivity.
Qed.

(** X12: a payment-link request leaves the slots and the bookings alone
    and always draws its twelve bytes. When it fails, by an expiry past
    the last representable day or by the store, no collection has
    changed; when it is answered, exactly one record has been added to the
    payment links, of the shape of the [PaymentLink] class, under the
    identifier and with the token and URL of the answer. *)
Theorem create_payment_link_all_or_nothing payload w :
  docs scheduleslot (snd (create_payment_link payload w)) = docs scheduleslot w
  ∧ docs "booking" (snd (create_payment_link payload w)) = docs "booking" w
  ∧ drawn (snd (create_payment_link payload w)) = (drawn w + 12)%nat
  ∧ match fst (create_payment_link payload w) with
    | Raised e =>
        (e = OverflowError ∨ e = StoreError)
        ∧ collections (snd (create_payment_link payload w)) = collections w
    | Return answer =>
        ∃ record,
          docs "paymentlink" (snd (create_payment_link payload w))
          = docs "paymentlink" w ++ [mk_doc (IdOid (next_oid w)) record]
          ∧ Schemas.has_shape Schemas.PaymentLink record = true
          ∧ PaymentLinkCreated.id answer = Py.to_hex 24 (next_oid w)
          ∧ record !! "token" = Some (VStr (PaymentLinkCreated.token answer))
          ∧ record !! "url" = Some (VStr (PaymentLinkCreated.url answer))
          ∧ PaymentLinkCreated.url answer
            = "/pay/" +:+ PaymentLinkCreated.token answer
    end.
Proof.
  rewrite create_payment_link_paths.
  destruct (Py.datetime_add (clock w) (7 * Py.US_PER_DAY)) as [expires_at|].
  - rewrite bind_run, token_urlsafe_world.
    destruct (outage w (length (calls w))) eqn:Hout.
    + rewrite create_document_outage by exact Hout.
      repeat split. right. reflexivity.
    + rewrite create_document_run by exact Hout.
      cbn [fst snd ret].
      split; [unfold docs; simpl; rewrite lookup_insert_ne by discriminate;
              reflexivity|].
      split; [unfold docs; simpl; rewrite lookup_insert_ne by discriminate;
              reflexivity|].
      split; [reflexivity|].
      eexists. split.
      { unfold docs. simpl. rewrite lookup_insert_eq. reflexivity. }
      split; [apply payment_link_record_shape|].
      split; [reflexivity|].
      destruct (payment_link_record_fields payload
                  (Py.urlsafe_b64encode (next_bytes 12 w)) expires_at)
        as (_ & _ & Htok & Hurl & _).
      simpl. auto.
  - rewrite token_urlsafe_world. repeat split. left. reflexivity.
Qed.

Lemma to_hex_inj a b :
  (a < 2 ^ 96)%N -> (b < 2 ^ 96)%N -> Py.to_hex 24 a = Py.to_hex 24 b -> a = b.
Proof.
  intros Ha Hb H.
  pose proof (ObjectId_str a Ha) as H1. pose proof (ObjectId_str b Hb) as H2.
  change (str_of_id (IdOid a)) with (Py.to_hex 24 a) in H1.
  change (str_of_id (IdOid b)) with (Py.to_hex 24 b) in H2.
  congruence.
Qed.

(** The world a served payment-link request leaves. *)
Lemma linked_world_served payload w :
  outage w (length (calls w)) = false ->
  0 <= Py.wall (clock w) < (Py.MAXORDINAL - 7) * Py.US_PER_DAY ->
  let token := Py.urlsafe_b64encode (next_bytes 12 w) in
  let record :=
    payment_link_record payload token
      (Py.mk_datetime (Py.wall (clock w) + 7 * Py.US_PER_DAY)
                      (Py.utcoffset (clock w))) in
  create_payment_link payload w
  = (Return (PaymentLinkCreated.mk (Py.to_hex 24 (next_oid w)) token
               ("/pay/" +:+ token)),
     mk_world (<["paymentlink" := docs "paymentlink" w
                                  ++ [mk_doc (IdOid (next_oid w)) record]]>
                 (collections w))
              (next_oid w + 1)%N (clock w) (urandom w) (drawn w + 12)%nat
              (outage w) (calls w ++ [InsertOne "paymentlink" record])).
Proof.
  intros Hout Hclock token record.
  rewrite create_payment_link_paths, (expiry_in_range _ Hclock).
  rewrite bind_run, token_urlsafe_world.
  rewrite create_document_run by exact Hout. reflexivity.
Qed.

(** X13: two payment-link requests in a row, both served, are answered
    with different identifiers; their records follow one another in the
    collection; the second token encodes the twelve bytes of entropy
    after those of the first, so the tokens are equal only if these two
    runs of bytes are. *)
Theorem create_payment_link_twice p1 p2 w :
  outage w (length (calls w)) = false ->
  outage w (S (length (calls w))) = false ->
  0 <= Py.wall (clock w) < (Py.MAXORDINAL - 7) * Py.US_PER_DAY ->
  (next_oid w + 1 < 2 ^ 96)%N ->
  ∃ a1 a2 r1 r2,
    fst (create_payment_link p1 w) = Return a1
    ∧ fst (create_payment_link p2 (linked_world p1 w)) = Return a2
    ∧ docs "paymentlink" (linked_world p2 (linked_world p1 w))
      = docs "paymentlink" w
        ++ [mk_doc (IdOid (next_oid w)) r1; mk_doc (IdOid (next_oid w + 1)) r2]
    ∧ r1 !! "token" = Some (VStr (PaymentLinkCreated.token a1))
    ∧ r2 !! "token" = Some (VStr (PaymentLinkCreated.token a2))
    ∧ PaymentLinkCreated.id a1 ≠ PaymentLinkCreated.id a2
    ∧ b64_groups_decode (PaymentLinkCreated.token a1) = next_bytes 12 w
    ∧ b64_groups_decode (PaymentLinkCreated.token a2)
      = map (fun i => urandom w (drawn w + 12 + i)%nat) (seq 0 12)
    ∧ (PaymentLinkCreated.token a1 = PaymentLinkCreated.token a2
       <-> next_bytes 12 w
           = map (fun i => urandom w (drawn w + 12 + i)%nat) (seq 0 12)).
Proof.
  intros H0 H1 Hclock Hoid.
  pose proof (linked_world_served p1 w H0 Hclock) as Hrun1. cbv zeta in Hrun1.
  assert (linked_world p1 w = snd (create_payment_link p1 w)) as Hw1 by reflexivity.
  rewrite Hrun1 in Hw1. cbn [snd] in Hw1.
  assert (outage (linked_world p1 w) (length (calls (linked_world p1 w))) = false)
    as Hout1.
  { rewrite Hw1. cbn [outage calls]. rewrite length_app, Nat.add_1_r. exact H1. }
  assert (0 <= Py.wall (clock (linked_world p1 w))
          < (Py.MAXORDINAL - 7) * Py.US_PER_DAY) as Hclock1.
  { rewrite Hw1. cbn [clock]. exact Hclock. }
  pose proof (linked_world_served p2 (linked_world p1 w) Hout1 Hclock1) as Hrun2.
  cbv zeta in Hrun2.
  assert (linked_world p2 (linked_world p1 w)
          = snd (create_payment_link p2 (linked_world p1 w))) as Hw2 by reflexivity.
  rewrite Hrun2 in Hw2 |- *.
  cbn [snd] in Hw2.
  assert (next_bytes 12 (linked_world p1 w)
          = map (fun i => urandom w (drawn w + 12 + i)%nat) (seq 0 12)) as Hbytes
    by (rewrite Hw1; reflexivity).
  assert (∀ w0, b64_groups_decode (Py.urlsafe_b64encode (next_bytes 12 w0))
                = next_bytes 12 w0) as Hdec.
  { intros w0. apply (b64_decode_encode 4). apply next_bytes_length. }
  do 4 eexists. rewrite Hrun1.
  split; [reflexivity|]. split; [reflexivity|].
  split.
  { rewrite Hw2. unfold docs at 1. cbn [collections].
    rewrite lookup_insert_eq.
    rewrite Hw1 at 1 2. unfold docs at 1. cbn [collections next_oid].
    rewrite lookup_insert_eq. cbn [from_option id].
    rewrite <- app_assoc. reflexivity. }
  split.
  { apply (payment_link_record_fields p1). }
  split.
  { apply (payment_link_record_fields p2). }
  split.
  { cbn [PaymentLinkCreated.id]. rewrite Hw1. cbn [next_oid].
    intros Heq. apply to_hex_inj in Heq; lia. }
  cbn [PaymentLinkCreated.token].
  split; [apply Hdec|]. split; [rewrite Hdec; exact Hbytes|].
  rewrite <- Hbytes. split.
  - intros Heq. rewrite <- (Hdec w), <- (Hdec (linked_world p1 w)), Heq.
    reflexivity.
  - intros Heq. rewrite Heq. reflexivity.
Qed.

Lemma create_payment_link_twice_witness :
  fst (create_payment_link Scenario.payment Sample.world)
  = Return (PaymentLinkCreated.mk "000000000000000000001000" "OvEHxF6ZAP8Sq22A"
              "/pay/OvEHxF6ZAP8Sq22A")
  ∧ fst (create_payment_link Scenario.payment
           (linked_world Scenario.payment Sample.world))
    = Return (PaymentLinkCreated.mk "000000000000000000001001" "AAAAAAAAAAAAAAAA"
                "/pay/AAAAAAAAAAAAAAAA")
  ∧ length (docs "paymentlink"
              (linked_world Scenario.payment
                 (linked_world Scenario.payment Sample.world)))
    = 2%nat.
Proof.
  split; [vm_compute; reflexivity|]. split; [vm_compute; reflexivity|].
  destruct (create_payment_link_twice Scenario.payment Scenario.payment Sample.world)
    as (a1 & a2 & r1 & r2 & _ & _ & Hdocs & _).
  - reflexivity.
  - reflexivity.
  - vm_compute. split; [discriminate | reflexivity].
  - reflexivity.
  - rewrite Hdocs. reflexivity.
Defined.

(** ** The diagnostic endpoint *)

Lemma prefix_len : ∀ s n,
  Diagnostics.len (Diagnostics.prefix n s) = Nat.min n (Diagnostics.len s).
Proof.
  induction s as [|c s IH]; intros n; simpl.
  - rewrite Nat.min_0_r. reflexivity.
  - destruct (Diagnostics.is_continuation c) eqn:E.
    + simpl. rewrite E. apply IH.
    + destruct n as [|n]; simpl; [reflexivity|]. rewrite E, IH. reflexivity.
Qed.

Lemma prefix_is_prefix : ∀ s n,
  ∃ rest, s = Diagnostics.prefix n s +:+ rest
          ∧ Diagnostics.at_boundary rest = true.
Proof.
  induction s as [|c s IH]; intros n; simpl.
  - exists "". split; reflexivity.
  - destruct (Diagnostics.is_continuation c) eqn:E.
    + destruct (IH n) as (rest & Hrest & Hb). exists rest. split; [|exact Hb].
      change (String c s = String c (Diagnostics.prefix n s +:+ rest)).
      f_equal. exact Hrest.
    + destruct n as [|n].
      * exists (String c s). split; [reflexivity|]. simpl. rewrite E. reflexivity.
      * destruct (IH n) as (rest & Hrest & Hb). exists rest. split; [|exact Hb].
        change (String c s = String c (Diagnostics.prefix n s +:+ rest)).
        f_equal. exact Hrest.
Qed.

Lemma prefix_short : ∀ s n,
  (Diagnostics.len s <= n)%nat -> Diagnostics.prefix n s = s.
Proof.
  induction s as [|c s IH]; intros n; simpl; [reflexivity|].
  destruct (Diagnostics.is_continuation c).
  - intros H. rewrite IH by exact H. reflexivity.
  - destruct n as [|n]; intros H; [lia|]. rewrite IH by lia. reflexivity.
Qed.

(** X14: whatever the handle and the environment, the diagnostic report
    says the backend runs, names at most ten collections, which are the
    first the store lists, says [Connected] exactly when there is a
    handle, and never keeps the text [Not Available] it starts from;
    without a handle it gives no URL state, no name and no collection. *)
Theorem test_database_report db url :
  Diagnostics.backend (Diagnostics.test_database db url) = "✅ Running"
  ∧ (length (Diagnostics.collections (Diagnostics.test_database db url)) <= 10)%nat
  ∧ (∀ h names,
       db = Some h -> Diagnostics.list_collection_names h = inr names ->
       Diagnostics.collections (Diagnostics.test_database db url) = take 10 names
       ∧ Diagnostics.database (Diagnostics.test_database db url)
         = "✅ Connected & Working")
  ∧ (Diagnostics.connection_status (Diagnostics.test_database db url) = "Connected"
     <-> is_Some db)
  ∧ Diagnostics.database (Diagnostics.test_database db url) ≠ "❌ Not Available"
  ∧ (db = None ->
     Diagnostics.test_database db url
     = Diagnostics.mk_response "✅ Running" "⚠️ Available but not initialized"
         None None "Not Connected" []).
Proof.
  destruct db as [[nm [e|listed]]|]; simpl.
  - split; [reflexivity|]. split; [lia|]. split.
    { intros h names [= <-]. discriminate. }
    split; [split; eauto|]. split; [discriminate | discriminate].
  - split; [reflexivity|]. split; [rewrite length_take; lia|]. split.
    { intros h names [= <-]. simpl. intros [= <-]. auto. }
    split; [split; eauto|]. split; [discriminate | discriminate].
  - split; [reflexivity|]. split; [lia|]. split.
    { intros h names [=]. }
    split; [split; [discriminate | intros [x Hx]; discriminate]|].
    split; [discriminate | reflexivity].
Qed.

(** X15: when listing the collections fails, the report still says
    [Connected], with the URL state and the name filled in, lists no
    collection, and quotes the first 80 characters of the message of the
    failure: whole characters, whatever number of bytes they take, and
    the whole message when it has no more than 80. *)
Theorem test_database_listing_failure h url e :
  Diagnostics.list_collection_names h = inl e ->
  ∃ quoted rest,
    Diagnostics.database (Diagnostics.test_database (Some h) url)
    = "⚠️ Connected but Error: " +:+ quoted
    ∧ e = quoted +:+ rest
    ∧ Diagnostics.at_boundary rest = true
    ∧ Diagnostics.len quoted = Nat.min 80 (Diagnostics.len e)
    ∧ ((Diagnostics.len e <= 80)%nat -> quoted = e)
    ∧ Diagnostics.connection_status (Diagnostics.test_database (Some h) url)
      = "Connected"
    ∧ Diagnostics.collections (Diagnostics.test_database (Some h) url) = []
    ∧ Diagnostics.database_url (Diagnostics.test_database (Some h) url)
      = Some (if truthy url then "✅ Set" else "❌ Not Set")
    ∧ Diagnostics.database_name (Diagnostics.test_database (Some h) url)
      = Some (default "✅ Connected" (Diagnostics.name h)).
Proof.
  intros He. destruct h as [nm listing]. simpl in He. subst listing.
  destruct (prefix_is_prefix e 80) as (rest & Hrest & Hb).
  exists (Diagnostics.prefix 80 e), rest.
  split; [reflexivity|]. split; [exact Hrest|]. split; [exact Hb|].
  split; [apply prefix_len|]. split; [apply prefix_short|].
  repeat split.
Qed.

Lemma test_database_listing_failure_witness :
  Diagnostics.database
    (Diagnostics.test_database
       (Some (Diagnostics.mk_handle (Some "facility") (inl (Scenario.accented 81))))
       None)
  = "⚠️ Connected but Error: " +:+ Scenario.accented 80
  ∧ Diagnostics.len (Scenario.accented 81) = 81%nat
  ∧ String.length (Scenario.accented 80) = 160%nat
  ∧ Diagnostics.database
      (Diagnostics.test_database
         (Some (Diagnostics.mk_handle (Some "facility") (inl "connexion refusée")))
         None)
    = "⚠️ Connected but Error: connexion refusée"
  ∧ Diagnostics.connection_status
      (Diagnostics.test_database
         (Some (Diagnostics.mk_handle (Some "facility") (inl "connexion refusée")))
         None)
    = "Connected".
Proof.
  destruct (test_database_listing_failure
              (Diagnostics.mk_handle (Some "facility") (inl "connexion refusée"))
              None "connexion refusée" eq_refl)
    as (quoted & rest & Hdb & _ & _ & _ & Hshort & Hstatus & _).
  split; [vm_compute; reflexivity|]. split; [vm_compute; reflexivity|].
  split; [vm_compute; reflexivity|].
  rewrite Hdb, (Hshort ltac:(vm_compute; lia)). split; [reflexivity | exact Hstatus].
Defined.

Lemma test_database_report_witness :
  Diagnostics.collections
    (Diagnostics.test_database
       (Some (Diagnostics.mk_handle None
                (inr ["a"; "b"; "c"; "d"; "e"; "f"; "g"; "h"; "i"; "j"; "k"; "l"])))
       (Some "mongodb://localhost"))
  = ["a"; "b"; "c"; "d"; "e"; "f"; "g"; "h"; "i"; "j"]
  ∧ Diagnostics.database
      (Diagnostics.test_database
         (Some (Diagnostics.mk_handle None
                  (inr ["a"; "b"; "c"; "d"; "e"; "f"; "g"; "h"; "i"; "j"; "k"; "l"])))
         (Some "mongodb://localhost"))
    = "✅ Connected & Working".
Proof.
  destruct (test_database_report
              (Some (Diagnostics.mk_handle None
                       (inr ["a"; "b"; "c"; "d"; "e"; "f"; "g"; "h"; "i"; "j"; "k"; "l"])))
              (Some "mongodb://localhost")) as (_ & _ & Hlist & _).
  apply (Hlist _ _ eq_refl eq_refl).
Defined.

(** ** The store calls of a booking request, and two requests at once *)

Lemma create_booking_api_halves payload w :
  create_booking_api payload w
  = (slot ← check_slot payload; book_slot payload slot) w.
Proof.
  unfold create_booking_api, check_slot. rewrite !bind_run.
  destruct (get_documents _ _ _ w) as [[slots|e] w1]; [|reflexivity].
  rewrite bind_run. reflexivity.
Qed.

Lemma decrement_slot_calls slot w :
  calls (snd (decrement_slot slot w)) = calls w
  ∨ ∃ o n,
      ObjectId (str_of_id (_id slot)) = Some o
      ∧ remaining_of slot = Some n
      ∧ calls (snd (decrement_slot slot w)) = calls w ++ [update_call o n].
Proof.
  unfold decrement_slot. rewrite bind_run.
  destruct (ObjectId (str_of_id (_id slot))) as [o|]; [|left; reflexivity].
  simpl. rewrite bind_run.
  destruct (remaining_of slot) as [n|]; [|left; reflexivity].
  simpl. right. exists o, n. split; [reflexivity|]. split; [reflexivity|].
  unfold update_one, store_call.
  destruct (outage w (length (calls w))); [reflexivity|].
  destruct (update_first _ _ _); reflexivity.
Qed.

(** X16: the store calls of a booking request come in one order: the
    lookup; then, unless the request has failed by then, the insert of
    the booking; then, if the insert was served and a slot was matched,
    at most one update, of the slot matched and with the status the
    places read from it give. No update is ever sent without the insert
    before it. *)
Theorem create_booking_call_order payload w :
  let find := Find scheduleslot (lookup_filter payload) 1 in
  let insert :=
    InsertOne "booking" (booking_record payload (head (matching_slots payload w))) in
  calls (snd (create_booking_api payload w)) = calls w ++ [find]
  ∨ calls (snd (create_booking_api payload w)) = calls w ++ [find; insert]
  ∨ ∃ slot o n,
      head (matching_slots payload w) = Some slot
      ∧ ObjectId (str_of_id (_id slot)) = Some o
      ∧ remaining_of slot = Some n
      ∧ outage w (S (length (calls w))) = false
      ∧ calls (snd (create_booking_api payload w))
        = calls w ++ [find; insert; update_call o n].
Proof.
  intros find insert.
  destruct (outage w (length (calls w))) eqn:H0.
  { left. rewrite (lookup_outage payload w H0). reflexivity. }
  destruct (matching_slots payload w) as [|slot more] eqn:Hm.
  - right; left. rewrite (no_slot payload w H0 Hm), bind_run.
    destruct (outage w (S (length (calls w)))) eqn:H1.
    + rewrite (insert_outage payload None w H1). simpl.
      rewrite <- app_assoc. reflexivity.
    + rewrite (insert_run payload None w H1). simpl.
      apply booked_world_calls. exact H1.
  - destruct (decide (fields slot !! "status" = Some (VStr "open"))) as [Hopen|Hnot].
    + destruct (remaining_of slot) as [n|] eqn:Hn.
      * destruct (Z_le_gt_dec n 0) as [Hle|Hgt].
        -- left. rewrite (rejected_slot payload w H0 slot more Hm); eauto.
        -- rewrite (accepted_slot payload w H0 slot more n Hm Hopen Hn);
             [|lia].
           pose proof (booking_step payload w (Some slot)) as Hstep.
           cbv beta iota in Hstep. rewrite Hstep.
           destruct (outage w (S (length (calls w)))) eqn:H1.
           ++ right; left. simpl. rewrite <- app_assoc. reflexivity.
           ++ simpl snd.
              destruct (decrement_slot_calls slot
                          (booked_world payload (Some slot) w))
                as [Hc|(o & n' & Ho & Hn' & Hc)]; rewrite Hc;
                rewrite booked_world_calls by exact H1.
              ** right; left. reflexivity.
              ** right; right. exists slot, o, n'.
                 rewrite <- app_assoc. auto.
      * left. rewrite (unreadable_slot payload w slot more H0 Hm Hopen Hn).
        reflexivity.
    + left. rewrite (rejected_slot payload w H0 slot more Hm); eauto.
Qed.

Lemma create_booking_call_order_witness :
  calls (snd (create_booking_api (Sample.booking Sample.t1000 Sample.t1030)
                Sample.world))
  = [Find scheduleslot (lookup_filter (Sample.booking Sample.t1000 Sample.t1030)) 1;
     InsertOne "booking"
       (booking_record (Sample.booking Sample.t1000 Sample.t1030)
          (Some Sample.slot_b));
     update_call 8 3]
  ∧ calls (snd (create_booking_api (Sample.booking Sample.t1000 Sample.t1030)
                  Scenario.world_failing_second))
    = [Find scheduleslot (lookup_filter (Sample.booking Sample.t1000 Sample.t1030)) 1;
       InsertOne "booking"
         (booking_record (Sample.booking Sample.t1000 Sample.t1030)
            (Some Sample.slot_b))].
Proof.
  split.
  - destruct (create_booking_call_order
                (Sample.booking Sample.t1000 Sample.t1030) Sample.world)
      as [H|[H|(slot & o & n & Hs & Ho & Hn & _ & H)]].
    + vm_compute in H. discriminate.
    + vm_compute in H. discriminate.
    + vm_compute. reflexivity.
  - vm_compute. reflexivity.
Defined.

(** *** Two requests at once *)

Lemma create_document_frame w collection data :
  outage w (length (calls w)) = false ->
  fst (create_document collection data w) = Return (Py.to_hex 24 (next_oid w))
  ∧ outage (snd (create_document collection data w)) = outage w
  ∧ next_oid (snd (create_document collection data w)) = (next_oid w + 1)%N
  ∧ docs collection (snd (create_document collection data w))
    = docs collection w ++ [mk_doc (IdOid (next_oid w)) data]
  ∧ ∀ c, c ≠ collection ->
         docs c (snd (create_document collection data w)) = docs c w.
Proof.
  intros H. rewrite (create_document_run w collection data H). cbn [fst snd].
  repeat split.
  - unfold docs. cbn [collections]. rewrite lookup_insert_eq. reflexivity.
  - intros c Hc. unfold docs. cbn [collections].
    rewrite lookup_insert_ne by congruence. reflexivity.
Qed.

Lemma check_slot_accepts payload w slot more n :
  outage w (length (calls w)) = false ->
  matching_slots payload w = slot :: more ->
  fields slot !! "status" = Some (VStr "open") ->
  remaining_of slot = Some n -> 0 < n ->
  check_slot payload w
  = (Return (Some slot), log_call (Find scheduleslot (lookup_filter payload) 1) w).
Proof.
  intros Hserved Hm Hst Hn Hpos. unfold check_slot.
  rewrite bind_run. fold (lookup_filter payload).
  rewrite (lookup_run payload w Hserved), Hm.
  change (take 1 (slot :: more)) with [slot]. cbv beta iota.
  rewrite bool_decide_eq_false_2 by (intros Hne; apply Hne; exact Hst).
  rewrite bind_run, Hn. simpl.
  destruct (Z.leb_spec n 0); [lia | reflexivity].
Qed.

Lemma book_slot_run payload slot w :
  outage w (length (calls w)) = false ->
  book_slot payload (Some slot) w
  = (Return (BookingCreated.mk (Py.to_hex 24 (next_oid w)) "created"),
     snd (decrement_slot slot
            (snd (create_document "booking" (booking_record payload (Some slot)) w)))).
Proof.
  intros H. unfold book_slot.
  rewrite bind_run, (create_document_run w _ _ H).
  rewrite bind_run, try_except_swallow. reflexivity.
Qed.

(** The update sent for a slot as it was read, applied to the document the
    store holds under its identifier by then. *)
Lemma decrement_slot_stale slot w o n before d after f :
  outage w (length (calls w)) = false ->
  _id slot = IdOid o -> (o < 2 ^ 96)%N ->
  remaining_of slot = Some n ->
  docs scheduleslot w = before ++ d :: after ->
  _id d = IdOid o -> IdOid o ∉ map _id before ->
  slot_update n (fields d) = Some f ->
  docs scheduleslot (snd (decrement_slot slot w))
  = before ++ mk_doc (IdOid o) f :: after.
Proof.
  intros Hserved Hid Ho Hn Hdocs Hd Hfresh Hupd. unfold slot_update in Hupd.
  unfold decrement_slot. rewrite bind_run, Hid, (ObjectId_str o Ho).
  simpl. rewrite bind_run, Hn. simpl.
  unfold update_one, store_call. rewrite Hserved.
  change (docs scheduleslot (log_call ?ev w)) with (docs scheduleslot w).
  rewrite Hdocs.
  rewrite (update_first_unique (IdOid o) _ before d after f Hd Hfresh Hupd).
  unfold docs. simpl. rewrite lookup_insert_eq. reflexivity.
Qed.

(** X17: two requests served at once can oversell. When the lookups of
    both fall before the insert of either, on a slot with one place that
    both match, both pass the check: each is acknowledged, two bookings
    refer to the slot, and the slot ends booked with [remaining] at -1. *)
Theorem interleaved_requests_oversell p1 p2 w slot more1 more2 o :
  (∀ k, outage w k = false) ->
  NoDup (map _id (docs scheduleslot w)) ->
  matching_slots p1 w = slot :: more1 ->
  matching_slots p2 w = slot :: more2 ->
  _id slot = IdOid o -> (o < 2 ^ 96)%N ->
  fields slot !! "status" = Some (VStr "open") ->
  fields slot !! "remaining" = Some (VInt 1) ->
  fst (interleaved p1 p2 w)
  = Return (BookingCreated.mk (Py.to_hex 24 (next_oid w)) "created",
            BookingCreated.mk (Py.to_hex 24 (next_oid w + 1)) "created")
  ∧ docs "booking" (snd (interleaved p1 p2 w))
    = docs "booking" w
      ++ [mk_doc (IdOid (next_oid w)) (booking_record p1 (Some slot));
          mk_doc (IdOid (next_oid w + 1)) (booking_record p2 (Some slot))]
  ∧ booking_record p1 (Some slot) !! "schedule_slot_id"
    = booking_record p2 (Some slot) !! "schedule_slot_id"
  ∧ ∃ before after slot',
      docs scheduleslot w = before ++ slot :: after
      ∧ docs scheduleslot (snd (interleaved p1 p2 w)) = before ++ slot' :: after
      ∧ _id slot' = IdOid o
      ∧ fields slot' !! "remaining" = Some (VInt (-1))
      ∧ fields slot' !! "status" = Some (VStr "booked").
Proof.
  intros Hout Hnd Hm1 Hm2 Hid Ho Hopen Hrem.
  pose proof (remaining_of_int slot 1 Hrem) as Hn.
  assert (0 < 1) as Hpos by lia.
  destruct (matching_slots_head p1 w slot more1 Hm1) as [Hin _].
  destruct (unique_id_split _ slot Hnd Hin) as (before & after & Hdocs & Hfresh).
  rewrite Hid in Hfresh.
  unfold interleaved.
  rewrite bind_run, (check_slot_accepts p1 w slot more1 1 (Hout _) Hm1 Hopen Hn Hpos).
  remember (log_call (Find scheduleslot (lookup_filter p1) 1) w) as w1 eqn:Hw1.
  assert (outage w1 = outage w ∧ docs scheduleslot w1 = docs scheduleslot w
          ∧ docs "booking" w1 = docs "booking" w ∧ next_oid w1 = next_oid w)
    as (Ho1 & Hs1 & Hb1 & Hn1) by (subst w1; repeat split).
  assert (matching_slots p2 w1 = slot :: more2) as Hm2'
    by (unfold matching_slots; rewrite Hs1; exact Hm2).
  assert (outage w1 (length (calls w1)) = false) as Hserved1
    by (rewrite Ho1; apply Hout).
  rewrite bind_run, (check_slot_accepts p2 w1 slot more2 1 Hserved1 Hm2' Hopen Hn Hpos).
  remember (log_call (Find scheduleslot (lookup_filter p2) 1) w1) as w2 eqn:Hw2.
  assert (outage w2 = outage w1 ∧ docs scheduleslot w2 = docs scheduleslot w1
          ∧ docs "booking" w2 = docs "booking" w1 ∧ next_oid w2 = next_oid w1)
    as (Ho2 & Hs2 & Hb2 & Hn2) by (subst w2; repeat split).
  assert (outage w2 (length (calls w2)) = false) as Hserved2
    by (rewrite Ho2, Ho1; apply Hout).
  rewrite bind_run, (book_slot_run p1 slot w2 Hserved2).
  destruct (create_document_frame w2 "booking" (booking_record p1 (Some slot))
              Hserved2) as (_ & Ho3 & Hn3 & Hb3 & Hoth3).
  remember (snd (create_document "booking" (booking_record p1 (Some slot)) w2))
    as w3 eqn:Hw3.
  assert (outage w3 (length (calls w3)) = false) as Hserved3
    by (rewrite Ho3, Ho2, Ho1; apply Hout).
  pose proof (decrement_slot_stale slot w3 o 1 before slot after
                (<["status" := VStr "booked"]>
                   (<["remaining" := VInt 0]> (fields slot)))
                Hserved3 Hid Ho Hn) as Hs4.
  rewrite (Hoth3 scheduleslot), Hs2, Hs1 in Hs4 by discriminate.
  specialize (Hs4 Hdocs Hid Hfresh).
  assert (slot_update 1 (fields slot)
          = Some (<["status" := VStr "booked"]>
                    (<["remaining" := VInt 0]> (fields slot)))) as Hu1.
  { unfold slot_update, apply_update. simpl foldr. unfold apply_inc. simpl.
    rewrite Hrem. reflexivity. }
  specialize (Hs4 Hu1).
  destruct (decrement_slot_frame slot w3) as (Hn4 & Ho4 & _ & _).
  pose proof (decrement_slot_booking slot w3) as Hb4.
  remember (snd (decrement_slot slot w3)) as w4 eqn:Hw4.
  assert (outage w4 (length (calls w4)) = false) as Hserved4
    by (rewrite Ho4, Ho3, Ho2, Ho1; apply Hout).
  rewrite bind_run, (book_slot_run p2 slot w4 Hserved4).
  destruct (create_document_frame w4 "booking" (booking_record p2 (Some slot))
              Hserved4) as (_ & Ho5 & Hn5 & Hb5 & Hoth5).
  remember (snd (create_document "booking" (booking_record p2 (Some slot)) w4))
    as w5 eqn:Hw5.
  assert (outage w5 (length (calls w5)) = false) as Hserved5
    by (rewrite Ho5, Ho4, Ho3, Ho2, Ho1; apply Hout).
  pose proof (decrement_slot_stale slot w5 o 1 before
                (mk_doc (IdOid o)
                   (<["status" := VStr "booked"]>
                      (<["remaining" := VInt 0]> (fields slot))))
                after
                (<["status" := VStr "booked"]>
                   (<["remaining" := VInt (-1)]>
                      (<["status" := VStr "booked"]>
                         (<["remaining" := VInt 0]> (fields slot)))))
                Hserved5 Hid Ho Hn) as Hs6.
  rewrite (Hoth5 scheduleslot) in Hs6 by discriminate.
  specialize (Hs6 Hs4 eq_refl Hfresh).
  assert (slot_update 1 (<["status" := VStr "booked"]>
                           (<["remaining" := VInt 0]> (fields slot)))
          = Some (<["status" := VStr "booked"]>
                    (<["remaining" := VInt (-1)]>
                       (<["status" := VStr "booked"]>
                          (<["remaining" := VInt 0]> (fields slot)))))) as Hu2.
  { unfold slot_update, apply_update. simpl foldr. unfold apply_inc. simpl.
    rewrite lookup_insert_ne by discriminate. rewrite lookup_insert_eq.
    reflexivity. }
  specialize (Hs6 Hu2).
  pose proof (decrement_slot_booking slot w5) as Hb6.
  cbn [fst snd ret].
  split.
  { rewrite Hn4, Hn3, Hn2, Hn1. reflexivity. }
  split.
  { rewrite Hb6, Hb5, Hb4, Hb3, Hn4, Hn3, Hb2, Hb1, Hn2, Hn1, <- app_assoc.
    reflexivity. }
  split.
  { rewrite !booking_record_slot_id. reflexivity. }
  exists before, after. eexists. split; [exact Hdocs|]. split; [exact Hs6|].
  simpl. split; [reflexivity|]. split.
  - rewrite lookup_insert_ne by discriminate. apply lookup_insert_eq.
  - apply lookup_insert_eq.
Qed.

Lemma interleaved_requests_oversell_witness :
  fst (interleaved (Sample.booking Sample.t0900 Sample.t0930)
         (Sample.booking Sample.t0900 Sample.t0930) Sample.world)
  = Return (BookingCreated.mk "000000000000000000001000" "created",
            BookingCreated.mk "000000000000000000001001" "created")
  ∧ length (docs "booking"
              (snd (interleaved (Sample.booking Sample.t0900 Sample.t0930)
                      (Sample.booking Sample.t0900 Sample.t0930) Sample.world)))
    = 2%nat
  ∧ ∃ before after slot',
      docs scheduleslot Sample.world = before ++ Sample.slot_a :: after
      ∧ docs scheduleslot
          (snd (interleaved (Sample.booking Sample.t0900 Sample.t0930)
                  (Sample.booking Sample.t0900 Sample.t0930) Sample.world))
        = before ++ slot' :: after
      ∧ _id slot' = IdOid 7
      ∧ fields slot' !! "remaining" = Some (VInt (-1))
      ∧ fields slot' !! "status" = Some (VStr "booked").
Proof.
  destruct (interleaved_requests_oversell
              (Sample.booking Sample.t0900 Sample.t0930)
              (Sample.booking Sample.t0900 Sample.t0930)
              Sample.world Sample.slot_a [] [] 7)
    as (Hret & Hdocs & _ & Hslot).
  - intros k. reflexivity.
  - refine (bool_decide_unpack _ _). vm_compute. exact I.
  - vm_compute. reflexivity.
  - vm_compute. reflexivity.
  - reflexivity.
  - reflexivity.
  - vm_compute. reflexivity.
  - vm_compute. reflexivity.
  - split; [exact Hret|]. split; [rewrite Hdocs; reflexivity | exact Hslot].
Defined.

(** ** Booking, then asking for availability *)

Lemma unique_id_eq (ds : list Doc) a b :
  NoDup (map _id ds) -> In a ds -> In b ds -> _id a = _id b -> a = b.
Proof.
  intros Hnd Ha Hb Hid.
  destruct (unique_id_split ds a Hnd Ha) as (before & after & -> & Hfresh).
  apply List.in_app_or in Hb as [Hb|[Hb|Hb]].
  - exfalso. apply Hfresh. rewrite Hid.
    apply list_elem_of_In, List.in_map. exact Hb.
  - exact Hb.
  - exfalso. rewrite map_app in Hnd. simpl in Hnd.
    apply NoDup_app in Hnd as (_ & _ & Hnd).
    apply NoDup_cons in Hnd as [Hnot _]. apply Hnot. rewrite Hid.
    apply list_elem_of_In, List.in_map. exact Hb.
Qed.

(** X18: once a request has taken the last place of a slot, no
    availability query offers that slot any more: none of the documents a
    later query returns is the one stored under the identifier of the
    slot. *)
Theorem booked_slot_is_not_offered payload w slot more o q slots :
  (∀ k, outage w k = false) ->
  NoDup (map _id (docs scheduleslot w)) ->
  matching_slots payload w = slot :: more ->
  _id slot = IdOid o -> (o < 2 ^ 96)%N ->
  fields slot !! "status" = Some (VStr "open") ->
  fields slot !! "remaining" = Some (VInt 1) ->
  fst (check_availability q (snd (create_booking_api payload w))) = Return slots ->
  ∃ stored,
    slots = map normalize stored
    ∧ Forall (fun d => In d (docs scheduleslot (snd (create_booking_api payload w)))
                       ∧ _id d ≠ IdOid o) stored.
Proof.
  intros Hout Hnd Hm Hid Ho Hopen Hrem Hret.
  destruct (booking_takes_place payload w slot more o 1 Hout Hnd Hm Hid Ho Hopen Hrem)
    as (_ & _ & Hnd' & Hm' & _); [lia|].
  cbv zeta in Hm', Hnd'.
  destruct (check_availability_return q _ slots Hret)
    as (start_day & end_day & _ & _ & ->).
  eexists. split; [reflexivity|].
  apply List.Forall_forall. intros d Hin.
  apply in_take_filter in Hin as [Hin Hmatch]. split; [exact Hin|].
  intros Hd.
  destruct (matching_slots_head payload _ _ more Hm') as [Hin' _].
  pose proof (unique_id_eq _ d _ Hnd' Hin Hin' Hd) as ->.
  pose proof (matches_lookup _ _ _ _ Hmatch (availability_filter_status q _ _))
    as Hst.
  apply holds_eq_str in Hst. simpl in Hst.
  rewrite lookup_insert_eq in Hst. discriminate.
Qed.

Lemma booked_slot_is_not_offered_witness :
  fst (check_availability (Sample.availability (Some "2024-01-10")) Sample.world)
  = Return (map normalize [Sample.slot_a; Sample.slot_b; Sample.slot_d; Sample.slot_e])
  ∧ fst (check_availability (Sample.availability (Some "2024-01-10"))
           (snd (create_booking_api (Sample.booking Sample.t0900 Sample.t0930)
                   Sample.world)))
    = Return (map normalize [Sample.slot_b; Sample.slot_d; Sample.slot_e])
  ∧ ∃ stored,
      map normalize [Sample.slot_b; Sample.slot_d; Sample.slot_e]
      = map normalize stored
      ∧ Forall (fun d =>
                  In d (docs scheduleslot
                          (snd (create_booking_api
                                  (Sample.booking Sample.t0900 Sample.t0930)
                                  Sample.world)))
                  ∧ _id d ≠ IdOid 7) stored.
Proof.
  split; [vm_compute; reflexivity|]. split; [vm_compute; reflexivity|].
  apply (booked_slot_is_not_offered
           (Sample.booking Sample.t0900 Sample.t0930) Sample.world
           Sample.slot_a [] 7 (Sample.availability (Some "2024-01-10"))).
  - intros k. reflexivity.
  - refine (bool_decide_unpack _ _). vm_compute. exact I.
  - vm_compute. reflexivity.
  - reflexivity.
  - reflexivity.
  - vm_compute. reflexivity.
  - vm_compute. reflexivity.
  - vm_compute. reflexivity.
Defined.
